(** * go-tftpd: a shallow embedding of the TFTP server and its properties

    The development follows the latest revision of the server
    (package [tftpd]: [handleConnection], [handleRequest], [newRequest],
    [newResponse], [handleResponse], [handleError], [sendResponse],
    [prepareFromRequest], [newTFTPError]) together with [util.go]
    ([toCString], [readCString]).

    Go values are rendered as follows.
    - [[]byte] is [list byte]; every slice the decoder handles comes from
      the receive buffer by re-slicing from the left, so its capacity is
      its length and a slice expression is in range exactly when its
      bounds are within the list.  An out-of-range index or slice bound
      is a run-time panic, rendered by [Panic].
    - [string] is [string]; [string(b)] and [[]byte(s)] are
      [string_of_list_byte] and [list_byte_of_string].
    - [int] and [int64] are [Z] ([int64] arithmetic wraps, see [wrap64]);
      [uint16] is a [Z] kept in [0, 65536) by [wrap16].
    - [map[string]*client] is a [gmap string client]; the pointer held by
      the table is the client the pipeline mutates, which [commit]
      accounts for.
    - the operating system (files, open streams, the datagram socket) is
      the explicit state [World]. *)

From Stdlib Require Import ZArith Lia List Bool.
From Stdlib Require Import Strings.Byte Strings.String Strings.Ascii.
From stdpp Require Import gmap strings list.

Import ListNotations.
Local Open Scope Z_scope.

(** ** Errors and results *)

(** Error numbers the operating system hands back (inside [*fs.PathError]). *)
Inductive errno : Type :=
| ENOENT   (* errors.Is(err, fs.ErrNotExist) *)
| EACCES   (* errors.Is(err, fs.ErrPermission) *)
| ENOSPC   (* errors.Is(err, syscall.ENOSPC) *)
| EBADF    (* write on a stream opened read-only *)
| ECLOSED  (* os.ErrClosed: use of a closed stream *)
| EINVALID (* os.ErrInvalid: method called on a nil *os.File *).

(** The [error] values that flow through the pipeline. *)
Inductive error : Type :=
| errTFTP (code : Z) (message : string)    (* *tftpError *)
| endOfSession                             (* the sentinel variable *)
| errCString                               (* fmt.Errorf("Incorrect c string") *)
| errOS (e : errno)                        (* errors of package os *)
| errEOF                                   (* io.EOF *)
| errNet                                   (* failure of listener.WriteTo *).

(** What a Go call yields: a value, a non-nil [error], or a panic. *)
Inductive result (A : Type) : Type :=
| Ok (a : A)
| Err (e : error)
| Panic.

Arguments Ok {A} a.
Arguments Err {A} e.
Arguments Panic {A}.

Definition bind {A B : Type} (r : result A) (k : A -> result B) : result B :=
  match r with
  | Ok a => k a
  | Err e => Err e
  | Panic => Panic
  end.

Notation "'let*' x ':=' r 'in' k" := (bind r (fun x => k))
  (at level 10, x name, r at level 100, k at level 200).
Notation "'let*' ' p ':=' r 'in' k" := (bind r (fun p => k))
  (at level 10, p pattern, r at level 100, k at level 200).

(** A call of the standard library that reports failure through its
    [error] result and never panics. *)
Inductive fallible (A : Type) : Type :=
| Val (a : A)
| Fail (e : error).

Arguments Val {A} a.
Arguments Fail {A} e.

(** ** Bytes, integers and slices *)

Definition byte_val (b : byte) : Z := Z.of_N (Byte.to_N b).

(** [byte(x)]: conversion of an integer to a byte keeps the low 8 bits. *)
Definition byte_of_Z (z : Z) : byte :=
  match Byte.of_N (Z.to_N (z mod 256)) with
  | Some b => b
  | None => Byte.x00
  end.

Definition wrap16 (z : Z) : Z := z mod 65536.

(** Two's complement wrap-around of [int64]. *)
Definition wrap64 (z : Z) : Z :=
  (z + 9223372036854775808) mod 18446744073709551616 - 9223372036854775808.

Definition len {A : Type} (s : list A) : Z := Z.of_nat (length s).

(** [s[i]] *)
Definition index (s : list byte) (i : Z) : result byte :=
  if (0 <=? i) && (i <? len s)
  then match nth_error s (Z.to_nat i) with
       | Some b => Ok b
       | None => Panic
       end
  else Panic.

(** [s[lo:]] *)
Definition slice_from (s : list byte) (lo : Z) : result (list byte) :=
  if (0 <=? lo) && (lo <=? len s) then Ok (skipn (Z.to_nat lo) s) else Panic.

(** [s[:hi]] *)
Definition slice_to (s : list byte) (hi : Z) : result (list byte) :=
  if (0 <=? hi) && (hi <=? len s) then Ok (firstn (Z.to_nat hi) s) else Panic.

(** [binary.BigEndian.Uint16(b)]: panics unless [b] has two bytes. *)
Definition Uint16 (b : list byte) : result Z :=
  match b with
  | b0 :: b1 :: _ => Ok (byte_val b0 * 256 + byte_val b1)
  | _ => Panic
  end.

(** [binary.BigEndian.PutUint16] on a two-byte destination. *)
Definition PutUint16 (v : Z) : list byte :=
  [byte_of_Z (Z.shiftr v 8); byte_of_Z v].

(** ** util.go *)

Definition toCString (src : string) : list byte :=
  list_byte_of_string src ++ [Byte.x00].

(** The loop [for ; end < len(src) && src[end] != 0; end++ {}]: the value
    of [end] when it stops. *)
Fixpoint scanNUL (src : list byte) : nat :=
  match src with
  | [] => 0%nat
  | b :: rest => if Byte.eqb b Byte.x00 then 0%nat else S (scanNUL rest)
  end.

Definition readCString (src : list byte) : result (Z * string) :=
  let end_ := scanNUL src in
  if (length src <=? end_)%nat
  then Err errCString
  else Ok (Z.of_nat end_ + 1, string_of_list_byte (firstn end_ src)).

(** ** The operating system

    The server's collaborators are a file store and a datagram socket.
    The store is a flat name space of files with permission bits, a flag
    saying whether new names may be entered, and a count of free bytes.
    A [*os.File] is an index into the table of streams the process has
    opened ([None] is the nil pointer).  The socket records what was
    handed to the network; [w_net] lists, call by call, whether the next
    [WriteTo] fails (an exhausted list means success). *)

Record inode : Type := {
  i_data : list byte;
  i_read : bool;
  i_write : bool
}.

Record stream : Type := {
  st_name : string;
  st_pos : nat;
  st_writable : bool;   (* O_RDWR (os.Create) rather than O_RDONLY (os.Open) *)
  st_closed : bool
}.

Inductive log_event : Type :=
| LogNewClient (tid : string)
| LogPeerError (message : string) (number : Z)
| LogReceived (tid : string)
| LogUnexpected (e : error)
| LogError (e : error).

Record World : Type := {
  w_files : gmap string inode;
  w_dir_writable : bool;
  w_free : nat;
  w_open : list stream;
  w_net : list bool;
  w_sent : list (string * list byte);
  w_log : list log_event
}.

Definition set_store (files : gmap string inode) (free : nat) (w : World)
    : World :=
  {| w_files := files; w_dir_writable := w_dir_writable w; w_free := free;
     w_open := w_open w; w_net := w_net w; w_sent := w_sent w;
     w_log := w_log w |}.

Definition set_open (o : list stream) (w : World) : World :=
  {| w_files := w_files w; w_dir_writable := w_dir_writable w;
     w_free := w_free w; w_open := o; w_net := w_net w; w_sent := w_sent w;
     w_log := w_log w |}.

Definition set_socket (net : list bool) (sent : list (string * list byte))
    (w : World) : World :=
  {| w_files := w_files w; w_dir_writable := w_dir_writable w;
     w_free := w_free w; w_open := w_open w; w_net := net; w_sent := sent;
     w_log := w_log w |}.

Definition log_Print (ev : log_event) (w : World) : World :=
  {| w_files := w_files w; w_dir_writable := w_dir_writable w;
     w_free := w_free w; w_open := w_open w; w_net := w_net w;
     w_sent := w_sent w; w_log := w_log w ++ [ev] |}.

Definition new_stream (name : string) (writable : bool) : stream :=
  {| st_name := name; st_pos := 0; st_writable := writable;
     st_closed := false |}.

(** [os.Stat(name)]: the size of the file, or the reason it has none. *)
Definition os_Stat (name : string) (w : World) : fallible Z :=
  match w_files w !! name with
  | Some i => Val (len (i_data i))
  | None => Fail (errOS ENOENT)
  end.

(** [os.Open(name)]: open for reading only. *)
Definition os_Open (name : string) (w : World) : fallible nat * World :=
  match w_files w !! name with
  | None => (Fail (errOS ENOENT), w)
  | Some i =>
      if i_read i
      then (Val (length (w_open w)),
            set_open (w_open w ++ [new_stream name false]) w)
      else (Fail (errOS EACCES), w)
  end.

(** [os.Create(name)]: create or truncate, open for reading and writing. *)
Definition os_Create (name : string) (w : World) : fallible nat * World :=
  if String.eqb name "" then (Fail (errOS ENOENT), w) else
  match w_files w !! name with
  | Some i =>
      if i_write i
      then (Val (length (w_open w)),
            set_open (w_open w ++ [new_stream name true])
              (set_store
                 (<[name := {| i_data := []; i_read := i_read i;
                               i_write := true |}]> (w_files w))
                 (w_free w + length (i_data i)) w))
      else (Fail (errOS EACCES), w)
  | None =>
      if w_dir_writable w
      then (Val (length (w_open w)),
            set_open (w_open w ++ [new_stream name true])
              (set_store
                 (<[name := {| i_data := []; i_read := true;
                               i_write := true |}]> (w_files w))
                 (w_free w) w))
      else (Fail (errOS EACCES), w)
  end.

(** The stream behind a [*os.File], when it may be used. *)
Definition live_stream (f : option nat) (w : World) : fallible stream :=
  match f with
  | None => Fail (errOS EINVALID)
  | Some fd =>
      match w_open w !! fd with
      | None => Fail (errOS EINVALID)
      | Some st => if st_closed st then Fail (errOS ECLOSED) else Val st
      end
  end.

Definition stream_data (st : stream) (w : World) : list byte :=
  match w_files w !! st_name st with
  | Some i => i_data i
  | None => []
  end.

Definition update_stream (f : option nat) (st : stream) (w : World) : World :=
  match f with
  | Some fd => set_open (<[fd := st]> (w_open w)) w
  | None => w
  end.

(** [f.Stat()] followed by [stat.Size()]. *)
Definition file_Stat (f : option nat) (w : World) : fallible Z :=
  match live_stream f w with
  | Val st => Val (len (stream_data st w))
  | Fail e => Fail e
  end.

(** [f.Read(buf)]: the bytes read (their number is [n]) and [err]. *)
Definition file_Read (f : option nat) (buf : list byte) (w : World)
    : list byte * option error * World :=
  match live_stream f w with
  | Val st =>
      match buf with
      | [] => ([], None, w)
      | _ :: _ =>
          let chunk :=
            firstn (length buf) (skipn (st_pos st) (stream_data st w)) in
          match chunk with
          | [] => ([], Some errEOF, w)
          | _ :: _ =>
              (chunk, None,
               update_stream f
                 {| st_name := st_name st;
                    st_pos := st_pos st + length chunk;
                    st_writable := st_writable st;
                    st_closed := false |} w)
          end
      end
  | Fail e => ([], Some e, w)
  end.

(** The file after [payload] is written at offset [pos]. *)
Definition write_at (data : list byte) (pos : nat) (payload : list byte)
    : list byte :=
  firstn pos (data ++ repeat Byte.x00 (pos - length data))
  ++ payload ++ skipn (pos + length payload) data.

(** [f.Write(payload)]: writes what the free space allows. *)
Definition file_Write (f : option nat) (payload : list byte) (w : World)
    : option error * World :=
  match live_stream f w with
  | Val st =>
      if st_writable st then
        match w_files w !! st_name st with
        | None => (Some (errOS ENOENT), w)
        | Some i =>
            let room := (length (i_data i) - st_pos st + w_free w)%nat in
            let part := firstn room payload in
            let data := write_at (i_data i) (st_pos st) part in
            let w' :=
              update_stream f
                {| st_name := st_name st;
                   st_pos := st_pos st + length part;
                   st_writable := true; st_closed := false |}
                (set_store
                   (<[st_name st := {| i_data := data; i_read := i_read i;
                                       i_write := i_write i |}]> (w_files w))
                   (w_free w - (length data - length (i_data i))) w) in
            if (length payload <=? room)%nat
            then (None, w')
            else (Some (errOS ENOSPC), w')
        end
      else (Some (errOS EBADF), w)
  | Fail e => (Some e, w)
  end.

(** [f.Close()] *)
Definition file_Close (f : option nat) (w : World) : option error * World :=
  match live_stream f w with
  | Val st =>
      (None,
       update_stream f
         {| st_name := st_name st; st_pos := st_pos st;
            st_writable := st_writable st; st_closed := true |} w)
  | Fail e => (Some e, w)
  end.

(** [io.Copy(f, bytes.NewReader(b))]: [bytes.Reader.WriteTo] returns at
    once on an empty reader and otherwise makes a single [Write]. *)
Definition io_Copy (f : option nat) (b : list byte) (w : World)
    : option error * World :=
  match b with
  | [] => (None, w)
  | _ :: _ => file_Write f b w
  end.

(** [listener.WriteTo(pkt, addr)] *)
Definition listener_WriteTo (pkt : list byte) (addr : string) (w : World)
    : option error * World :=
  match w_net w with
  | true :: rest => (Some errNet, set_socket rest (w_sent w) w)
  | false :: rest => (None, set_socket rest (w_sent w ++ [(addr, pkt)]) w)
  | [] => (None, set_socket [] (w_sent w ++ [(addr, pkt)]) w)
  end.

(** ** Protocol constants *)

(** [type operation byte] *)
Definition operation : Type := byte.

Definition opUNK : operation := Byte.x00.
Definition opRRQ : operation := Byte.x01.
Definition opWRQ : operation := Byte.x02.
Definition opDATA : operation := Byte.x03.
Definition opACK : operation := Byte.x04.
Definition opERROR : operation := Byte.x05.

(** [type errorCode uint16] *)
Definition ecNDEF : Z := 0.
Definition ecFNF : Z := 1.
Definition ecACV : Z := 2.
Definition ecDSK : Z := 3.
Definition ecILL : Z := 4.
Definition ecUTID : Z := 5.
Definition ecFEX : Z := 6.
Definition ecNOUS : Z := 7.

Definition tftpErrors : list string :=
  [ ""; "File not found."; "Access violation.";
    "Disk full or allocation exceeded."; "Illegal TFTP operation.";
    "Unknown transfer ID."; "File already exists."; "No such user." ]%string.

(** [type tftpError struct]; as an [error] it is [errTFTP code message]. *)
Record tftpError : Type := {
  code : Z;
  message : string
}.

Definition as_error (e : tftpError) : error := errTFTP (code e) (message e).

Definition newTFTPError (code : Z) (clientMessage : list string)
    : tftpError :=
  let code := if ecNOUS <? code then ecNDEF else code in
  let message := nth (Z.to_nat code) tftpErrors ""%string in
  let message :=
    if code =? ecNDEF then String.concat " " clientMessage else message in
  {| code := code; message := message |}.

Definition hdrsize : Z := 4.
Definition defaultBlockSize : Z := 512.
Definition bodyMaxSize : nat := 2048.

(** ** Sessions, requests and responses *)

Record client : Type := {
  tid : string;
  file : option nat;
  inited : bool;
  lastPkt : bool;
  blockSize : Z;
  bytesLeft : Z
}.

Definition newClient (tid : string) : client :=
  {| tid := tid; file := None; inited := false; lastPkt := false;
     blockSize := 0; bytesLeft := 0 |}.

Record request : Type := {
  req_numRead : Z;
  req_body : list byte;
  req_opcode : operation;
  req_number : Z;
  req_filename : string;
  req_mode : string;
  req_errorMessage : string
}.

Record response : Type := {
  resp_opcode : operation;
  resp_number : Z;
  resp_body : list byte
}.

Record TFTPServer : Type := {
  connections : gmap string client;
  listener : World
}.

Definition set_world (w : World) (s : TFTPServer) : TFTPServer :=
  {| connections := connections s; listener := w |}.

(** ** Decoding a datagram *)

Definition newRequest (numRead : Z) (body : list byte) : result request :=
  let* op := index body 1 in
  let* body := slice_from body 2 in
  if Byte.eqb op opRRQ || Byte.eqb op opWRQ then
    let* '(n, filename) := readCString body in
    let* body := slice_from body n in
    let* '(n, mode) := readCString body in
    if negb (String.eqb mode "octet") then
      Err (as_error
             (newTFTPError ecNDEF
                [("Incorrect mode '" ++ mode
                  ++ "'. This server supports only 'octet' mode.")%string]))
    else
      let* body := slice_from body n in
      Ok {| req_numRead := numRead; req_body := body; req_opcode := op;
            req_number := 0; req_filename := filename; req_mode := mode;
            req_errorMessage := "" |}
  else if Byte.eqb op opDATA || Byte.eqb op opACK then
    let* field := slice_to body 2 in
    let* number := Uint16 field in
    let* body := slice_from body 2 in
    let* body := slice_to body (numRead - hdrsize) in
    Ok {| req_numRead := numRead; req_body := body; req_opcode := op;
          req_number := number; req_filename := ""; req_mode := "";
          req_errorMessage := "" |}
  else if Byte.eqb op opERROR then
    let* field := slice_to body 2 in
    let* number := Uint16 field in
    let* body := slice_from body 2 in
    let* '(n, message) := readCString body in
    let* body := slice_from body n in
    Ok {| req_numRead := numRead; req_body := body; req_opcode := op;
          req_number := number; req_filename := ""; req_mode := "";
          req_errorMessage := message |}
  else
    Ok {| req_numRead := numRead; req_body := body; req_opcode := op;
          req_number := 0; req_filename := ""; req_mode := "";
          req_errorMessage := "" |}.

(** ** Opening the backing stream *)

(** The [switch] that maps a failed open onto a TFTP error. *)
Definition map_open_error (e : error) : error :=
  match e with
  | errOS ENOENT => as_error (newTFTPError ecFNF [])
  | errOS EACCES => as_error (newTFTPError ecACV [])
  | errOS ENOSPC => as_error (newTFTPError ecDSK [])
  | _ => e
  end.

Definition prepareFromRequest (cli : client) (req : request) (w : World)
    : option error * client * World :=
  let opened :=
    if Byte.eqb (req_opcode req) opRRQ then
      Val (os_Open (req_filename req) w)
    else
      match os_Stat (req_filename req) w with
      | Fail (errOS ENOENT) => Val (os_Create (req_filename req) w)
      | _ => Fail (as_error (newTFTPError ecFEX []))
      end in
  match opened with
  | Val (Val f, w) =>
      match file_Stat (Some f) w with
      | Val size =>
          (None,
           {| tid := tid cli; file := Some f; inited := true;
              lastPkt := lastPkt cli; blockSize := defaultBlockSize;
              bytesLeft := size |},
           w)
      | Fail e => (Some e, cli, w)
      end
  | Val (Fail e, w) => (Some (map_open_error e), cli, w)
  | Fail e => (Some e, cli, w)
  end.

(** ** The per-datagram pipeline *)

Definition handleRequest (cli : client) (req : request) (s : TFTPServer)
    : option error * client * TFTPServer :=
  let op := req_opcode req in
  (* checking for illegal operations *)
  if (byte_val op <? byte_val opRRQ) || (byte_val opERROR <? byte_val op)
  then (Some (as_error (newTFTPError ecILL [])), cli, s)
  (* checking for the last ack *)
  else if Byte.eqb op opACK && inited cli && lastPkt cli
  then (Some endOfSession, cli,
        {| connections := delete (tid cli) (connections s);
           listener := listener s |})
  (* checking for unknown client *)
  else if negb (inited cli) && negb (Byte.eqb op opRRQ)
          && negb (Byte.eqb op opWRQ)
  then (Some (as_error (newTFTPError ecUTID [])), cli, s)
  else
    let '(err, cli, w) :=
      if negb (inited cli)
      then prepareFromRequest cli req
             (log_Print (LogNewClient (tid cli)) (listener s))
      else (None, cli, listener s) in
    match err with
    | Some e => (Some e, cli, set_world w s)
    | None =>
        if Byte.eqb op opERROR then
          (None, cli,
           set_world
             (log_Print
                (LogPeerError (req_errorMessage req) (req_number req)) w) s)
        else if Byte.eqb op opDATA then
          match io_Copy (file cli) (req_body req) w with
          | (Some (errOS ENOSPC), w) =>
              (Some (as_error (newTFTPError ecDSK [])), cli, set_world w s)
          | (err, w) => (err, cli, set_world w s)
          end
        else (None, cli, set_world w s)
    end.

(** [make([]byte, n)] panics on a negative [n]. *)
Definition make_bytes (n : Z) : result (list byte) :=
  if n <? 0 then Panic else Ok (repeat Byte.x00 (Z.to_nat n)).

Definition newResponse (cli : client) (req : request) : result response :=
  let op := req_opcode req in
  if Byte.eqb op opRRQ || Byte.eqb op opACK then
    let* body := make_bytes (blockSize cli) in
    Ok {| resp_opcode := opDATA; resp_number := wrap16 (req_number req + 1);
          resp_body := body |}
  else if Byte.eqb op opWRQ || Byte.eqb op opDATA then
    Ok {| resp_opcode := opACK; resp_number := req_number req;
          resp_body := [] |}
  else
    Ok {| resp_opcode := opUNK; resp_number := 0; resp_body := [] |}.

Definition handleResponse (cli : client) (resp : response) (s : TFTPServer)
    : option error * client * response * TFTPServer :=
  if Byte.eqb (resp_opcode resp) opDATA then
    let '(chunk, err, w) := file_Read (file cli) (resp_body resp) (listener s) in
    let n := len chunk in
    let buf := chunk ++ skipn (length chunk) (resp_body resp) in
    match err with
    (* err != nil && err != io.EOF *)
    | Some (errTFTP _ _ as e) | Some (endOfSession as e)
    | Some (errCString as e) | Some (errOS _ as e) | Some (errNet as e) =>
        (Some e, cli, resp, set_world w s)
    | Some errEOF | None =>
        let '(last, w) :=
          if bytesLeft cli <=? 0
          then (true,
                snd (file_Close (file cli)
                       (log_Print (LogReceived (tid cli)) w)))
          else (lastPkt cli, w) in
        (None,
         {| tid := tid cli; file := file cli; inited := inited cli;
            lastPkt := last; blockSize := blockSize cli;
            bytesLeft := wrap64 (bytesLeft cli - n) |},
         {| resp_opcode := resp_opcode resp; resp_number := resp_number resp;
            resp_body := firstn (Z.to_nat n) buf |},
         set_world w s)
    end
  else (None, cli, resp, s).

Definition sendResponse (cli : client) (resp : response) (s : TFTPServer)
    : option error * TFTPServer :=
  let header := [Byte.x00; resp_opcode resp] ++ PutUint16 (resp_number resp) in
  let '(err, w) :=
    listener_WriteTo (header ++ resp_body resp) (tid cli) (listener s) in
  (err, set_world w s).

Definition sendError (cli : client) (err : tftpError) (s : TFTPServer)
    : option error * TFTPServer :=
  sendResponse cli
    {| resp_opcode := opERROR; resp_number := wrap16 (code err);
       resp_body := toCString (message err) |}
    (set_world (log_Print (LogError (as_error err)) (listener s)) s).

Definition handleError (cli : client) (err : error) (s : TFTPServer)
    : result (client * TFTPServer) :=
  let '(tftpErr, s) :=
    match err with
    | errTFTP c m => ({| code := c; message := m |}, s)
    | _ => (newTFTPError ecNDEF ["Unexpected error."%string],
            set_world (log_Print (LogUnexpected err) (listener s)) s)
    end in
  let cli :=
    {| tid := tid cli; file := file cli; inited := true; lastPkt := true;
       blockSize := blockSize cli; bytesLeft := bytesLeft cli |} in
  match sendError cli tftpErr s with
  | (Some _, _) => Panic
  | (None, s) => Ok (cli, s)
  end.

(** The function literal [handleConnection] calls at once. *)
Definition pipeline (cli : client) (numRead : Z) (body : list byte)
    (s : TFTPServer) : result (option error * client * TFTPServer) :=
  match newRequest numRead body with
  | Panic => Panic
  | Err e => Ok (Some e, cli, s)
  | Ok req =>
      match handleRequest cli req s with
      | (Some e, cli, s) => Ok (Some e, cli, s)
      | (None, cli, s) =>
          let* resp := newResponse cli req in
          match handleResponse cli resp s with
          | (Some e, cli, _, s) => Ok (Some e, cli, s)
          | (None, cli, resp, s) =>
              let '(err, s) := sendResponse cli resp s in
              Ok (err, cli, s)
          end
      end
  end.

(** The table holds a pointer to the client: what the pipeline wrote
    through [cli] is what the table shows, as long as the entry is there. *)
Definition commit (cli : client) (s : TFTPServer) : TFTPServer :=
  match connections s !! tid cli with
  | Some _ =>
      {| connections := <[tid cli := cli]> (connections s);
         listener := listener s |}
  | None => s
  end.

Definition is_endOfSession (e : error) : bool :=
  match e with
  | endOfSession => true
  | _ => false
  end.

(** The look-up that opens [handleConnection]: an address the table does
    not know gets a fresh client, entered at once. *)
Definition attach (addr : string) (s : TFTPServer) : client * TFTPServer :=
  match connections s !! addr with
  | Some cli => (cli, s)
  | None =>
      let cli := newClient addr in
      (cli,
       {| connections := <[tid cli := cli]> (connections s);
          listener := listener s |})
  end.

Definition handleConnection (addr : string) (numRead : Z) (body : list byte)
    (s : TFTPServer) : result TFTPServer :=
  let '(cli, s) := attach addr s in
  let* '(err, cli, s) := pipeline cli numRead body s in
  match err with
  | None => Ok (commit cli s)
  | Some e =>
      if is_endOfSession e then Ok (commit cli s)
      else
        let* '(cli, s) := handleError cli e s in
        Ok (commit cli s)
  end.

(** ** The serving loop *)

(** [listener.ReadFrom(body)]: the datagram overwrites the front of the
    buffer, which is never cleared; a longer datagram is cut. *)
Definition ReadFrom (dgram : list byte) (body : list byte) : Z * list byte :=
  let n := Nat.min (length dgram) (length body) in
  (Z.of_nat n, firstn n dgram ++ skipn n body).

Record process : Type := {
  server : TFTPServer;
  buffer : list byte
}.

(** One turn of the loop of [ListenAndServe], for a datagram [ReadFrom]
    delivered (a failed [ReadFrom] is logged and skipped, and changes
    nothing). *)
Definition serve_one (p : process) (addr : string) (dgram : list byte)
    : result process :=
  let '(numRead, body) := ReadFrom dgram (buffer p) in
  let* s := handleConnection addr numRead body (server p) in
  Ok {| server := s; buffer := body |}.

Fixpoint ListenAndServe (p : process) (inbox : list (string * list byte))
    : result process :=
  match inbox with
  | [] => Ok p
  | (addr, dgram) :: rest =>
      let* p := serve_one p addr dgram in
      ListenAndServe p rest
  end.

(** [NewTFTPServer] and the buffer [ListenAndServe] allocates. *)
Definition NewTFTPServer (w : World) : process :=
  {| server := {| connections := ∅; listener := w |};
     buffer := repeat Byte.x00 bodyMaxSize |}.

(** ** Datagrams on the wire

    What a client puts in a datagram, and what [sendResponse] and
    [sendError] hand to the socket. *)

Definition rrq_datagram (filename : string) : list byte :=
  [Byte.x00; opRRQ] ++ toCString filename ++ toCString "octet".

Definition wrq_datagram (filename : string) : list byte :=
  [Byte.x00; opWRQ] ++ toCString filename ++ toCString "octet".

Definition ack_datagram (number : Z) : list byte :=
  [Byte.x00; opACK] ++ PutUint16 number.

Definition data_datagram (number : Z) (payload : list byte) : list byte :=
  [Byte.x00; opDATA] ++ PutUint16 number ++ payload.

Definition error_datagram (code : Z) (message : string) : list byte :=
  [Byte.x00; opERROR] ++ PutUint16 code ++ toCString message.

(** The datagram [sendError] builds for an [error], after [handleError]
    has replaced anything but a [*tftpError] by the generic one. *)
Definition error_reply (e : error) : list byte :=
  match e with
  | errTFTP c m => error_datagram (wrap16 c) m
  | _ => error_datagram ecNDEF "Unexpected error."
  end.

(** The first test of [handleRequest]: the opcode is none of the five. *)
Definition illegal (op : operation) : bool :=
  (byte_val op <? byte_val opRRQ) || (byte_val opERROR <? byte_val op).

(** The error [handleRequest] returns for a request that is neither RRQ
    nor WRQ when the client is not initialised. *)
Definition refusal (op : operation) : tftpError :=
  if illegal op then newTFTPError ecILL [] else newTFTPError ecUTID [].

(** The client as [handleError] leaves it. *)
Definition terminated (cli : client) : client :=
  {| tid := tid cli; file := file cli; inited := true; lastPkt := true;
     blockSize := blockSize cli; bytesLeft := bytesLeft cli |}.

(** The next call of [WriteTo] succeeds. *)
Definition send_ok (w : World) : bool :=
  match w_net w with
  | true :: _ => false
  | _ => true
  end.

(** What holds of every table the server builds: an entry sits under its
    own transfer id and its block size was never negative. *)
Definition wf_client (addr : string) (cli : client) : Prop :=
  tid cli = addr /\ 0 <= blockSize cli.

Definition wf_server (s : TFTPServer) : Prop :=
  map_Forall wf_client (connections s).

(** What holds of the process as it starts and after every datagram it
    has served: the receive buffer keeps its size and the table is well
    formed. *)
Definition steady (p : process) : Prop :=
  length (buffer p) = bodyMaxSize /\ wf_server (server p).

(** The [i]-th block (from 1) of a file cut into pieces of
    [defaultBlockSize] bytes; empty once the file is exhausted. *)
Definition block (data : list byte) (i : nat) : list byte :=
  firstn (Z.to_nat defaultBlockSize)
    (skipn (Z.to_nat defaultBlockSize * (i - 1)) data).

(** The number of DATA blocks of a READ session: the blocks that carry
    the [n] bytes, and the empty one that ends the transfer. *)
Definition block_count (n : nat) : nat :=
  (n / 512 + (if n mod 512 =? 0 then 0 else 1) + 1)%nat.

(** The socket's side of the world, and the store's. *)
Definition socket (w : World) : list bool * list (string * list byte) :=
  (w_net w, w_sent w).

Definition store (w : World) : gmap string inode * nat :=
  (w_files w, w_free w).

(** ** A READ session, datagram by datagram *)

(** A stream after [n] more bytes were read from it. *)
Definition advance (st : stream) (n : nat) (closed : bool) : stream :=
  {| st_name := st_name st; st_pos := st_pos st + n;
     st_writable := st_writable st; st_closed := closed |}.

(** What a client sends that reads [filename] and acknowledges [j] blocks
    in turn. *)
Definition read_inbox (addr : string) (filename : string) (j : nat)
    : list (string * list byte) :=
  (addr, rrq_datagram filename)
  :: map (fun i => (addr, ack_datagram (Z.of_nat i))) (seq 1 j).

(** The DATA datagrams for blocks 1 to [m] of a file. *)
Definition data_blocks (addr : string) (data : list byte) (m : nat)
    : list (string * list byte) :=
  map (fun i => (addr, data_datagram (wrap16 (Z.of_nat i)) (block data i)))
    (seq 1 m).

(** The client and the stream of a session that reads [n] bytes, once
    the RRQ and [j] ACKs have been served. *)
Definition reading_client (addr : string) (fd : nat) (n j : nat) : client :=
  {| tid := addr; file := Some fd; inited := true;
     lastPkt := (n <=? 512 * j)%nat; blockSize := defaultBlockSize;
     bytesLeft := Z.of_nat (n - 512 * (j + 1)) |}.

Definition reading_stream (name : string) (n j : nat) : stream :=
  {| st_name := name; st_pos := Nat.min n (512 * (j + 1));
     st_writable := false; st_closed := (n <=? 512 * j)%nat |}.

(** The server after the RRQ and [j] ACKs of a session that reads the
    [n] bytes [data] of [name], started from [p0]. *)
Definition reading_after (p0 : process) (addr name : string)
    (data : list byte) (j : nat) (p : process) : Prop :=
  length (buffer p) = bodyMaxSize
  /\ connections (server p)
     = <[addr := reading_client addr (length (w_open (listener (server p0))))
                   (length data) j]>
         (connections (server p0))
  /\ w_open (listener (server p))
     = w_open (listener (server p0))
       ++ [reading_stream name (length data) j]
  /\ w_files (listener (server p)) = w_files (listener (server p0))
  /\ w_net (listener (server p)) = []
  /\ w_sent (listener (server p))
     = w_sent (listener (server p0)) ++ data_blocks addr data (j + 1).

(** ** Worlds and sessions used in examples *)

Definition file_of (data : list byte) : inode :=
  {| i_data := data; i_read := true; i_write := true |}.

(** A store holding the 1000-byte file [foo.txt]. *)
Definition world_foo : World :=
  {| w_files := {[ "foo.txt"%string := file_of (repeat Byte.x41 1000) ]};
     w_dir_writable := true; w_free := 4096; w_open := [];
     w_net := []; w_sent := []; w_log := [] |}.

(** The same store behind a socket whose next [WriteTo] fails. *)
Definition world_net_down : World :=
  {| w_files := w_files world_foo; w_dir_writable := true; w_free := 4096;
     w_open := []; w_net := [true]; w_sent := []; w_log := [] |}.

(** A client's transport address. *)
Definition peer : string := "192.0.2.7:49152".

(** The state of a READ session of [peer] on [foo.txt] whose first block
    has been sent. *)
Definition world_reading : World :=
  {| w_files := w_files world_foo; w_dir_writable := true; w_free := 4096;
     w_open := [ {| st_name := "foo.txt"; st_pos := 512;
                    st_writable := false; st_closed := false |} ];
     w_net := [];
     w_sent := [ (peer, data_datagram 1 (repeat Byte.x41 512)) ];
     w_log := [LogNewClient peer] |}.

Definition server_reading : TFTPServer :=
  {| connections :=
       {[ peer := {| tid := peer; file := Some 0%nat; inited := true;
                     lastPkt := false; blockSize := 512; bytesLeft := 488 |} ]};
     listener := world_reading |}.

Definition sent_by (r : result process) : list (string * list byte) :=
  match r with
  | Ok p => w_sent (listener (server p))
  | _ => []
  end.

Definition session_of (addr : string) (r : result process) : option client :=
  match r with
  | Ok p => connections (server p) !! addr
  | _ => None
  end.

Definition streams_of (r : result process) : list stream :=
  match r with
  | Ok p => w_open (listener (server p))
  | _ => []
  end.

Definition crashed {A : Type} (r : result A) : bool :=
  match r with
  | Panic => true
  | _ => false
  end.

(** ** Requests and tables in general *)

(** An RRQ or WRQ as a client may send it, with any transfer mode. *)
Definition open_datagram (op : operation) (filename mode : string)
    : list byte :=
  [Byte.x00; op] ++ toCString filename ++ toCString mode.

(** A request with another value in its [numRead] field. *)
Definition with_numRead (numRead : Z) (req : request) : request :=
  {| req_numRead := numRead; req_body := req_body req;
     req_opcode := req_opcode req; req_number := req_number req;
     req_filename := req_filename req; req_mode := req_mode req;
     req_errorMessage := req_errorMessage req |}.

(** Every entry of the table has completed its initialisation. *)
Definition settled (s : TFTPServer) : Prop :=
  map_Forall (fun _ cli => inited cli = true) (connections s).

(** ** A WRITE session, datagram by datagram *)

(** The client of a WRITE session on a file [os.Create] has just made. *)
Definition writing_client (addr : string) (fd : nat) : client :=
  {| tid := addr; file := Some fd; inited := true; lastPkt := false;
     blockSize := defaultBlockSize; bytesLeft := 0 |}.




(** ** More worlds and sessions used in examples *)


(** The state of a WRITE session of [peer] on the new file [new.txt],
    its WRQ acknowledged, with [free] bytes of free space left. *)
Definition world_writing (free : nat) : World :=
  {| w_files := <[ "new.txt"%string := file_of [] ]> (w_files world_foo);
     w_dir_writable := true; w_free := free;
     w_open := [ new_stream "new.txt" true ];
     w_net := [];
     w_sent := [ (peer, ack_datagram 0) ];
     w_log := [LogNewClient peer] |}.

Definition server_writing (free : nat) : TFTPServer :=
  {| connections := {[ peer := writing_client peer 0 ]};
     listener := world_writing free |}.

(** The processes that run those sessions, with the buffer as
    [ListenAndServe] allocates it. *)
Definition process_writing (free : nat) : process :=
  {| server := server_writing free; buffer := repeat Byte.x00 bodyMaxSize |}.

Definition process_reading : process :=
  {| server := server_reading; buffer := repeat Byte.x00 bodyMaxSize |}.

(** A second client's transport address. *)
Definition bystander : string := "198.51.100.9:1024".


(** * Properties *)

(** ** The wire codec *)

Lemma length_list_byte_of_string (s : string) :
  length (list_byte_of_string s) = String.length s.
Proof.
  induction s as [|c s IH]; simpl; [reflexivity|].
  unfold list_byte_of_string in *. simpl. f_equal. exact IH.
Qed.

Lemma scanNUL_app (l rest : list byte) :
  ~ In Byte.x00 l -> scanNUL (l ++ Byte.x00 :: rest) = length l.
Proof.
  induction l as [|b l IH]; simpl; intros Hn; [reflexivity|].
  destruct (Byte.eqb b Byte.x00) eqn:E.
  - apply Byte.byte_dec_bl in E. exfalso. apply Hn. left. exact E.
  - f_equal. apply IH. intros Hin. apply Hn. right. exact Hin.
Qed.

(** Decoding stops at the first NUL, whatever follows it in the buffer. *)
Lemma readCString_app (l rest : list byte) :
  ~ In Byte.x00 l ->
  readCString (l ++ Byte.x00 :: rest) = Ok (len l + 1, string_of_list_byte l).
Proof.
  intros Hn. unfold readCString. rewrite (scanNUL_app l rest Hn).
  rewrite length_app. simpl.
  destruct (Nat.leb_spec (length l + S (length rest)) (length l)) as [H|H];
    [lia|].
  rewrite firstn_app, Nat.sub_diag, firstn_all. simpl. rewrite app_nil_r.
  reflexivity.
Qed.

(** C9: for every string without an embedded NUL byte, the empty string
    included, [readCString (toCString s)] succeeds and returns the pair
    [(len(s) + 1, s)]. *)
Theorem readCString_toCString (s : string) :
  ~ In Byte.x00 (list_byte_of_string s) ->
  readCString (toCString s) = Ok (Z.of_nat (String.length s) + 1, s).
Proof.
  intros Hn. unfold toCString. rewrite (readCString_app _ [] Hn).
  unfold len.
  rewrite length_list_byte_of_string, string_of_list_byte_of_string.
  reflexivity.
Qed.

Lemma readCString_toCString_witness :
  (~ In Byte.x00 (list_byte_of_string "hello world!")
   /\ readCString (toCString "hello world!") = Ok (13, "hello world!"%string))
  /\ (~ In Byte.x00 (list_byte_of_string "")
      /\ readCString (toCString "") = Ok (1, ""%string)).
Proof.
  split; split.
  - simpl. intuition discriminate.
  - apply (readCString_toCString "hello world!"). simpl. intuition discriminate.
  - simpl. tauto.
  - apply (readCString_toCString ""). simpl. tauto.
Defined.

(** ** What the steps leave alone *)

Ltac unfold_os :=
  unfold io_Copy, file_Stat in *;
  unfold file_Read, file_Write, file_Close, os_Open, os_Create, os_Stat in *;
  unfold update_stream, live_stream, log_Print, set_world in *;
  unfold set_open, set_store, set_socket in *.

Lemma file_Read_frame f buf w chunk err w' :
  file_Read f buf w = (chunk, err, w') ->
  socket w' = socket w /\ store w' = store w /\ w_log w' = w_log w
  /\ err <> Some endOfSession.
Proof.
  unfold_os. intros H.
  repeat case_match; simplify_eq; repeat split; auto; discriminate.
Qed.

Lemma file_Close_frame f w err w' :
  file_Close f w = (err, w') ->
  socket w' = socket w /\ store w' = store w /\ w_log w' = w_log w.
Proof.
  unfold_os. intros H. repeat case_match; simplify_eq; auto.
Qed.

Lemma io_Copy_socket f b w err w' :
  io_Copy f b w = (err, w') -> socket w' = socket w.
Proof.
  unfold_os. intros H. repeat case_match; simplify_eq; auto.
Qed.

Lemma prepareFromRequest_frame cli req w err cli' w' :
  prepareFromRequest cli req w = (err, cli', w') ->
  socket w' = socket w /\ tid cli' = tid cli
  /\ (0 <= blockSize cli -> 0 <= blockSize cli')
  /\ err <> Some endOfSession.
Proof.
  unfold prepareFromRequest, map_open_error. unfold_os. intros H.
  repeat case_match; simplify_eq; simpl; repeat split; auto; try lia; try discriminate.
Qed.

Lemma handleRequest_frame cli req s err cli' s' :
  handleRequest cli req s = (err, cli', s') ->
  socket (listener s') = socket (listener s)
  /\ tid cli' = tid cli
  /\ (0 <= blockSize cli -> 0 <= blockSize cli')
  /\ (connections s' = connections s
      \/ err = Some endOfSession
         /\ connections s' = delete (tid cli) (connections s)).
Proof.
  unfold handleRequest. intros H.
  repeat case_match; simplify_eq; simpl; auto.
  all: repeat match goal with
       | H : prepareFromRequest _ _ _ = _ |- _ =>
           apply prepareFromRequest_frame in H; simpl in H;
           destruct H as (? & ? & ? & ?)
       | H : io_Copy _ _ _ = _ |- _ => apply io_Copy_socket in H
       end; auto 6.
  all: unfold socket in *; simpl in *; repeat split; auto; congruence.
Qed.

Lemma handleResponse_frame cli resp s err cli' resp' s' :
  handleResponse cli resp s = (err, cli', resp', s') ->
  socket (listener s') = socket (listener s)
  /\ store (listener s') = store (listener s)
  /\ tid cli' = tid cli
  /\ blockSize cli' = blockSize cli
  /\ connections s' = connections s
  /\ err <> Some endOfSession.
Proof.
  unfold handleResponse. intros H.
  destruct (Byte.eqb (resp_opcode resp) opDATA); [|simplify_eq; auto 7].
  destruct (file_Read _ _ _) as [[chunk e] w] eqn:HR.
  apply file_Read_frame in HR. destruct HR as (Hs & Hst & Hl & Hne).
  destruct (bytesLeft cli <=? 0).
  - destruct (file_Close (file cli) (log_Print (LogReceived (tid cli)) w))
      as [e2 w2] eqn:HC.
    apply file_Close_frame in HC. destruct HC as (Hs2 & Hst2 & _).
    unfold socket, store in *. simpl in *.
    destruct e as [[] |]; simplify_eq; simpl; repeat split; auto;
      try discriminate; try congruence.

  - unfold socket, store in *. simpl in *.
    destruct e as [[] |]; simplify_eq; simpl; repeat split; auto;
      try discriminate; try congruence.
Qed.

Lemma sendResponse_spec cli resp s :
  let pkt := [Byte.x00; resp_opcode resp] ++ PutUint16 (resp_number resp)
             ++ resp_body resp in
  sendResponse cli resp s =
    if send_ok (listener s)
    then (None,
          set_world
            (set_socket (tl (w_net (listener s)))
               (w_sent (listener s) ++ [(tid cli, pkt)]) (listener s)) s)
    else (Some errNet,
          set_world
            (set_socket (tl (w_net (listener s))) (w_sent (listener s))
               (listener s)) s).
Proof.
  unfold sendResponse, listener_WriteTo, send_ok.
  destruct (w_net (listener s)) as [|[] rest]; reflexivity.
Qed.

Lemma handleError_ok cli e s :
  send_ok (listener s) = true ->
  exists s',
    handleError cli e s = Ok (terminated cli, s')
    /\ connections s' = connections s
    /\ w_sent (listener s') = w_sent (listener s) ++ [(tid cli, error_reply e)]
    /\ store (listener s') = store (listener s)
    /\ w_open (listener s') = w_open (listener s).
Proof.
  intros Hok. unfold handleError, sendError, sendResponse, listener_WriteTo.
  unfold send_ok in Hok.
  destruct e; simpl; destruct (w_net (listener s)) as [|[] rest];
    try discriminate; eexists; repeat split.
Qed.

Lemma handleError_panic cli e s :
  send_ok (listener s) = false -> handleError cli e s = Panic.
Proof.
  intros Hok. unfold handleError, sendError, sendResponse, listener_WriteTo.
  unfold send_ok in Hok.
  destruct e; simpl; destruct (w_net (listener s)) as [|[] rest];
    try discriminate; reflexivity.
Qed.

(** ** Decoding never reads outside a full buffer *)

Lemma readCString_bound src n str :
  readCString src = Ok (n, str) -> 0 <= n <= len src.
Proof.
  unfold readCString, len. intros H.
  destruct (Nat.leb_spec (length src) (scanNUL src)); simplify_eq. lia.
Qed.

Lemma readCString_no_panic src : readCString src <> Panic.
Proof. unfold readCString. case_match; discriminate. Qed.

Lemma slice_from_ok s lo :
  0 <= lo <= len s -> slice_from s lo = Ok (skipn (Z.to_nat lo) s).
Proof.
  intros H. unfold slice_from.
  destruct (Z.leb_spec 0 lo), (Z.leb_spec lo (len s)); try lia. reflexivity.
Qed.

Lemma slice_to_ok s hi :
  0 <= hi <= len s -> slice_to s hi = Ok (firstn (Z.to_nat hi) s).
Proof.
  intros H. unfold slice_to.
  destruct (Z.leb_spec 0 hi), (Z.leb_spec hi (len s)); try lia. reflexivity.
Qed.

Lemma index_1 a b r : index (a :: b :: r) 1 = Ok b.
Proof.
  unfold index, len. simpl length.
  destruct (Z.ltb_spec 1 (Z.of_nat (S (S (length r))))); [reflexivity | lia].
Qed.

Lemma slice_from_2 a b r : slice_from (a :: b :: r) 2 = Ok r.
Proof. rewrite slice_from_ok; [reflexivity | unfold len; simpl length; lia]. Qed.

Lemma slice_to_2 a b r : slice_to (a :: b :: r) 2 = Ok [a; b].
Proof. rewrite slice_to_ok; [reflexivity | unfold len; simpl length; lia]. Qed.

Lemma newRequest_no_panic numRead body :
  hdrsize <= numRead <= len body -> newRequest numRead body <> Panic.
Proof.
  unfold hdrsize. intros Hn.
  destruct body as [|b0 [|b1 [|b2 [|b3 rest]]]];
    try (unfold len in Hn; simpl in Hn; lia).
  unfold newRequest. rewrite index_1, slice_from_2. cbn [bind].
  destruct (Byte.eqb b1 opRRQ || Byte.eqb b1 opWRQ).
  { destruct (readCString (b2 :: b3 :: rest)) as [[n f]| |] eqn:E1;
      cbn [bind]; try discriminate.
    - pose proof (readCString_bound _ _ _ E1) as Hb.
      rewrite slice_from_ok by exact Hb. cbn [bind].
      destruct (readCString (skipn (Z.to_nat n) (b2 :: b3 :: rest)))
        as [[n2 m]| |] eqn:E2; cbn [bind]; try discriminate.
      + pose proof (readCString_bound _ _ _ E2) as Hb2.
        destruct (negb (String.eqb m "octet")); cbv iota; [discriminate|].
        rewrite slice_from_ok by exact Hb2. discriminate.
      + exfalso. exact (readCString_no_panic _ E2).
    - exfalso. exact (readCString_no_panic _ E1). }
  destruct (Byte.eqb b1 opDATA || Byte.eqb b1 opACK).
  { rewrite slice_to_2, slice_from_2. cbn [bind Uint16].
    rewrite slice_to_ok
      by (unfold hdrsize, len in *; simpl length in Hn; lia).
    discriminate. }
  destruct (Byte.eqb b1 opERROR); [|discriminate].
  rewrite slice_to_2, slice_from_2. cbn [bind Uint16].
  destruct (readCString rest) as [[n f]| |] eqn:E1; cbn [bind];
    try discriminate.
  - pose proof (readCString_bound _ _ _ E1) as Hb.
    rewrite slice_from_ok by exact Hb. discriminate.
  - exfalso. exact (readCString_no_panic _ E1).
Qed.

Lemma newResponse_ok cli req :
  0 <= blockSize cli -> exists resp, newResponse cli req = Ok resp.
Proof.
  intros Hb. unfold newResponse, make_bytes.
  destruct (Z.ltb_spec (blockSize cli) 0); [lia|].
  repeat case_match; cbn [bind]; eauto.
Qed.

(** ** What one run of the pipeline can do *)

Lemma pipeline_outcome cli numRead body s :
  0 <= blockSize cli ->
  newRequest numRead body <> Panic ->
  exists err cli' s',
    pipeline cli numRead body s = Ok (err, cli', s')
    /\ tid cli' = tid cli
    /\ 0 <= blockSize cli'
    /\ match err with
       | None =>
           connections s' = connections s
           /\ exists pkt,
                w_sent (listener s') = w_sent (listener s) ++ [(tid cli, pkt)]
       | Some e =>
           w_sent (listener s') = w_sent (listener s)
           /\ (connections s' = connections s
               \/ e = endOfSession
                  /\ connections s' = delete (tid cli) (connections s))
           /\ (w_net (listener s') = w_net (listener s)
               \/ send_ok (listener s) = false)
       end.
Proof.
  intros Hb Hnp. unfold pipeline.
  destruct (newRequest numRead body) as [req|e|]; [| |congruence].
  2:{ exists (Some e), cli, s. repeat split; auto. }
  destruct (handleRequest cli req s) as [[err1 cli1] s1] eqn:HQ.
  apply handleRequest_frame in HQ. destruct HQ as (Hs1 & Ht1 & Hb1 & Hc1).
  unfold socket in Hs1. injection Hs1 as Hn1 Hsent1.
  destruct err1 as [e1|].
  { exists (Some e1), cli1, s1. repeat split; auto.
    destruct Hc1 as [?|[? ?]]; [left|right]; [auto|split; congruence]. }
  destruct Hc1 as [Hc1|[? _]]; [|discriminate].
  destruct (newResponse_ok cli1 req (Hb1 Hb)) as [resp Hresp].
  rewrite Hresp. cbn [bind].
  destruct (handleResponse cli1 resp s1) as [[[err2 cli2] resp2] s2] eqn:HR.
  apply handleResponse_frame in HR.
  destruct HR as (Hs2 & _ & Ht2 & Hb2 & Hc2 & Hne2).
  unfold socket in Hs2. injection Hs2 as Hn2 Hsent2.
  destruct err2 as [e2|].
  { exists (Some e2), cli2, s2. repeat split; try congruence; try lia.
    - left. congruence.
    - left. congruence. }
  rewrite sendResponse_spec. cbv zeta.
  destruct (send_ok (listener s2)) eqn:Hok.
  - eexists None, cli2, _. split; [reflexivity|].
    repeat split; simpl; try congruence; try lia.
    eexists. rewrite Hsent2, Hsent1, Ht2, Ht1. reflexivity.
  - eexists (Some errNet), cli2, _. split; [reflexivity|].
    repeat split; simpl; try congruence; try lia.
    + left. congruence.
    + right. unfold send_ok in *. rewrite <- Hn1, <- Hn2. exact Hok.
Qed.

Lemma attach_spec addr s cli s0 :
  wf_server s ->
  attach addr s = (cli, s0) ->
  tid cli = addr /\ 0 <= blockSize cli
  /\ connections s0 !! addr = Some cli
  /\ wf_server s0
  /\ listener s0 = listener s
  /\ (forall a, a <> addr -> connections s0 !! a = connections s !! a).
Proof.
  unfold attach, wf_server. intros Hwf H.
  destruct (connections s !! addr) as [c|] eqn:E; simplify_eq.
  - destruct (Hwf _ _ E). auto 7.
  - simpl. split_and!.
    + reflexivity.
    + lia.
    + apply lookup_insert_eq.
    + apply map_Forall_insert_2; [split; simpl; [reflexivity | lia] | exact Hwf].
    + reflexivity.
    + intros a Ha. apply lookup_insert_ne. congruence.
Qed.

Lemma commit_listener cli s : listener (commit cli s) = listener s.
Proof. unfold commit. case_match; reflexivity. Qed.

Lemma commit_wf cli s :
  0 <= blockSize cli -> wf_server s -> wf_server (commit cli s).
Proof.
  unfold commit, wf_server. intros Hb Hwf. case_match; [|exact Hwf].
  simpl. apply map_Forall_insert_2; [split; [reflexivity|exact Hb] | exact Hwf].
Qed.

Lemma ReadFrom_bounds dgram buf numRead body :
  length buf = bodyMaxSize ->
  ReadFrom dgram buf = (numRead, body) ->
  length body = bodyMaxSize
  /\ numRead = Z.of_nat (Nat.min (length dgram) bodyMaxSize)
  /\ body = firstn (Z.to_nat numRead) dgram ++ skipn (Z.to_nat numRead) buf.
Proof.
  unfold ReadFrom. intros Hl H. rewrite Hl in H. simplify_eq.
  rewrite Nat2Z.id. split_and!; [|reflexivity..].
  rewrite length_app, length_firstn, length_skipn, Hl.
  unfold bodyMaxSize. lia.
Qed.

Lemma pipeline_panic cli numRead body s :
  newRequest numRead body = Panic -> pipeline cli numRead body s = Panic.
Proof. unfold pipeline. intros ->. reflexivity. Qed.

Lemma is_endOfSession_true e : is_endOfSession e = true <-> e = endOfSession.
Proof. destruct e; simpl; split; congruence. Qed.

(** How [handleConnection] ends, by the way the pipeline ended. *)
Lemma handleConnection_outcome addr numRead body s cli0 s0 :
  wf_server s ->
  newRequest numRead body <> Panic ->
  attach addr s = (cli0, s0) ->
  exists err cli1 s1,
    pipeline cli0 numRead body s0 = Ok (err, cli1, s1)
    /\ tid cli1 = addr /\ 0 <= blockSize cli1
    /\ match err with
       | None =>
           handleConnection addr numRead body s = Ok (commit cli1 s1)
           /\ connections s1 = connections s0
           /\ exists pkt,
                w_sent (listener s1) = w_sent (listener s) ++ [(addr, pkt)]
       | Some e =>
           w_sent (listener s1) = w_sent (listener s)
           /\ if is_endOfSession e then
                handleConnection addr numRead body s = Ok (commit cli1 s1)
                /\ (connections s1 = connections s0
                    \/ connections s1 = delete addr (connections s0))
              else
                connections s1 = connections s0
                /\ if send_ok (listener s1) then
                     exists s2,
                       handleConnection addr numRead body s
                       = Ok (commit (terminated cli1) s2)
                       /\ connections s2 = connections s1
                       /\ w_sent (listener s2)
                          = w_sent (listener s) ++ [(addr, error_reply e)]
                       /\ store (listener s2) = store (listener s1)
                       /\ w_open (listener s2) = w_open (listener s1)
                   else
                     handleConnection addr numRead body s = Panic
                     /\ send_ok (listener s) = false
       end.
Proof.
  intros Hwf Hnp Hat.
  destruct (attach_spec _ _ _ _ Hwf Hat) as (Ht0 & Hb0 & Hl0 & Hwf0 & Hw0 & _).
  destruct (pipeline_outcome cli0 numRead body s0 Hb0 Hnp)
    as (err & cli1 & s1 & Hp & Ht1 & Hb1 & Hcase).
  exists err, cli1, s1. split; [exact Hp|]. split; [congruence|].
  split; [exact Hb1|].
  unfold handleConnection. rewrite Hat, Hp. cbn [bind].
  destruct err as [e|].
  - destruct Hcase as (Hsent & Hconn & Hnet). rewrite Hw0 in Hsent, Hnet.
    split; [exact Hsent|].
    destruct (is_endOfSession e) eqn:He.
    + split; [reflexivity|]. rewrite Ht0 in Hconn. tauto.
    + assert (e <> endOfSession) as Hne
        by (intros ->; discriminate).
      destruct Hconn as [Hconn|[? _]]; [|contradiction].
      split; [exact Hconn|].
      destruct (send_ok (listener s1)) eqn:Hok.
      * destruct (handleError_ok cli1 e s1 Hok)
          as (s2 & HE & Hc2 & Hs2 & Hst2 & Ho2).
        exists s2. rewrite HE. cbn [bind]. split_and!; auto.
        rewrite Hs2, Hsent, Ht1, Ht0. reflexivity.
      * rewrite (handleError_panic cli1 e s1 Hok). split; [reflexivity|].
        destruct Hnet as [Hnet|Hnet]; [|exact Hnet].
        unfold send_ok in *. rewrite <- Hnet. exact Hok.
  - destruct Hcase as (Hconn & pkt & Hsent). rewrite Hw0, Ht0 in Hsent.
    split_and!; eauto.
Qed.

Lemma NewTFTPServer_steady w : steady (NewTFTPServer w).
Proof.
  split; [apply repeat_length | apply map_Forall_empty].
Qed.

Lemma serve_one_steady p addr dgram p' :
  steady p -> serve_one p addr dgram = Ok p' -> steady p'.
Proof.
  intros [Hbuf Hwf]. unfold serve_one.
  destruct (ReadFrom dgram (buffer p)) as [numRead body] eqn:HR.
  destruct (ReadFrom_bounds _ _ _ _ Hbuf HR) as (Hlb & _ & _).
  destruct (handleConnection addr numRead body (server p)) as [s'| |] eqn:HC;
    cbn [bind]; try discriminate.
  intros [= <-]. split; [exact Hlb|]. cbn [server].
  assert (newRequest numRead body <> Panic) as Hnp.
  { intros Hp. unfold handleConnection in HC.
    destruct (attach addr (server p)) as [c0 s0].
    rewrite (pipeline_panic _ _ _ _ Hp) in HC. discriminate. }
  destruct (attach addr (server p)) as [cli0 s0] eqn:Hat.
  destruct (attach_spec _ _ _ _ Hwf Hat) as (_ & _ & _ & Hwf0 & _ & _).
  destruct (handleConnection_outcome _ _ _ _ _ _ Hwf Hnp Hat)
    as (err & cli1 & s1 & _ & _ & Hb1 & Hcase).
  assert (forall st, connections st = connections s0
                     \/ connections st = delete addr (connections s0) ->
                     wf_server st) as Hkeep.
  { intros st [E|E]; unfold wf_server; rewrite E;
      [exact Hwf0 | apply map_Forall_delete; exact Hwf0]. }
  destruct err as [e|].
  - destruct Hcase as (_ & Hcase).
    destruct (is_endOfSession e).
    + destruct Hcase as (HC' & Hc). rewrite HC' in HC. injection HC as <-.
      apply commit_wf; [exact Hb1 | apply Hkeep, Hc].
    + destruct Hcase as (Hc1 & Hcase).
      destruct (send_ok (listener s1)).
      * destruct Hcase as (s2 & HC' & Hc2 & _). rewrite HC' in HC.
        injection HC as <-.
        apply commit_wf; [exact Hb1 | apply Hkeep; left; congruence].
      * destruct Hcase as (HC' & _). congruence.
  - destruct Hcase as (HC' & Hc & _). rewrite HC' in HC. injection HC as <-.
    apply commit_wf; [exact Hb1 | apply Hkeep; left; exact Hc].
Qed.

(** C2 (amended): for every datagram of at least four bytes that the
    server receives in a state it can reach ([steady]), the pipeline
    itself ends without a panic, and [handleConnection] turns its
    outcome into at most one outbound packet: the regular response when
    nothing failed, nothing after the end-of-session sentinel, and exactly
    one ERROR packet for any other failure of decoding, validation, file
    I/O or the sending of the response.  The process panics exactly when
    that ERROR packet cannot be sent. *)
Theorem datagram_of_four_bytes_is_recovered (p : process) (addr : string)
    (dgram : list byte) :
  steady p ->
  (4 <= length dgram)%nat ->
  let sent0 := w_sent (listener (server p)) in
  exists err cli1 s1,
    pipeline (fst (attach addr (server p)))
      (fst (ReadFrom dgram (buffer p))) (snd (ReadFrom dgram (buffer p)))
      (snd (attach addr (server p)))
    = Ok (err, cli1, s1)
    /\ match err with
       | None =>
           exists pkt, sent_by (serve_one p addr dgram) = sent0 ++ [(addr, pkt)]
                       /\ crashed (serve_one p addr dgram) = false
       | Some e =>
           if is_endOfSession e then
             sent_by (serve_one p addr dgram) = sent0
             /\ crashed (serve_one p addr dgram) = false
           else if send_ok (listener s1) then
             sent_by (serve_one p addr dgram)
             = sent0 ++ [(addr, error_reply e)]
             /\ crashed (serve_one p addr dgram) = false
           else
             serve_one p addr dgram = Panic
             /\ send_ok (listener (server p)) = false
       end.
Proof.
  intros [Hbuf Hwf] Hlen sent0.
  destruct (ReadFrom dgram (buffer p)) as [numRead body] eqn:HR.
  destruct (ReadFrom_bounds _ _ _ _ Hbuf HR) as (Hlb & Hn & _).
  assert (newRequest numRead body <> Panic) as Hnp.
  { apply newRequest_no_panic. unfold hdrsize, len. rewrite Hlb, Hn.
    unfold bodyMaxSize. lia. }
  destruct (attach addr (server p)) as [cli0 s0] eqn:Hat.
  destruct (handleConnection_outcome _ _ _ _ _ _ Hwf Hnp Hat)
    as (err & cli1 & s1 & Hp & _ & _ & Hcase).
  exists err, cli1, s1. split; [exact Hp|].
  unfold serve_one. rewrite HR.
  destruct err as [e|].
  - destruct Hcase as (Hsent & Hcase).
    destruct (is_endOfSession e).
    + destruct Hcase as (-> & _). cbn. rewrite commit_listener. auto.
    + destruct Hcase as (_ & Hcase).
      destruct (send_ok (listener s1)).
      * destruct Hcase as (s2 & -> & _ & Hs2 & _). cbn.
        rewrite commit_listener. auto.
      * destruct Hcase as (-> & Hok). auto.
  - destruct Hcase as (-> & _ & pkt & Hsent). exists pkt. cbn.
    rewrite commit_listener. auto.
Qed.

Lemma datagram_of_four_bytes_is_recovered_witness :
  (steady (NewTFTPServer world_foo)
   /\ (4 <= length (ack_datagram 1))%nat)
  /\ exists err cli1 s1,
       pipeline (fst (attach peer (server (NewTFTPServer world_foo))))
         (fst (ReadFrom (ack_datagram 1) (buffer (NewTFTPServer world_foo))))
         (snd (ReadFrom (ack_datagram 1) (buffer (NewTFTPServer world_foo))))
         (snd (attach peer (server (NewTFTPServer world_foo))))
       = Ok (err, cli1, s1)
       /\ match err with
          | None =>
              exists pkt,
                sent_by (serve_one (NewTFTPServer world_foo) peer
                           (ack_datagram 1))
                = w_sent (listener (server (NewTFTPServer world_foo)))
                  ++ [(peer, pkt)]
                /\ crashed (serve_one (NewTFTPServer world_foo) peer
                              (ack_datagram 1)) = false
          | Some e =>
              if is_endOfSession e then
                sent_by (serve_one (NewTFTPServer world_foo) peer
                           (ack_datagram 1))
                = w_sent (listener (server (NewTFTPServer world_foo)))
                /\ crashed (serve_one (NewTFTPServer world_foo) peer
                              (ack_datagram 1)) = false
              else if send_ok (listener s1) then
                sent_by (serve_one (NewTFTPServer world_foo) peer
                           (ack_datagram 1))
                = w_sent (listener (server (NewTFTPServer world_foo)))
                  ++ [(peer, error_reply e)]
                /\ crashed (serve_one (NewTFTPServer world_foo) peer
                              (ack_datagram 1)) = false
              else
                serve_one (NewTFTPServer world_foo) peer (ack_datagram 1)
                = Panic
                /\ send_ok (listener (server (NewTFTPServer world_foo)))
                   = false
          end.
Proof.
  assert (steady (NewTFTPServer world_foo)) as H1
    by apply NewTFTPServer_steady.
  assert (4 <= length (ack_datagram 1))%nat as H2 by (simpl; lia).
  split; [auto|].
  exact (datagram_of_four_bytes_is_recovered (NewTFTPServer world_foo) peer
           (ack_datagram 1) H1 H2).
Defined.

Lemma handleRequest_unknown cli req s :
  inited cli = false ->
  req_opcode req <> opRRQ -> req_opcode req <> opWRQ ->
  handleRequest cli req s
  = (Some (as_error (refusal (req_opcode req))), cli, s).
Proof.
  intros Hi Hr Hw. unfold handleRequest, refusal, illegal. rewrite Hi.
  destruct ((byte_val (req_opcode req) <? byte_val opRRQ)
            || (byte_val opERROR <? byte_val (req_opcode req)));
    [reflexivity|].
  rewrite andb_false_r. cbn [andb negb].
  destruct (Byte.eqb (req_opcode req) opRRQ) eqn:E1;
    [apply Byte.byte_dec_bl in E1; contradiction|].
  destruct (Byte.eqb (req_opcode req) opWRQ) eqn:E2;
    [apply Byte.byte_dec_bl in E2; contradiction|].
  reflexivity.
Qed.

(** C5 (amended): a request that is neither RRQ nor WRQ and comes from an
    address without a table entry is answered, when the socket takes the
    packet, with one error: UNKNOWN_TRANSFER_ID for DATA, ACK and ERROR,
    ILLEGAL_OPERATION for an opcode outside 1..5.  No file or stream is
    touched, but the table gains an entry for the address, flagged inited
    and lastPkt and holding no stream. *)
Theorem request_without_session_is_refused (s : TFTPServer)
    (addr : string) (numRead : Z) (body : list byte) (req : request) :
  connections s !! addr = None ->
  newRequest numRead body = Ok req ->
  req_opcode req <> opRRQ ->
  req_opcode req <> opWRQ ->
  send_ok (listener s) = true ->
  exists s',
    handleConnection addr numRead body s = Ok s'
    /\ w_sent (listener s')
       = w_sent (listener s)
         ++ [(addr,
              if illegal (req_opcode req)
              then error_datagram ecILL "Illegal TFTP operation."
              else error_datagram ecUTID "Unknown transfer ID.")]
    /\ connections s'
       = <[addr := terminated (newClient addr)]> (connections s)
    /\ store (listener s') = store (listener s)
    /\ w_open (listener s') = w_open (listener s).
Proof.
  intros Hnone Hreq Hr Hw Hok.
  unfold handleConnection, attach. rewrite Hnone.
  unfold pipeline. rewrite Hreq.
  rewrite handleRequest_unknown by (reflexivity || assumption).
  cbn [bind]. cbn [is_endOfSession as_error].
  match goal with
  | |- context [handleError ?c ?e ?st] =>
      destruct (handleError_ok c e st Hok) as (s2 & -> & Hc & Hs & Hst & Ho)
  end.
  cbn [bind]. eexists. split; [reflexivity|].
  rewrite commit_listener. split_and!; auto.
  - rewrite Hs. cbn [tid newClient]. unfold refusal.
    destruct (illegal (req_opcode req)); reflexivity.
  - unfold commit. cbn [terminated tid newClient] in *. rewrite Hc. cbn.
    rewrite lookup_insert_eq. cbn. apply insert_insert_eq.
Qed.

Lemma request_without_session_is_refused_witness :
  (connections (server (NewTFTPServer world_foo)) !! peer = None
   /\ newRequest 4 (ack_datagram 1)
      = Ok {| req_numRead := 4; req_body := []; req_opcode := opACK;
              req_number := 1; req_filename := ""; req_mode := "";
              req_errorMessage := "" |}
   /\ opACK <> opRRQ
   /\ opACK <> opWRQ
   /\ send_ok (listener (server (NewTFTPServer world_foo))) = true)
  /\ exists s',
       handleConnection peer 4 (ack_datagram 1)
         (server (NewTFTPServer world_foo)) = Ok s'
       /\ w_sent (listener s')
          = w_sent (listener (server (NewTFTPServer world_foo)))
            ++ [(peer,
                 if illegal opACK
                 then error_datagram ecILL "Illegal TFTP operation."
                 else error_datagram ecUTID "Unknown transfer ID.")]
       /\ connections s'
          = <[peer := terminated (newClient peer)]>
              (connections (server (NewTFTPServer world_foo)))
       /\ store (listener s')
          = store (listener (server (NewTFTPServer world_foo)))
       /\ w_open (listener s')
          = w_open (listener (server (NewTFTPServer world_foo))).
Proof.
  assert (connections (server (NewTFTPServer world_foo)) !! peer = None)
    as H1 by reflexivity.
  assert (newRequest 4 (ack_datagram 1)
          = Ok {| req_numRead := 4; req_body := []; req_opcode := opACK;
                  req_number := 1; req_filename := ""; req_mode := "";
                  req_errorMessage := "" |}) as H2 by reflexivity.
  assert (opACK <> opRRQ) as H3 by discriminate.
  assert (opACK <> opWRQ) as H4 by discriminate.
  assert (send_ok (listener (server (NewTFTPServer world_foo))) = true)
    as H5 by reflexivity.
  split; [auto|].
  exact (request_without_session_is_refused
           (server (NewTFTPServer world_foo)) peer 4 (ack_datagram 1) _
           H1 H2 H3 H4 H5).
Defined.

Lemma prepareFromRequest_wrq_exists cli req w i :
  req_opcode req = opWRQ ->
  w_files w !! req_filename req = Some i ->
  prepareFromRequest cli req w
  = (Some (as_error (newTFTPError ecFEX [])), cli, w).
Proof.
  intros Hop Hf. unfold prepareFromRequest, os_Stat. rewrite Hop, Hf.
  reflexivity.
Qed.

Lemma handleRequest_wrq_exists cli req s i :
  req_opcode req = opWRQ ->
  w_files (listener s) !! req_filename req = Some i ->
  exists err s',
    handleRequest cli req s = (err, cli, s')
    /\ store (listener s') = store (listener s)
    /\ w_open (listener s') = w_open (listener s)
    /\ socket (listener s') = socket (listener s)
    /\ connections s' = connections s
    /\ (inited cli = false -> err = Some (as_error (newTFTPError ecFEX [])))
    /\ (inited cli = true -> err = None).
Proof.
  intros Hop Hf. unfold handleRequest. rewrite Hop.
  destruct (inited cli) eqn:Hi.
  - cbn. eexists _, _. split; [reflexivity|]. split_and!; auto; discriminate.
  - cbn -[prepareFromRequest].
    rewrite (prepareFromRequest_wrq_exists _ _ _ i Hop) by exact Hf.
    eexists _, _. split; [reflexivity|]. split_and!; auto; discriminate.
Qed.

Lemma pipeline_wrq_exists cli numRead body s req i err cli' s' :
  newRequest numRead body = Ok req ->
  req_opcode req = opWRQ ->
  w_files (listener s) !! req_filename req = Some i ->
  pipeline cli numRead body s = Ok (err, cli', s') ->
  store (listener s') = store (listener s).
Proof.
  intros Hreq Hop Hf. unfold pipeline. rewrite Hreq.
  destruct (handleRequest_wrq_exists cli req s i Hop Hf)
    as (e1 & s1 & -> & Hst1 & _).
  destruct e1; [intros [= <- <- <-]; exact Hst1|].
  destruct (newResponse cli req) as [resp| |]; cbn [bind]; try discriminate.
  destruct (handleResponse cli resp s1) as [[[e2 cli2] resp2] s2] eqn:HR.
  apply handleResponse_frame in HR. destruct HR as (_ & Hst2 & _).
  destruct e2; [intros [= <- <- <-]; congruence|].
  rewrite sendResponse_spec. cbv zeta.
  destruct (send_ok (listener s2)); intros [= <- <- <-];
    unfold store in *; cbn; congruence.
Qed.

(** C7 (amended): a WRQ that names an existing file and comes from an
    address without a table entry is answered with one FILE_ALREADY_EXISTS
    error, no stream being opened; and whatever the state of the session,
    a WRQ that names an existing file leaves every file and the free space
    as they were. *)
Theorem wrq_for_existing_file (s : TFTPServer) (addr : string)
    (numRead : Z) (body : list byte) (req : request) (i : inode) :
  newRequest numRead body = Ok req ->
  req_opcode req = opWRQ ->
  w_files (listener s) !! req_filename req = Some i ->
  wf_server s ->
  (connections s !! addr = None ->
   send_ok (listener s) = true ->
   exists s',
     handleConnection addr numRead body s = Ok s'
     /\ w_sent (listener s')
        = w_sent (listener s)
          ++ [(addr, error_datagram ecFEX "File already exists.")]
     /\ w_open (listener s') = w_open (listener s))
  /\ (forall s',
        handleConnection addr numRead body s = Ok s' ->
        w_files (listener s') = w_files (listener s)
        /\ w_free (listener s') = w_free (listener s)).
Proof.
  intros Hreq Hop Hf Hwf.
  assert (newRequest numRead body <> Panic) as Hnp by congruence.
  destruct (attach addr s) as [cli0 s0] eqn:Hat.
  destruct (attach_spec _ _ _ _ Hwf Hat) as (Ht0 & _ & _ & _ & Hl0 & _).
  destruct (handleConnection_outcome _ _ _ _ _ _ Hwf Hnp Hat)
    as (err & cli1 & s1 & Hp & Ht1 & _ & Hcase).
  assert (store (listener s1) = store (listener s)) as Hst1.
  { rewrite <- Hl0.
    eapply pipeline_wrq_exists; [exact Hreq | exact Hop | | exact Hp].
    rewrite Hl0. exact Hf. }
  split.
  - intros Hnone Hok.
    unfold attach in Hat. rewrite Hnone in Hat. injection Hat as <- <-.
    unfold pipeline in Hp. rewrite Hreq in Hp.
    match type of Hp with
    | context [handleRequest ?c ?r ?st] =>
        destruct (handleRequest_wrq_exists c r st i Hop Hf)
          as (e1 & s1' & HQ & _ & Ho1 & Hso1 & _ & He1 & _)
    end.
    rewrite HQ in Hp. rewrite (He1 eq_refl) in Hp.
    injection Hp as <- <- <-.
    destruct Hcase as (_ & Hcase). cbn [is_endOfSession as_error] in Hcase.
    destruct Hcase as (_ & Hcase).
    assert (send_ok (listener s1') = true) as Hok1.
    { unfold socket in Hso1. injection Hso1 as Hn _.
      unfold send_ok in *. cbn in Hn. rewrite Hn. exact Hok. }
    rewrite Hok1 in Hcase. destruct Hcase as (s2 & HC & _ & Hs2 & _ & Ho2).
    eexists. split; [exact HC|]. rewrite commit_listener.
    split; [exact Hs2|]. cbn in Ho1. congruence.
  - intros s' HC.
    assert (store (listener s') = store (listener s)) as Hst;
      [|unfold store in Hst; injection Hst; auto].
    destruct err as [e|].
    + destruct Hcase as (_ & Hcase).
      destruct (is_endOfSession e).
      * destruct Hcase as (HC' & _). rewrite HC' in HC.
        injection HC as <-. rewrite commit_listener. exact Hst1.
      * destruct Hcase as (_ & Hcase).
        destruct (send_ok (listener s1)).
        -- destruct Hcase as (s2 & HC' & _ & _ & Hst2 & _).
           rewrite HC' in HC. injection HC as <-.
           rewrite commit_listener. congruence.
        -- destruct Hcase as (HC' & _). congruence.
    + destruct Hcase as (HC' & _). rewrite HC' in HC.
      injection HC as <-. rewrite commit_listener. exact Hst1.
Qed.

Lemma wrq_for_existing_file_witness :
  (newRequest 16 (wrq_datagram "foo.txt")
   = Ok {| req_numRead := 16; req_body := []; req_opcode := opWRQ;
           req_number := 0; req_filename := "foo.txt"; req_mode := "octet";
           req_errorMessage := "" |}
   /\ opWRQ = opWRQ
   /\ w_files (listener (server (NewTFTPServer world_foo))) !! "foo.txt"%string
      = Some (file_of (repeat Byte.x41 1000))
   /\ wf_server (server (NewTFTPServer world_foo)))
  /\ (connections (server (NewTFTPServer world_foo)) !! peer = None ->
      send_ok (listener (server (NewTFTPServer world_foo))) = true ->
      exists s',
        handleConnection peer 16 (wrq_datagram "foo.txt")
          (server (NewTFTPServer world_foo)) = Ok s'
        /\ w_sent (listener s')
           = w_sent (listener (server (NewTFTPServer world_foo)))
             ++ [(peer, error_datagram ecFEX "File already exists.")]
        /\ w_open (listener s')
           = w_open (listener (server (NewTFTPServer world_foo))))
  /\ (forall s',
        handleConnection peer 16 (wrq_datagram "foo.txt")
          (server (NewTFTPServer world_foo)) = Ok s' ->
        w_files (listener s')
        = w_files (listener (server (NewTFTPServer world_foo)))
        /\ w_free (listener s')
           = w_free (listener (server (NewTFTPServer world_foo)))).
Proof.
  assert (newRequest 16 (wrq_datagram "foo.txt")
          = Ok {| req_numRead := 16; req_body := []; req_opcode := opWRQ;
                  req_number := 0; req_filename := "foo.txt";
                  req_mode := "octet"; req_errorMessage := "" |}) as H1
    by reflexivity.
  assert (w_files (listener (server (NewTFTPServer world_foo)))
            !! "foo.txt"%string
          = Some (file_of (repeat Byte.x41 1000))) as H3
    by (vm_compute; reflexivity).
  assert (wf_server (server (NewTFTPServer world_foo))) as H4
    by apply map_Forall_empty.
  split; [auto|].
  exact (wrq_for_existing_file (server (NewTFTPServer world_foo)) peer 16
           (wrq_datagram "foo.txt") _ _ H1 eq_refl H3 H4).
Defined.

Lemma newRequest_short numRead body :
  (length body < 2)%nat -> newRequest numRead body = Panic.
Proof.
  destruct body as [|b0 [|b1 rest]]; simpl; intros H; try lia; reflexivity.
Qed.

Lemma newRequest_opcode numRead b0 b1 rest req :
  newRequest numRead (b0 :: b1 :: rest) = Ok req -> req_opcode req = b1.
Proof.
  unfold newRequest. rewrite index_1, slice_from_2. unfold bind.
  intros H. repeat case_match; simplify_eq; reflexivity.
Qed.

(** C10: the response the server builds for a decoded WRQ or DATA request
    is an ACK that carries the request's block number, which is 0 for a
    WRQ and the big-endian field in bytes 2 and 3 of the datagram for
    DATA; [handleResponse] leaves it as it is and [sendResponse] puts it
    on the wire as the four bytes of that ACK. *)
Theorem ack_carries_request_block_number (cli : client) (numRead : Z)
    (body : list byte) (req : request) :
  newRequest numRead body = Ok req ->
  req_opcode req = opWRQ \/ req_opcode req = opDATA ->
  let resp := {| resp_opcode := opACK; resp_number := req_number req;
                 resp_body := [] |} in
  newResponse cli req = Ok resp
  /\ (req_opcode req = opWRQ -> req_number req = 0)
  /\ (req_opcode req = opDATA ->
      Uint16 (firstn 2 (skipn 2 body)) = Ok (req_number req))
  /\ forall s,
       handleResponse cli resp s = (None, cli, resp, s)
       /\ (send_ok (listener s) = true ->
           w_sent (listener (snd (sendResponse cli resp s)))
           = w_sent (listener s)
             ++ [(tid cli, ack_datagram (req_number req))]).
Proof.
  intros Hreq Hop resp.
  destruct body as [|b0 [|b1 rest]];
    try (rewrite newRequest_short in Hreq by (simpl; lia); discriminate).
  pose proof (newRequest_opcode _ _ _ _ _ Hreq) as Hb1.
  split_and!.
  - unfold newResponse. destruct Hop as [-> | ->]; reflexivity.
  - intros Hw. rewrite Hw in Hb1. subst b1.
    revert Hreq. unfold newRequest. rewrite index_1, slice_from_2.
    unfold bind. cbn. intros H. repeat case_match; simplify_eq; reflexivity.
  - intros Hd. rewrite Hd in Hb1. subst b1.
    revert Hreq. unfold newRequest. rewrite index_1, slice_from_2.
    cbn [bind].
    destruct rest as [|b2 [|b3 rest]]; try (cbn; discriminate).
    rewrite slice_to_2, slice_from_2. cbn.
    unfold bind. intros H. repeat case_match; simplify_eq; reflexivity.
  - intros s. split; [reflexivity|]. intros Hok.
    rewrite sendResponse_spec. cbv zeta. rewrite Hok. reflexivity.
Qed.

Lemma ack_carries_request_block_number_witness :
  (newRequest 6 (data_datagram 7 [Byte.x68; Byte.x69])
   = Ok {| req_numRead := 6; req_body := [Byte.x68; Byte.x69];
           req_opcode := opDATA; req_number := 7; req_filename := "";
           req_mode := ""; req_errorMessage := "" |}
   /\ (opDATA = opWRQ \/ opDATA = opDATA))
  /\ newResponse (newClient peer)
       {| req_numRead := 6; req_body := [Byte.x68; Byte.x69];
          req_opcode := opDATA; req_number := 7; req_filename := "";
          req_mode := ""; req_errorMessage := "" |}
     = Ok {| resp_opcode := opACK; resp_number := 7; resp_body := [] |}
  /\ (opDATA = opWRQ -> 7 = 0)
  /\ (opDATA = opDATA ->
      Uint16 (firstn 2 (skipn 2 (data_datagram 7 [Byte.x68; Byte.x69])))
      = Ok 7)
  /\ forall s,
       handleResponse (newClient peer)
         {| resp_opcode := opACK; resp_number := 7; resp_body := [] |} s
       = (None, newClient peer,
          {| resp_opcode := opACK; resp_number := 7; resp_body := [] |}, s)
       /\ (send_ok (listener s) = true ->
           w_sent (listener
                     (snd (sendResponse (newClient peer)
                             {| resp_opcode := opACK; resp_number := 7;
                                resp_body := [] |} s)))
           = w_sent (listener s)
             ++ [(tid (newClient peer), ack_datagram 7)]).
Proof.
  assert (newRequest 6 (data_datagram 7 [Byte.x68; Byte.x69])
          = Ok {| req_numRead := 6; req_body := [Byte.x68; Byte.x69];
                  req_opcode := opDATA; req_number := 7; req_filename := "";
                  req_mode := ""; req_errorMessage := "" |}) as H1
    by reflexivity.
  split; [split; [exact H1 | right; reflexivity]|].
  exact (ack_carries_request_block_number (newClient peer) 6
           (data_datagram 7 [Byte.x68; Byte.x69]) _ H1
           (or_intror eq_refl)).
Defined.

(** ** Block numbers on the wire *)

Lemma byte_val_of_Z z : byte_val (byte_of_Z z) = z mod 256.
Proof.
  unfold byte_val, byte_of_Z.
  assert (0 <= z mod 256 < 256) as Hr by (apply Z.mod_pos_bound; lia).
  destruct (Byte.of_N (Z.to_N (z mod 256))) as [b|] eqn:E.
  - apply Byte.to_of_N in E. rewrite E. lia.
  - apply Byte.of_N_None_iff in E. lia.
Qed.

Lemma Uint16_PutUint16 v rest :
  Uint16 (PutUint16 v ++ rest) = Ok (wrap16 v).
Proof.
  unfold Uint16, PutUint16, wrap16. cbn [app].
  rewrite !byte_val_of_Z, Z.shiftr_div_pow2 by lia.
  f_equal. change (2 ^ 8) with 256.
  pose proof (Z.div_mod v 256 ltac:(lia)).
  pose proof (Z.mod_pos_bound v 256 ltac:(lia)).
  pose proof (Z.div_mod (v / 256) 256 ltac:(lia)).
  pose proof (Z.mod_pos_bound (v / 256) 256 ltac:(lia)).
  pose proof (Z.div_mod v 65536 ltac:(lia)).
  pose proof (Z.mod_pos_bound v 65536 ltac:(lia)).
  lia.
Qed.

Lemma wrap16_succ v : wrap16 (wrap16 v + 1) = wrap16 (v + 1).
Proof. unfold wrap16. rewrite Zplus_mod_idemp_l. reflexivity. Qed.

Lemma wrap64_small z : 0 <= z < 9223372036854775808 -> wrap64 z = z.
Proof. intros H. unfold wrap64. rewrite Z.mod_small; lia. Qed.

(** ** Decoding the datagrams of a READ session *)

Lemma ReadFrom_fits dgram buf :
  (length dgram <= length buf)%nat ->
  ReadFrom dgram buf = (len dgram, dgram ++ skipn (length dgram) buf).
Proof.
  intros H. unfold ReadFrom, len. rewrite Nat.min_l by exact H.
  rewrite firstn_all. reflexivity.
Qed.

Lemma ReadFrom_length dgram buf :
  length (snd (ReadFrom dgram buf)) = length buf.
Proof.
  unfold ReadFrom. cbn [snd].
  rewrite length_app, length_firstn, length_skipn. lia.
Qed.

Lemma slice_from_app (l r : list byte) : slice_from (l ++ r) (len l) = Ok r.
Proof.
  rewrite slice_from_ok by (unfold len; rewrite length_app; lia).
  unfold len. rewrite Nat2Z.id, skipn_app, Nat.sub_diag, skipn_all.
  reflexivity.
Qed.

Lemma newRequest_ack n rest :
  newRequest 4 (ack_datagram n ++ rest)
  = Ok {| req_numRead := 4; req_body := []; req_opcode := opACK;
          req_number := wrap16 n; req_filename := ""; req_mode := "";
          req_errorMessage := "" |}.
Proof.
  unfold ack_datagram, PutUint16. cbn [app].
  unfold newRequest. rewrite index_1, slice_from_2. cbn [bind].
  change (Byte.eqb opACK opRRQ || Byte.eqb opACK opWRQ) with false.
  change (Byte.eqb opACK opDATA || Byte.eqb opACK opACK) with true.
  cbv iota. rewrite slice_to_2, slice_from_2. cbn [bind].
  change [byte_of_Z (Z.shiftr n 8); byte_of_Z n] with (PutUint16 n ++ []).
  rewrite Uint16_PutUint16. cbn [bind].
  rewrite slice_to_ok by (unfold hdrsize, len; lia).
  reflexivity.
Qed.

Lemma newRequest_rrq numRead name rest :
  ~ In Byte.x00 (list_byte_of_string name) ->
  newRequest numRead (rrq_datagram name ++ rest)
  = Ok {| req_numRead := numRead; req_body := rest; req_opcode := opRRQ;
          req_number := 0; req_filename := name; req_mode := "octet";
          req_errorMessage := "" |}.
Proof.
  intros Hn. unfold rrq_datagram, toCString. cbn [app].
  rewrite <- !app_assoc. cbn [app].
  unfold newRequest. rewrite index_1, slice_from_2. cbn [bind].
  change (Byte.eqb opRRQ opRRQ || Byte.eqb opRRQ opWRQ) with true.
  cbv iota. rewrite readCString_app by exact Hn. cbn [bind].
  rewrite string_of_list_byte_of_string.
  replace (len (list_byte_of_string name) + 1)
    with (len (list_byte_of_string name ++ [Byte.x00]))
    by (unfold len; rewrite length_app; simpl; lia).
  change (list_byte_of_string name
          ++ Byte.x00 :: list_byte_of_string "octet" ++ Byte.x00 :: rest)
    with (list_byte_of_string name
          ++ [Byte.x00] ++ list_byte_of_string "octet" ++ Byte.x00 :: rest).
  rewrite app_assoc, slice_from_app. cbn [bind].
  rewrite readCString_app by (simpl; intuition discriminate).
  cbn [bind]. rewrite string_of_list_byte_of_string.
  change (negb (String.eqb "octet" "octet")) with false. cbv iota.
  replace (len (list_byte_of_string "octet") + 1)
    with (len (list_byte_of_string "octet" ++ [Byte.x00]))
    by reflexivity.
  change (list_byte_of_string "octet" ++ Byte.x00 :: rest)
    with (list_byte_of_string "octet" ++ [Byte.x00] ++ rest).
  rewrite app_assoc, slice_from_app. reflexivity.
Qed.

(** ** Building a DATA block *)

Lemma live_stream_open fd st w :
  w_open w !! fd = Some st -> st_closed st = false ->
  live_stream (Some fd) w = Val st.
Proof. intros H Hc. unfold live_stream. rewrite H, Hc. reflexivity. Qed.

Lemma file_Read_live fd st w buf :
  w_open w !! fd = Some st -> st_closed st = false ->
  (0 < length buf)%nat ->
  file_Read (Some fd) buf w
  = let chunk :=
      firstn (length buf) (skipn (st_pos st) (stream_data st w)) in
    match chunk with
    | [] => ([], Some errEOF, w)
    | _ :: _ =>
        (chunk, None,
         set_open (<[fd := advance st (length chunk) false]> (w_open w)) w)
    end.
Proof.
  intros Hst Hcl Hb. unfold file_Read.
  rewrite (live_stream_open _ _ _ Hst Hcl).
  destruct buf; [simpl in Hb; lia|]. reflexivity.
Qed.

Lemma file_Close_live fd st w :
  w_open w !! fd = Some st -> st_closed st = false ->
  file_Close (Some fd) w
  = (None, set_open (<[fd := advance st 0 true]> (w_open w)) w).
Proof.
  intros Hst Hcl. unfold file_Close.
  rewrite (live_stream_open _ _ _ Hst Hcl). unfold update_stream, advance.
  rewrite Nat.add_0_r. reflexivity.
Qed.

Lemma firstn_len_app (l r : list byte) :
  firstn (Z.to_nat (len l)) (l ++ r) = l.
Proof.
  unfold len. rewrite Nat2Z.id, firstn_app, Nat.sub_diag, firstn_all.
  simpl. apply app_nil_r.
Qed.

Lemma handleResponse_data cli resp s fd st i :
  resp_opcode resp = opDATA ->
  (0 < length (resp_body resp))%nat ->
  file cli = Some fd ->
  w_open (listener s) !! fd = Some st ->
  st_closed st = false ->
  w_files (listener s) !! st_name st = Some i ->
  let chunk :=
    firstn (length (resp_body resp)) (skipn (st_pos st) (i_data i)) in
  let last := bytesLeft cli <=? 0 in
  exists s',
    handleResponse cli resp s
    = (None,
       {| tid := tid cli; file := file cli; inited := inited cli;
          lastPkt := if last then true else lastPkt cli;
          blockSize := blockSize cli;
          bytesLeft := wrap64 (bytesLeft cli - len chunk) |},
       {| resp_opcode := resp_opcode resp; resp_number := resp_number resp;
          resp_body := chunk |},
       s')
    /\ w_open (listener s')
       = <[fd := advance st (length chunk) last]> (w_open (listener s)).
Proof.
  intros Hop Hbuf Hf Hst Hcl Hi chunk last.
  assert (fd < length (w_open (listener s)))%nat as Hlt
    by (eapply lookup_lt_Some; exact Hst).
  unfold handleResponse. rewrite Hop.
  change (Byte.eqb opDATA opDATA) with true. cbv iota.
  rewrite Hf, (file_Read_live _ _ _ _ Hst Hcl Hbuf).
  unfold stream_data. rewrite Hi. cbv zeta. fold chunk. fold last.
  destruct chunk as [|c0 ch].
  - (* the file is exhausted *)
    destruct last.
    + rewrite (file_Close_live fd st) by assumption.
      eexists. split; [reflexivity|]. reflexivity.
    + eexists. split; [reflexivity|]. cbn [listener set_world].
      symmetry. apply list_insert_id. rewrite Hst. f_equal.
      destruct st. unfold advance. cbn in *. rewrite Nat.add_0_r.
      congruence.
  - destruct last.
    + rewrite (file_Close_live fd (advance st (length (c0 :: ch)) false))
        by (try reflexivity;
            change (w_open (log_Print ?e ?w)) with (w_open w);
            apply list_lookup_insert_eq; exact Hlt).
      eexists. split.
      * rewrite firstn_len_app. reflexivity.
      * cbn [listener set_world set_open w_open log_Print].
        rewrite list_insert_insert_eq. unfold advance. cbn.
        rewrite Nat.add_0_r. reflexivity.
    + eexists. split.
      * rewrite firstn_len_app. reflexivity.
      * reflexivity.
Qed.

(** ** The steps of a READ session *)

Lemma handleRequest_ack_active cli req s :
  req_opcode req = opACK -> inited cli = true -> lastPkt cli = false ->
  handleRequest cli req s = (None, cli, set_world (listener s) s).
Proof.
  intros Hop Hi Hl. unfold handleRequest. rewrite Hop, Hi, Hl. reflexivity.
Qed.

Lemma handleRequest_ack_last cli req s :
  req_opcode req = opACK -> inited cli = true -> lastPkt cli = true ->
  handleRequest cli req s
  = (Some endOfSession, cli,
     {| connections := delete (tid cli) (connections s);
        listener := listener s |}).
Proof.
  intros Hop Hi Hl. unfold handleRequest. rewrite Hop, Hi, Hl. reflexivity.
Qed.

Lemma set_world_id s : set_world (listener s) s = s.
Proof. destruct s; reflexivity. Qed.

Lemma send_ok_quiet w : w_net w = [] -> send_ok w = true.
Proof. unfold send_ok. intros ->. reflexivity. Qed.

(** An ACK on a READ session that is not yet flagged: the next block. *)
Lemma ack_builds_next_block s addr n rest cli fd st i :
  connections s !! addr = Some cli ->
  tid cli = addr -> inited cli = true -> lastPkt cli = false ->
  file cli = Some fd -> blockSize cli = defaultBlockSize ->
  w_open (listener s) !! fd = Some st -> st_closed st = false ->
  w_files (listener s) !! st_name st = Some i ->
  w_net (listener s) = [] ->
  let chunk := firstn 512 (skipn (st_pos st) (i_data i)) in
  let last := bytesLeft cli <=? 0 in
  exists s',
    handleConnection addr 4 (ack_datagram n ++ rest) s = Ok s'
    /\ connections s'
       = <[addr := {| tid := addr; file := Some fd; inited := true;
                      lastPkt := last; blockSize := defaultBlockSize;
                      bytesLeft := wrap64 (bytesLeft cli - len chunk) |}]>
           (connections s)
    /\ w_open (listener s')
       = <[fd := advance st (length chunk) last]> (w_open (listener s))
    /\ w_files (listener s') = w_files (listener s)
    /\ w_net (listener s') = []
    /\ w_sent (listener s')
       = w_sent (listener s) ++ [(addr, data_datagram (wrap16 (n + 1)) chunk)].
Proof.
  intros Hc Ht Hi Hl Hf Hbs Hst Hcl Hfile Hnet chunk last.
  unfold handleConnection, attach. rewrite Hc.
  unfold pipeline. rewrite newRequest_ack.
  rewrite handleRequest_ack_active by (reflexivity || assumption).
  rewrite set_world_id.
  unfold newResponse, make_bytes. cbn [req_opcode req_number].
  change (Byte.eqb opACK opRRQ || Byte.eqb opACK opACK) with true. cbv iota.
  rewrite Hbs. change (defaultBlockSize <? 0) with false. cbv iota.
  cbn [bind]. rewrite wrap16_succ.
  set (resp := {| resp_opcode := opDATA; resp_number := wrap16 (n + 1);
                  resp_body := repeat Byte.x00 (Z.to_nat defaultBlockSize) |}).
  assert (length (resp_body resp) = 512%nat) as Hlen
    by (unfold resp; cbn [resp_body]; rewrite repeat_length; reflexivity).
  destruct (handleResponse_data cli resp s fd st i eq_refl
              ltac:(rewrite Hlen; lia) Hf Hst Hcl Hfile)
    as (s1 & HR & Ho1).
  rewrite Hlen in HR, Ho1. fold chunk in HR, Ho1. fold last in HR, Ho1.
  rewrite HR.
  apply handleResponse_frame in HR.
  destruct HR as (Hso & Hsto & _ & _ & Hc1 & _).
  unfold socket in Hso. injection Hso as Hn1 Hs1.
  unfold store in Hsto. injection Hsto as Hfi1 _.
  rewrite sendResponse_spec. cbv zeta.
  rewrite send_ok_quiet by congruence.
  cbn [bind is_endOfSession]. eexists. split; [reflexivity|].
  rewrite commit_listener. unfold commit. cbn [tid connections set_world].
  rewrite Ht, Hc1, Hc. cbn [connections listener set_world set_socket
                            w_open w_files w_net w_sent].
  rewrite Hl, Hi, Hf, Hbs, Hn1, Hnet, Hs1, Hfi1.
  replace (if last then true else false) with last
    by (destruct last; reflexivity).
  split_and!; try reflexivity. exact Ho1.
Qed.

(** The last ACK: the entry goes, nothing else changes, nothing is sent. *)
Lemma ack_ends_session s addr n rest cli :
  connections s !! addr = Some cli ->
  tid cli = addr -> inited cli = true -> lastPkt cli = true ->
  handleConnection addr 4 (ack_datagram n ++ rest) s
  = Ok {| connections := delete addr (connections s);
          listener := listener s |}.
Proof.
  intros Hc Ht Hi Hl. unfold handleConnection, attach. rewrite Hc.
  unfold pipeline. rewrite newRequest_ack.
  rewrite handleRequest_ack_last by (reflexivity || assumption).
  cbn [bind is_endOfSession]. unfold commit. cbn [connections].
  rewrite Ht, lookup_delete_eq. reflexivity.
Qed.

Lemma prepareFromRequest_rrq cli req w i :
  req_opcode req = opRRQ ->
  w_files w !! req_filename req = Some i -> i_read i = true ->
  prepareFromRequest cli req w
  = (None,
     {| tid := tid cli; file := Some (length (w_open w)); inited := true;
        lastPkt := lastPkt cli; blockSize := defaultBlockSize;
        bytesLeft := len (i_data i) |},
     set_open (w_open w ++ [new_stream (req_filename req) false]) w).
Proof.
  intros Hop Hf Hr. unfold prepareFromRequest. rewrite Hop.
  change (Byte.eqb opRRQ opRRQ) with true. cbv iota.
  unfold os_Open. rewrite Hf, Hr.
  unfold file_Stat, live_stream. cbn [w_open set_open].
  rewrite lookup_app_r by lia. rewrite Nat.sub_diag. cbn.
  unfold stream_data. cbn. rewrite Hf. reflexivity.
Qed.

Lemma insert_snoc {A : Type} (l : list A) (x y : A) :
  <[length l := x]> (l ++ [y]) = l ++ [x].
Proof.
  pose proof (insert_app_r l [y] 0 x) as H. rewrite Nat.add_0_r in H.
  exact H.
Qed.

(** An RRQ from an address without an entry, for a readable file: the
    session is entered and the first block built. *)
Lemma rrq_opens_session s addr numRead name rest i :
  connections s !! addr = None ->
  ~ In Byte.x00 (list_byte_of_string name) ->
  w_files (listener s) !! name = Some i -> i_read i = true ->
  w_net (listener s) = [] ->
  let fd := length (w_open (listener s)) in
  let chunk := firstn 512 (i_data i) in
  let last := len (i_data i) <=? 0 in
  exists s',
    handleConnection addr numRead (rrq_datagram name ++ rest) s = Ok s'
    /\ connections s'
       = <[addr := {| tid := addr; file := Some fd; inited := true;
                      lastPkt := last; blockSize := defaultBlockSize;
                      bytesLeft := wrap64 (len (i_data i) - len chunk) |}]>
           (connections s)
    /\ w_open (listener s')
       = w_open (listener s)
         ++ [advance (new_stream name false) (length chunk) last]
    /\ w_files (listener s') = w_files (listener s)
    /\ w_net (listener s') = []
    /\ w_sent (listener s')
       = w_sent (listener s) ++ [(addr, data_datagram 1 chunk)].
Proof.
  intros Hc Hn Hfile Hr Hnet fd chunk last.
  unfold handleConnection, attach. rewrite Hc.
  unfold pipeline. rewrite newRequest_rrq by exact Hn.
  unfold handleRequest. cbn [req_opcode newClient inited tid].
  change ((byte_val opRRQ <? byte_val opRRQ)
          || (byte_val opERROR <? byte_val opRRQ)) with false.
  change (Byte.eqb opRRQ opACK) with false.
  change (Byte.eqb opRRQ opRRQ) with true.
  change (Byte.eqb opRRQ opERROR) with false.
  change (Byte.eqb opRRQ opDATA) with false.
  cbn [andb negb]. cbv iota.
  rewrite (prepareFromRequest_rrq _ _ _ i) by (try reflexivity; assumption).
  cbn [req_filename tid lastPkt w_open log_Print].
  fold fd.
  unfold newResponse, make_bytes. cbn [req_opcode req_number blockSize].
  change (Byte.eqb opRRQ opRRQ || Byte.eqb opRRQ opACK) with true. cbv iota.
  change (defaultBlockSize <? 0) with false. cbv iota. cbn [bind].
  change (wrap16 (0 + 1)) with 1.
  set (resp := {| resp_opcode := opDATA; resp_number := 1;
                  resp_body := repeat Byte.x00 (Z.to_nat defaultBlockSize) |}).
  assert (length (resp_body resp) = 512%nat) as Hlen
    by (unfold resp; cbn [resp_body]; rewrite repeat_length; reflexivity).
  match goal with
  | |- context [handleResponse ?c resp ?st] =>
      destruct (handleResponse_data c resp st fd (new_stream name false) i
                  eq_refl ltac:(rewrite Hlen; lia) eq_refl)
        as (s1 & HR & Ho1)
  end.
  { cbn. rewrite lookup_app_r by (unfold fd; lia).
    unfold fd. rewrite Nat.sub_diag. reflexivity. }
  { reflexivity. }
  { exact Hfile. }
  rewrite HR. apply handleResponse_frame in HR.
  destruct HR as (Hso & Hsto & _ & _ & Hc1 & _).
  unfold socket in Hso. injection Hso as Hn1 Hs1.
  unfold store in Hsto. injection Hsto as Hfi1 _.
  cbn in Hn1, Hs1, Hfi1, Hc1.
  rewrite Hlen in *.
  change (skipn (st_pos (new_stream name false)) (i_data i))
    with (i_data i) in *.
  cbn [bytesLeft tid lastPkt newClient] in *.
  fold chunk in Ho1 |- *. fold last in Ho1 |- *.
  rewrite sendResponse_spec. cbv zeta.
  rewrite send_ok_quiet by congruence.
  cbn [bind is_endOfSession]. eexists. split; [reflexivity|].
  rewrite commit_listener. unfold commit. cbn [tid connections set_world].
  rewrite Hc1, lookup_insert_eq.
  cbn [connections listener set_world set_socket w_open w_files w_net w_sent
       file inited lastPkt blockSize tid resp_opcode resp_number resp_body].
  rewrite insert_insert_eq, Hn1, Hnet, Hs1, Hfi1, Ho1.
  replace (if last then true else false) with last
    by (destruct last; reflexivity).
  split_and!; try reflexivity.
  cbn [w_open listener set_world set_open log_Print].
  unfold fd. apply insert_snoc.
Qed.

(** ** A whole READ session *)

Lemma ListenAndServe_app p l1 l2 :
  ListenAndServe p (l1 ++ l2)
  = bind (ListenAndServe p l1) (fun p' => ListenAndServe p' l2).
Proof.
  revert p. induction l1 as [|[a d] l1 IH]; intros p; [reflexivity|].
  cbn [ListenAndServe app]. destruct (serve_one p a d); cbn [bind]; auto.
Qed.

Lemma read_inbox_S addr name j :
  read_inbox addr name (S j)
  = read_inbox addr name j ++ [(addr, ack_datagram (Z.of_nat (S j)))].
Proof.
  unfold read_inbox. rewrite seq_S, map_app. reflexivity.
Qed.

Lemma data_blocks_S addr data m :
  data_blocks addr data (S m)
  = data_blocks addr data m
    ++ [(addr, data_datagram (wrap16 (Z.of_nat (S m))) (block data (S m)))].
Proof.
  unfold data_blocks. rewrite seq_S, map_app. reflexivity.
Qed.

Lemma serve_one_fits p addr dgram :
  (length dgram <= length (buffer p))%nat ->
  serve_one p addr dgram
  = bind (handleConnection addr (len dgram)
            (dgram ++ skipn (length dgram) (buffer p)) (server p))
      (fun s => Ok {| server := s;
                      buffer := dgram ++ skipn (length dgram) (buffer p) |}).
Proof.
  intros H. unfold serve_one. rewrite ReadFrom_fits by exact H. reflexivity.
Qed.

Lemma length_refill (dgram buf : list byte) :
  (length dgram <= length buf)%nat ->
  length (dgram ++ skipn (length dgram) buf) = length buf.
Proof. intros H. rewrite length_app, length_skipn. lia. Qed.

Lemma block_at data pos j :
  pos = Nat.min (length data) (512 * (j + 1)) ->
  firstn 512 (skipn pos data) = block data (j + 2).
Proof.
  intros ->. unfold block.
  change (Z.to_nat defaultBlockSize) with 512%nat.
  replace (j + 2 - 1)%nat with (j + 1)%nat by lia.
  destruct (Nat.le_ge_cases (512 * (j + 1)) (length data)) as [H|H].
  - rewrite Nat.min_r by exact H. reflexivity.
  - rewrite Nat.min_l by exact H.
    rewrite !skipn_all2 by lia. reflexivity.
Qed.

Section ReadSession.
Variables (p0 : process) (addr name : string) (i : inode).
Hypothesis Hbuf : length (buffer p0) = bodyMaxSize.
Hypothesis Hfits : (length (rrq_datagram name) <= bodyMaxSize)%nat.
Hypothesis Hfresh : connections (server p0) !! addr = None.
Hypothesis Hname : ~ In Byte.x00 (list_byte_of_string name).
Hypothesis Hfile : w_files (listener (server p0)) !! name = Some i.
Hypothesis Hread : i_read i = true.
Hypothesis Hnet : w_net (listener (server p0)) = [].
Hypothesis Hsize : len (i_data i) < 9223372036854775808.

Lemma reading_start :
  exists p,
    serve_one p0 addr (rrq_datagram name) = Ok p
    /\ reading_after p0 addr name (i_data i) 0 p.
Proof.
  rewrite serve_one_fits by (rewrite Hbuf; exact Hfits).
  destruct (rrq_opens_session (server p0) addr
              (len (rrq_datagram name)) name
              (skipn (length (rrq_datagram name)) (buffer p0)) i
              Hfresh Hname Hfile Hread Hnet)
    as (s' & -> & Hc & Ho & Hf & Hn & Hs).
  cbn [bind]. eexists. split; [reflexivity|].
  unfold reading_after. cbn [server buffer].
  rewrite length_refill by (rewrite Hbuf; exact Hfits).
  split; [exact Hbuf|]. split_and!; try assumption.
  - rewrite Hc. f_equal. unfold reading_client. f_equal.
    + unfold len. destruct (Z.leb_spec (Z.of_nat (length (i_data i))) 0),
        (Nat.leb_spec (length (i_data i)) (512 * 0)); try reflexivity; lia.
    + unfold len in *. rewrite length_firstn.
      rewrite wrap64_small by lia. lia.
  - rewrite Ho. f_equal. unfold advance, reading_stream, new_stream.
    cbn [st_name st_pos st_writable]. rewrite length_firstn. f_equal.
    f_equal; [lia|].
    unfold len. destruct (Z.leb_spec (Z.of_nat (length (i_data i))) 0),
        (Nat.leb_spec (length (i_data i)) (512 * 0)); try reflexivity; lia.
Qed.

Lemma reading_step j p :
  reading_after p0 addr name (i_data i) j p ->
  (512 * j < length (i_data i))%nat ->
  exists p',
    serve_one p addr (ack_datagram (Z.of_nat (S j))) = Ok p'
    /\ reading_after p0 addr name (i_data i) (S j) p'.
Proof.
  intros (Hb & Hc & Ho & Hf & Hn & Hs) Hlt.
  assert (length (ack_datagram (Z.of_nat (S j))) = 4%nat) as Hl4
    by reflexivity.
  rewrite serve_one_fits by (rewrite Hb, Hl4; unfold bodyMaxSize; lia).
  replace (len (ack_datagram (Z.of_nat (S j)))) with 4 by reflexivity.
  set (fd := length (w_open (listener (server p0)))) in *.
  destruct (ack_builds_next_block (server p) addr (Z.of_nat (S j))
              (skipn (length (ack_datagram (Z.of_nat (S j)))) (buffer p))
              (reading_client addr fd (length (i_data i)) j) fd
              (reading_stream name (length (i_data i)) j) i)
    as (s' & -> & Hc' & Ho' & Hf' & Hn' & Hs').
  { rewrite Hc. apply lookup_insert_eq. }
  { reflexivity. }
  { reflexivity. }
  { cbn. apply Nat.leb_gt. exact Hlt. }
  { reflexivity. }
  { reflexivity. }
  { rewrite Ho. rewrite lookup_app_r by (unfold fd; lia).
    unfold fd. rewrite Nat.sub_diag. reflexivity. }
  { cbn. apply Nat.leb_gt. exact Hlt. }
  { rewrite Hf. exact Hfile. }
  { exact Hn. }
  cbn [bind]. eexists. split; [reflexivity|].
  unfold reading_after. cbn [server buffer].
  rewrite length_refill by (rewrite Hb, Hl4; unfold bodyMaxSize; lia).
  split; [exact Hb|].
  cbn [st_pos reading_stream bytesLeft reading_client] in Hc', Ho', Hs'.
  rewrite (block_at (i_data i) _ j eq_refl) in Hc', Ho', Hs'.
  assert (length (block (i_data i) (j + 2))
          = Nat.min 512 (length (i_data i) - 512 * (j + 1))) as Hbl.
  { unfold block. change (Z.to_nat defaultBlockSize) with 512%nat.
    rewrite length_firstn, length_skipn. lia. }
  assert ((Z.of_nat (length (i_data i) - 512 * (j + 1)) <=? 0)
          = (length (i_data i) <=? 512 * S j)%nat) as Hlast.
  { destruct (Z.leb_spec (Z.of_nat (length (i_data i) - 512 * (j + 1))) 0),
      (Nat.leb_spec (length (i_data i)) (512 * S j)); try reflexivity; lia. }
  rewrite Hlast in Hc', Ho'.
  split_and!.
  - rewrite Hc', Hc, insert_insert_eq. f_equal. unfold reading_client.
    f_equal. unfold len in *. rewrite Hbl.
    rewrite wrap64_small by lia. lia.
  - rewrite Ho', Ho. unfold fd. rewrite insert_snoc. f_equal.
    unfold advance, reading_stream. cbn [st_name st_pos st_writable].
    rewrite Hbl. f_equal. f_equal. lia.
  - congruence.
  - exact Hn'.
  - rewrite Hs', Hs. rewrite <- app_assoc. f_equal.
    replace (S j + 1)%nat with (S (j + 1)) by lia.
    rewrite data_blocks_S.
    replace (Z.of_nat (S j) + 1) with (Z.of_nat (S (j + 1))) by lia.
    replace (j + 2)%nat with (S (j + 1)) by lia. reflexivity.
Qed.

Lemma reading_end j p n :
  reading_after p0 addr name (i_data i) j p ->
  (length (i_data i) <= 512 * j)%nat ->
  exists p',
    serve_one p addr (ack_datagram n) = Ok p'
    /\ connections (server p') = connections (server p0)
    /\ listener (server p') = listener (server p).
Proof.
  intros (Hb & Hc & Ho & Hf & Hn & Hs) Hle.
  assert (length (ack_datagram n) = 4%nat) as Hl4 by reflexivity.
  rewrite serve_one_fits by (rewrite Hb, Hl4; unfold bodyMaxSize; lia).
  replace (len (ack_datagram n)) with 4 by reflexivity.
  rewrite (ack_ends_session (server p) addr n _
             (reading_client addr (length (w_open (listener (server p0))))
                (length (i_data i)) j)).
  - cbn [bind]. eexists. split; [reflexivity|]. cbn.
    rewrite Hc. split; [|reflexivity]. apply delete_insert_id, Hfresh.
  - rewrite Hc. apply lookup_insert_eq.
  - reflexivity.
  - reflexivity.
  - cbn. apply Nat.leb_le. exact Hle.
Qed.
End ReadSession.

Lemma block_count_spec n j :
  (S j < block_count n)%nat <-> (512 * j < n)%nat.
Proof.
  unfold block_count.
  pose proof (Nat.div_mod_eq n 512) as Hd.
  pose proof (Nat.mod_upper_bound n 512 ltac:(lia)) as Hm.
  destruct (Nat.eqb_spec (n mod 512) 0); lia.
Qed.

Lemma block_count_pos n : (1 <= block_count n)%nat.
Proof. unfold block_count. lia. Qed.

Lemma length_block data m :
  (1 <= m)%nat ->
  length (block data m) = Nat.min 512 (length data - 512 * (m - 1)).
Proof.
  intros _. unfold block. change (Z.to_nat defaultBlockSize) with 512%nat.
  rewrite length_firstn, length_skipn. reflexivity.
Qed.

Lemma ListenAndServe_one p addr dgram :
  ListenAndServe p [(addr, dgram)] = serve_one p addr dgram.
Proof.
  cbn [ListenAndServe]. destruct (serve_one p addr dgram); reflexivity.
Qed.

(** C1 (amended): a READ session over the [n] bytes of a readable file,
    block size 512, with a client that acknowledges each block in turn.
    After the RRQ and [j] ACKs ([j] below the block count) the server has
    sent the DATA blocks 1 to [j + 1], numbered modulo 65536, block [m]
    carrying the bytes from offset [512 * (m - 1)] on; the entry is in the
    table and is flagged lastPkt, with its stream closed, exactly from the
    last block on.  The blocks number [n / 512] rounded up plus one: the
    last one is always empty.  The ACK that follows it, whatever number it
    carries, removes the entry and sends nothing. *)
Theorem read_session_ends_with_empty_block (p0 : process)
    (addr name : string) (i : inode) :
  length (buffer p0) = bodyMaxSize ->
  (length (rrq_datagram name) <= bodyMaxSize)%nat ->
  connections (server p0) !! addr = None ->
  ~ In Byte.x00 (list_byte_of_string name) ->
  w_files (listener (server p0)) !! name = Some i ->
  i_read i = true ->
  w_net (listener (server p0)) = [] ->
  len (i_data i) < 9223372036854775808 ->
  (forall j, (j < block_count (length (i_data i)))%nat ->
     exists p,
       ListenAndServe p0 (read_inbox addr name j) = Ok p
       /\ reading_after p0 addr name (i_data i) j p
       /\ ((length (i_data i) <=? 512 * j)%nat = true
           <-> S j = block_count (length (i_data i))))
  /\ (forall number, exists p,
        ListenAndServe p0
          (read_inbox addr name (block_count (length (i_data i)) - 1)
           ++ [(addr, ack_datagram number)]) = Ok p
        /\ connections (server p) = connections (server p0)
        /\ w_sent (listener (server p))
           = w_sent (listener (server p0))
             ++ data_blocks addr (i_data i) (block_count (length (i_data i)))
        /\ w_open (listener (server p))
           = w_open (listener (server p0))
             ++ [ {| st_name := name; st_pos := length (i_data i);
                     st_writable := false; st_closed := true |} ])
  /\ (forall m, (1 <= m)%nat ->
        length (block (i_data i) m)
        = Nat.min 512 (length (i_data i) - 512 * (m - 1)))
  /\ block (i_data i) (block_count (length (i_data i))) = [].
Proof.
  intros Hbuf Hfits Hfresh Hname Hfile Hread Hnet Hsize.
  set (n := length (i_data i)). set (k := block_count n).
  assert (forall j, (j < k)%nat ->
            exists p,
              ListenAndServe p0 (read_inbox addr name j) = Ok p
              /\ reading_after p0 addr name (i_data i) j p) as Hrun.
  { induction j as [|j IH]; intros Hj.
    - unfold read_inbox. cbn [seq map]. rewrite ListenAndServe_one.
      apply reading_start; assumption.
    - destruct IH as (p & Hp & Hinv); [lia|].
      assert (512 * j < n)%nat as Hlt by (apply block_count_spec; exact Hj).
      edestruct (reading_step p0 addr name i) as (p' & Hp' & Hinv');
        [eassumption..|].
      exists p'. split; [|exact Hinv'].
      rewrite read_inbox_S, ListenAndServe_app, Hp. cbn [bind].
      rewrite ListenAndServe_one. exact Hp'. }
  assert (forall j, (j < k)%nat ->
            ((n <=? 512 * j)%nat = true <-> S j = k)) as Hlast.
  { intros j Hj. rewrite Nat.leb_le.
    pose proof (block_count_spec n j) as Hs. fold k in Hs. lia. }
  split_and!.
  - intros j Hj. destruct (Hrun j Hj) as (p & Hp & Hinv).
    exists p. split_and!; auto.
  - intros number.
    pose proof (block_count_pos n) as Hk. fold k in Hk.
    destruct (Hrun (k - 1)%nat ltac:(lia)) as (p & Hp & Hinv).
    assert (n <= 512 * (k - 1))%nat as Hle.
    { apply Nat.leb_le. apply Hlast; lia. }
    edestruct (reading_end p0 addr name i) with (n := number)
      as (p' & Hp' & Hc' & Hl'); [eassumption..|].
    exists p'. split_and!.
    + rewrite ListenAndServe_app, Hp. cbn [bind].
      rewrite ListenAndServe_one. exact Hp'.
    + exact Hc'.
    + rewrite Hl'. destruct Hinv as (_ & _ & _ & _ & _ & Hs).
      rewrite Hs. replace (k - 1 + 1)%nat with k by lia. reflexivity.
    + rewrite Hl'. destruct Hinv as (_ & _ & Ho & _).
      rewrite Ho. unfold reading_stream. fold n.
      rewrite Nat.min_l by lia.
      replace (n <=? 512 * (k - 1))%nat with true
        by (symmetry; apply Nat.leb_le; exact Hle).
      reflexivity.
  - intros m Hm. apply length_block, Hm.
  - apply length_zero_iff_nil.
    pose proof (block_count_pos n) as Hk. fold k in Hk.
    rewrite length_block by exact Hk.
    assert (n <= 512 * (k - 1))%nat as Hle.
    { apply Nat.leb_le. apply Hlast; lia. }
    fold n. lia.
Qed.

Lemma read_session_ends_with_empty_block_witness :
  (length (buffer (NewTFTPServer world_foo)) = bodyMaxSize
   /\ (length (rrq_datagram "foo.txt") <= bodyMaxSize)%nat
   /\ connections (server (NewTFTPServer world_foo)) !! peer = None
   /\ ~ In Byte.x00 (list_byte_of_string "foo.txt")
   /\ w_files (listener (server (NewTFTPServer world_foo))) !! "foo.txt"%string
      = Some (file_of (repeat Byte.x41 1000))
   /\ i_read (file_of (repeat Byte.x41 1000)) = true
   /\ w_net (listener (server (NewTFTPServer world_foo))) = []
   /\ len (i_data (file_of (repeat Byte.x41 1000))) < 9223372036854775808)
  /\ (forall j,
        (j < block_count (length (i_data (file_of (repeat Byte.x41 1000)))))%nat ->
        exists p,
          ListenAndServe (NewTFTPServer world_foo)
            (read_inbox peer "foo.txt" j) = Ok p
          /\ reading_after (NewTFTPServer world_foo) peer "foo.txt"
               (i_data (file_of (repeat Byte.x41 1000))) j p
          /\ ((length (i_data (file_of (repeat Byte.x41 1000))) <=? 512 * j)%nat
              = true
              <-> S j
                  = block_count
                      (length (i_data (file_of (repeat Byte.x41 1000))))))
  /\ (forall number, exists p,
        ListenAndServe (NewTFTPServer world_foo)
          (read_inbox peer "foo.txt"
             (block_count (length (i_data (file_of (repeat Byte.x41 1000))))
              - 1)
           ++ [(peer, ack_datagram number)]) = Ok p
        /\ connections (server p)
           = connections (server (NewTFTPServer world_foo))
        /\ w_sent (listener (server p))
           = w_sent (listener (server (NewTFTPServer world_foo)))
             ++ data_blocks peer (i_data (file_of (repeat Byte.x41 1000)))
                  (block_count
                     (length (i_data (file_of (repeat Byte.x41 1000)))))
        /\ w_open (listener (server p))
           = w_open (listener (server (NewTFTPServer world_foo)))
             ++ [ {| st_name := "foo.txt";
                     st_pos := length (i_data (file_of (repeat Byte.x41 1000)));
                     st_writable := false; st_closed := true |} ])
  /\ (forall m, (1 <= m)%nat ->
        length (block (i_data (file_of (repeat Byte.x41 1000))) m)
        = Nat.min 512
            (length (i_data (file_of (repeat Byte.x41 1000)))
             - 512 * (m - 1)))
  /\ block (i_data (file_of (repeat Byte.x41 1000)))
       (block_count (length (i_data (file_of (repeat Byte.x41 1000))))) = [].
Proof.
  assert (length (buffer (NewTFTPServer world_foo)) = bodyMaxSize) as H1
    by (vm_compute; reflexivity).
  assert (length (rrq_datagram "foo.txt") <= bodyMaxSize)%nat as H2
    by (apply Nat.leb_le; vm_compute; reflexivity).
  assert (connections (server (NewTFTPServer world_foo)) !! peer = None)
    as H3 by reflexivity.
  assert (~ In Byte.x00 (list_byte_of_string "foo.txt")) as H4
    by (simpl; intuition discriminate).
  assert (w_files (listener (server (NewTFTPServer world_foo)))
            !! "foo.txt"%string
          = Some (file_of (repeat Byte.x41 1000))) as H5
    by (vm_compute; reflexivity).
  assert (i_read (file_of (repeat Byte.x41 1000)) = true) as H6
    by reflexivity.
  assert (w_net (listener (server (NewTFTPServer world_foo))) = []) as H7
    by reflexivity.
  assert (len (i_data (file_of (repeat Byte.x41 1000)))
          < 9223372036854775808) as H8 by (vm_compute; reflexivity).
  split; [split_and!; assumption|].
  exact (read_session_ends_with_empty_block (NewTFTPServer world_foo) peer
           "foo.txt" (file_of (repeat Byte.x41 1000))
           H1 H2 H3 H4 H5 H6 H7 H8).
Defined.

(** ** Failures and the session table *)

(** C4 (amended): whenever the pipeline fails with anything but the
    end-of-session sentinel and the socket takes the packet, the server
    sends exactly one ERROR packet and flags the client inited and lastPkt,
    also when it had not been initialised; the entry stays in the table
    under its address, no other entry changes, and an ACK that comes from
    the address afterwards removes the entry. *)
Theorem failure_is_answered_and_session_flagged (s : TFTPServer)
    (addr : string) (numRead : Z) (body : list byte)
    (e : error) (cli1 : client) (s1 : TFTPServer) :
  wf_server s ->
  pipeline (fst (attach addr s)) numRead body (snd (attach addr s))
  = Ok (Some e, cli1, s1) ->
  e <> endOfSession ->
  send_ok (listener s1) = true ->
  exists s',
    handleConnection addr numRead body s = Ok s'
    /\ w_sent (listener s') = w_sent (listener s) ++ [(addr, error_reply e)]
    /\ connections s' !! addr = Some (terminated cli1)
    /\ inited (terminated cli1) = true
    /\ lastPkt (terminated cli1) = true
    /\ (forall a, a <> addr -> connections s' !! a = connections s !! a)
    /\ (forall number rest,
          handleConnection addr 4 (ack_datagram number ++ rest) s'
          = Ok {| connections := delete addr (connections s');
                  listener := listener s' |}).
Proof.
  intros Hwf Hp Hne Hok.
  destruct (attach addr s) as [cli0 s0] eqn:Hat. cbn [fst snd] in Hp.
  assert (newRequest numRead body <> Panic) as Hnp.
  { intros Hpanic. rewrite (pipeline_panic _ _ _ _ Hpanic) in Hp.
    discriminate. }
  destruct (attach_spec _ _ _ _ Hwf Hat) as (Ht0 & _ & Hl0 & _ & _ & Hoth).
  destruct (handleConnection_outcome _ _ _ _ _ _ Hwf Hnp Hat)
    as (err & cli1' & s1' & Hp' & Ht1 & _ & Hcase).
  rewrite Hp in Hp'. injection Hp' as <- <- <-.
  destruct Hcase as (_ & Hcase).
  destruct (is_endOfSession e) eqn:He;
    [apply is_endOfSession_true in He; contradiction|].
  destruct Hcase as (Hc1 & Hcase). rewrite Hok in Hcase.
  destruct Hcase as (s2 & HC & Hc2 & Hs2 & _).
  exists (commit (terminated cli1) s2).
  split; [exact HC|]. rewrite commit_listener. split; [exact Hs2|].
  assert (connections (commit (terminated cli1) s2)
          = <[addr := terminated cli1]> (connections s0)) as Hcm.
  { unfold commit. cbn [terminated tid]. rewrite Ht1, Hc2, Hc1, Hl0.
    reflexivity. }
  split_and!; try reflexivity.
  - rewrite Hcm. apply lookup_insert_eq.
  - intros a Ha. rewrite Hcm, lookup_insert_ne by congruence.
    apply Hoth, Ha.
  - intros number rest.
    rewrite (ack_ends_session (commit (terminated cli1) s2) addr number
               rest (terminated cli1));
      [| rewrite Hcm; apply lookup_insert_eq | exact Ht1 | reflexivity
       | reflexivity].
    rewrite commit_listener. reflexivity.
Qed.

Lemma server_reading_wf : wf_server server_reading.
Proof.
  apply map_Forall_singleton. split; [reflexivity | simpl; lia].
Qed.

Lemma failure_is_answered_and_session_flagged_witness :
  (wf_server server_reading
   /\ pipeline (fst (attach peer server_reading)) 4
        [Byte.x00; Byte.x09; Byte.x00; Byte.x00]
        (snd (attach peer server_reading))
      = Ok (Some (errTFTP 4 "Illegal TFTP operation."),
            {| tid := peer; file := Some 0%nat; inited := true;
               lastPkt := false; blockSize := 512; bytesLeft := 488 |},
            server_reading)
   /\ errTFTP 4 "Illegal TFTP operation." <> endOfSession
   /\ send_ok (listener server_reading) = true)
  /\ exists s',
       handleConnection peer 4 [Byte.x00; Byte.x09; Byte.x00; Byte.x00]
         server_reading = Ok s'
       /\ w_sent (listener s')
          = w_sent (listener server_reading)
            ++ [(peer, error_reply (errTFTP 4 "Illegal TFTP operation."))]
       /\ connections s' !! peer
          = Some (terminated
                    {| tid := peer; file := Some 0%nat; inited := true;
                       lastPkt := false; blockSize := 512;
                       bytesLeft := 488 |})
       /\ inited (terminated
                    {| tid := peer; file := Some 0%nat; inited := true;
                       lastPkt := false; blockSize := 512;
                       bytesLeft := 488 |}) = true
       /\ lastPkt (terminated
                     {| tid := peer; file := Some 0%nat; inited := true;
                        lastPkt := false; blockSize := 512;
                        bytesLeft := 488 |}) = true
       /\ (forall a, a <> peer ->
           connections s' !! a = connections server_reading !! a)
       /\ (forall number rest,
             handleConnection peer 4 (ack_datagram number ++ rest) s'
             = Ok {| connections := delete peer (connections s');
                     listener := listener s' |}).
Proof.
  assert (pipeline (fst (attach peer server_reading)) 4
            [Byte.x00; Byte.x09; Byte.x00; Byte.x00]
            (snd (attach peer server_reading))
          = Ok (Some (errTFTP 4 "Illegal TFTP operation."),
                {| tid := peer; file := Some 0%nat; inited := true;
                   lastPkt := false; blockSize := 512; bytesLeft := 488 |},
                server_reading)) as H2 by (vm_compute; reflexivity).
  assert (errTFTP 4 "Illegal TFTP operation." <> endOfSession) as H3
    by discriminate.
  assert (send_ok (listener server_reading) = true) as H4 by reflexivity.
  split; [split_and!; auto using server_reading_wf|].
  exact (failure_is_answered_and_session_flagged server_reading peer 4
           [Byte.x00; Byte.x09; Byte.x00; Byte.x00] _ _ _
           server_reading_wf H2 H3 H4).
Defined.

(** ** The code on concrete exchanges *)

(** C1, as stated, fails on the 1000-byte file of its own example: the
    server answers the RRQ and the two ACKs with three DATA blocks of 512,
    488 and 0 bytes, the session is still in the table after ACK(2), its
    stream was closed when the empty block was built, and an ACK that
    carries another block number than the last removes the entry. *)
Lemma read_of_1000_bytes_sends_three_blocks :
  let run :=
    ListenAndServe (NewTFTPServer world_foo)
      [(peer, rrq_datagram "foo.txt"); (peer, ack_datagram 1);
       (peer, ack_datagram 2)] in
  sent_by run =
    [ (peer, data_datagram 1 (repeat Byte.x41 512));
      (peer, data_datagram 2 (repeat Byte.x41 488));
      (peer, data_datagram 3 []) ]
  /\ session_of peer run =
       Some {| tid := peer; file := Some 0%nat; inited := true;
               lastPkt := true; blockSize := 512; bytesLeft := 0 |}
  /\ streams_of run =
       [ {| st_name := "foo.txt"; st_pos := 1000; st_writable := false;
            st_closed := true |} ]
  /\ session_of peer
       (ListenAndServe (NewTFTPServer world_foo)
          [(peer, rrq_datagram "foo.txt"); (peer, ack_datagram 1);
           (peer, ack_datagram 2); (peer, ack_datagram 9)]) = None.
Proof. vm_compute. repeat split; reflexivity. Qed.

(** C2, as stated, fails: when the ERROR packet cannot be sent
    [handleError] panics, and a DATA datagram cut after its opcode makes
    [newRequest] slice with a negative bound. *)
Lemma datagrams_that_crash_the_server :
  crashed (serve_one (NewTFTPServer world_net_down) peer
             [Byte.x00; Byte.x09; Byte.x00; Byte.x00]) = true
  /\ crashed (serve_one (NewTFTPServer world_foo) peer [Byte.x00; opDATA])
     = true.
Proof. vm_compute. split; reflexivity. Qed.

(** C3: the code at the failing input.  The datagram 01 04 00 01 has the
    16-bit opcode 260; the decoder keeps the second byte, takes it for an
    ACK, and a client without a session is told UNKNOWN_TRANSFER_ID, not
    ILLEGAL_OPERATION; a client in a READ session is sent the next DATA
    block. *)
Theorem high_opcode_byte_is_ignored :
  let dgram := [Byte.x01; Byte.x04; Byte.x00; Byte.x01] in
  Uint16 (firstn 2 dgram) = Ok 260
  /\ sent_by (serve_one (NewTFTPServer world_foo) peer dgram)
     = [ (peer, error_datagram ecUTID "Unknown transfer ID.") ]
  /\ sent_by (ListenAndServe (NewTFTPServer world_foo)
                [(peer, rrq_datagram "foo.txt"); (peer, dgram)])
     = [ (peer, data_datagram 1 (repeat Byte.x41 512));
         (peer, data_datagram 2 (repeat Byte.x41 488)) ].
Proof. vm_compute. repeat split; reflexivity. Qed.

(** C4, as stated, fails: an illegal opcode sent into a READ session is
    answered with one ERROR packet, after which the entry is still in the
    table, flagged, and its stream is still open. *)
Lemma error_leaves_entry_and_stream :
  let run :=
    ListenAndServe (NewTFTPServer world_foo)
      [(peer, rrq_datagram "foo.txt");
       (peer, [Byte.x00; Byte.x09; Byte.x00; Byte.x00])] in
  sent_by run =
    [ (peer, data_datagram 1 (repeat Byte.x41 512));
      (peer, error_datagram ecILL "Illegal TFTP operation.") ]
  /\ session_of peer run =
       Some {| tid := peer; file := Some 0%nat; inited := true;
               lastPkt := true; blockSize := 512; bytesLeft := 488 |}
  /\ streams_of run =
       [ {| st_name := "foo.txt"; st_pos := 512; st_writable := false;
            st_closed := false |} ].
Proof. vm_compute. repeat split; reflexivity. Qed.

(** C5, as stated, fails: an ACK from an address the server has never
    seen is answered UNKNOWN_TRANSFER_ID, but the table has gained an
    entry for the address; and an opcode outside 1..5, which is neither
    RRQ nor WRQ, is answered ILLEGAL_OPERATION. *)
Lemma unknown_client_enters_the_table :
  let run := serve_one (NewTFTPServer world_foo) peer (ack_datagram 1) in
  sent_by run = [ (peer, error_datagram ecUTID "Unknown transfer ID.") ]
  /\ session_of peer run =
       Some {| tid := peer; file := None; inited := true; lastPkt := true;
               blockSize := 0; bytesLeft := 0 |}
  /\ sent_by (serve_one (NewTFTPServer world_foo) peer
                [Byte.x00; Byte.x09; Byte.x00; Byte.x00])
     = [ (peer, error_datagram ecILL "Illegal TFTP operation.") ].
Proof. vm_compute. repeat split; reflexivity. Qed.

(** C6: the code at the failing input.  After WRQ and a DATA block of two
    bytes the server has sent ACK(0) and ACK(1) and the two bytes are in
    the file, but the session is still in the table, not flagged, and its
    stream is open. *)
Theorem short_data_block_leaves_session_open :
  let run :=
    ListenAndServe (NewTFTPServer world_foo)
      [(peer, wrq_datagram "new.txt");
       (peer, data_datagram 1 [Byte.x68; Byte.x69])] in
  sent_by run = [ (peer, ack_datagram 0); (peer, ack_datagram 1) ]
  /\ session_of peer run =
       Some {| tid := peer; file := Some 0%nat; inited := true;
               lastPkt := false; blockSize := 512; bytesLeft := 0 |}
  /\ streams_of run =
       [ {| st_name := "new.txt"; st_pos := 2; st_writable := true;
            st_closed := false |} ]
  /\ match run with
     | Ok p => i_data <$> (w_files (listener (server p)) !! "new.txt"%string)
               = Some [Byte.x68; Byte.x69]
     | _ => False
     end.
Proof. vm_compute. repeat split; reflexivity. Qed.

(** C7, as stated, fails: a WRQ that names the existing file [foo.txt]
    and arrives on a session that is already initialised is answered
    ACK(0), not FILE_ALREADY_EXISTS. *)
Lemma wrq_on_open_session_is_acked :
  sent_by (ListenAndServe (NewTFTPServer world_foo)
             [(peer, rrq_datagram "foo.txt"); (peer, wrq_datagram "foo.txt")])
  = [ (peer, data_datagram 1 (repeat Byte.x41 512)); (peer, ack_datagram 0) ].
Proof. vm_compute. reflexivity. Qed.

(** C8: the code at the failing input.  An ERROR packet that arrives on
    an active READ session is logged, the session stays as it was, and
    the server sends the client a datagram of four zero bytes. *)
Theorem peer_error_is_answered_with_zero_packet :
  let run :=
    ListenAndServe (NewTFTPServer world_foo)
      [(peer, rrq_datagram "foo.txt"); (peer, error_datagram 0 "stop")] in
  sent_by run =
    [ (peer, data_datagram 1 (repeat Byte.x41 512));
      (peer, [Byte.x00; Byte.x00; Byte.x00; Byte.x00]) ]
  /\ session_of peer run =
       Some {| tid := peer; file := Some 0%nat; inited := true;
               lastPkt := false; blockSize := 512; bytesLeft := 488 |}
  /\ match run with
     | Ok p => w_log (listener (server p))
               = [LogNewClient peer; LogPeerError "stop" 0]
     | _ => False
     end.
Proof. vm_compute. repeat split; reflexivity. Qed.

(** * More properties of the code *)

(** ** More on the wire codec *)

Lemma scanNUL_le src : (scanNUL src <= length src)%nat.
Proof.
  induction src as [|b src IH]; simpl; [lia|].
  destruct (Byte.eqb b Byte.x00); lia.
Qed.

Lemma scanNUL_full src : scanNUL src = length src <-> ~ In Byte.x00 src.
Proof.
  induction src as [|b src IH]; simpl; [tauto|].
  destruct (Byte.eqb b Byte.x00) eqn:E.
  - apply Byte.byte_dec_bl in E. subst b. split; [discriminate | tauto].
  - split.
    + intros H [Hb|Hin].
      * subst b. discriminate.
      * apply IH in Hin; [exact Hin | lia].
    + intros H. f_equal. apply IH. tauto.
Qed.

Lemma scanNUL_split src :
  (scanNUL src < length src)%nat ->
  src = firstn (scanNUL src) src ++ Byte.x00 :: skipn (S (scanNUL src)) src
  /\ ~ In Byte.x00 (firstn (scanNUL src) src).
Proof.
  induction src as [|b src IH]; simpl; [lia|].
  destruct (Byte.eqb b Byte.x00) eqn:E; intros H.
  - apply Byte.byte_dec_bl in E. subst b. simpl. tauto.
  - destruct IH as [IH1 IH2]; [lia|]. simpl. split.
    + f_equal. exact IH1.
    + intros [Hb|Hin]; [subst b; discriminate | tauto].
Qed.

Lemma readCString_error_iff (src : list byte) :
  readCString src = Err errCString <-> ~ In Byte.x00 src.
Proof.
  unfold readCString. pose proof (scanNUL_le src) as Hle.
  destruct (Nat.leb_spec (length src) (scanNUL src)) as [H|H].
  - split; [intros _|reflexivity]. apply scanNUL_full. lia.
  - split; [discriminate|]. intros Hn. apply scanNUL_full in Hn. lia.
Qed.

(** X1: [readCString] fails, with its [Incorrect c string] error, exactly
    on the buffers that hold no zero byte, the empty buffer among them;
    it never panics. *)
Theorem readCString_fails_without_NUL (src : list byte) :
  (readCString src = Err errCString <-> ~ In Byte.x00 src)
  /\ (forall e, readCString src = Err e -> e = errCString)
  /\ readCString src <> Panic
  /\ readCString [] = Err errCString.
Proof.
  split_and!.
  - apply readCString_error_iff.
  - unfold readCString. intros e.
    destruct (length src <=? scanNUL src)%nat; congruence.
  - apply readCString_no_panic.
  - reflexivity.
Qed.

(** X2: whatever [readCString] decodes, the buffer starts with the
    [toCString] encoding of the string returned; the count returned is
    the length of that encoding, the string holds no zero byte, and
    slicing the buffer at the count leaves what follows the terminator. *)
Theorem readCString_inverts_toCString (src : list byte) (n : Z) (s : string) :
  readCString src = Ok (n, s) ->
  exists rest,
    src = toCString s ++ rest
    /\ n = len (toCString s)
    /\ ~ In Byte.x00 (list_byte_of_string s)
    /\ slice_from src n = Ok rest.
Proof.
  unfold readCString.
  destruct (Nat.leb_spec (length src) (scanNUL src)) as [H|H];
    [discriminate|].
  intros [= <- <-].
  destruct (scanNUL_split src H) as [Hs Hn].
  set (k := scanNUL src) in *.
  assert (length (firstn k src) = k) as Hk
    by (rewrite length_firstn; lia).
  exists (skipn (S k) src).
  unfold toCString. rewrite !list_byte_of_string_of_list_byte.
  rewrite <- app_assoc. cbn [app]. split_and!.
  - exact Hs.
  - unfold len. rewrite length_app, Hk. simpl. lia.
  - exact Hn.
  - rewrite slice_from_ok by (unfold len; lia).
    f_equal. f_equal. lia.
Qed.

Lemma readCString_inverts_toCString_witness :
  readCString [Byte.x68; Byte.x69; Byte.x00; Byte.x21] = Ok (3, "hi"%string)
  /\ exists rest,
       [Byte.x68; Byte.x69; Byte.x00; Byte.x21] = toCString "hi" ++ rest
       /\ 3 = len (toCString "hi")
       /\ ~ In Byte.x00 (list_byte_of_string "hi")
       /\ slice_from [Byte.x68; Byte.x69; Byte.x00; Byte.x21] 3 = Ok rest.
Proof.
  assert (readCString [Byte.x68; Byte.x69; Byte.x00; Byte.x21]
          = Ok (3, "hi"%string)) as H by reflexivity.
  split; [exact H|].
  exact (readCString_inverts_toCString _ 3 "hi" H).
Defined.

Lemma newRequest_open_strings numRead op name mode rest :
  Byte.eqb op opRRQ || Byte.eqb op opWRQ = true ->
  ~ In Byte.x00 (list_byte_of_string name) ->
  ~ In Byte.x00 (list_byte_of_string mode) ->
  newRequest numRead (open_datagram op name mode ++ rest)
  = if negb (String.eqb mode "octet") then
      Err (as_error
             (newTFTPError ecNDEF
                [("Incorrect mode '" ++ mode
                  ++ "'. This server supports only 'octet' mode.")%string]))
    else
      Ok {| req_numRead := numRead; req_body := rest; req_opcode := op;
            req_number := 0; req_filename := name; req_mode := mode;
            req_errorMessage := "" |}.
Proof.
  intros Hop Hn Hm. unfold open_datagram, toCString. cbn [app].
  rewrite <- !app_assoc. cbn [app].
  unfold newRequest. rewrite index_1, slice_from_2. cbn [bind].
  rewrite Hop. cbv iota. rewrite readCString_app by exact Hn. cbn [bind].
  rewrite string_of_list_byte_of_string.
  replace (len (list_byte_of_string name) + 1)
    with (len (list_byte_of_string name ++ [Byte.x00]))
    by (unfold len; rewrite length_app; simpl; lia).
  change (list_byte_of_string name
          ++ Byte.x00 :: list_byte_of_string mode ++ Byte.x00 :: rest)
    with (list_byte_of_string name
          ++ [Byte.x00] ++ list_byte_of_string mode ++ Byte.x00 :: rest).
  rewrite app_assoc, slice_from_app. cbn [bind].
  rewrite readCString_app by exact Hm.
  cbn [bind]. rewrite string_of_list_byte_of_string.
  destruct (negb (String.eqb mode "octet")); [reflexivity|].
  replace (len (list_byte_of_string mode) + 1)
    with (len (list_byte_of_string mode ++ [Byte.x00]))
    by (unfold len; rewrite length_app; simpl; lia).
  change (list_byte_of_string mode ++ Byte.x00 :: rest)
    with (list_byte_of_string mode ++ [Byte.x00] ++ rest).
  rewrite app_assoc, slice_from_app. reflexivity.
Qed.

(** X3: an RRQ or WRQ datagram in octet mode whose file name holds no
    zero byte is decoded to that opcode and file name, whatever the length
    [ReadFrom] reported and whatever follows the datagram in the buffer. *)
Theorem newRequest_decodes_open_requests numRead name rest :
  ~ In Byte.x00 (list_byte_of_string name) ->
  newRequest numRead (rrq_datagram name ++ rest)
  = Ok {| req_numRead := numRead; req_body := rest; req_opcode := opRRQ;
          req_number := 0; req_filename := name; req_mode := "octet";
          req_errorMessage := "" |}
  /\ newRequest numRead (wrq_datagram name ++ rest)
     = Ok {| req_numRead := numRead; req_body := rest; req_opcode := opWRQ;
             req_number := 0; req_filename := name; req_mode := "octet";
             req_errorMessage := "" |}.
Proof.
  intros Hn. split.
  - apply (newRequest_open_strings numRead opRRQ name "octet" rest);
      [reflexivity | exact Hn | simpl; intuition discriminate].
  - apply (newRequest_open_strings numRead opWRQ name "octet" rest);
      [reflexivity | exact Hn | simpl; intuition discriminate].
Qed.

Lemma newRequest_decodes_open_requests_witness :
  ~ In Byte.x00 (list_byte_of_string "foo.txt")
  /\ newRequest 14 (rrq_datagram "foo.txt" ++ [Byte.xff; Byte.x00])
     = Ok {| req_numRead := 14; req_body := [Byte.xff; Byte.x00];
             req_opcode := opRRQ; req_number := 0;
             req_filename := "foo.txt"; req_mode := "octet";
             req_errorMessage := "" |}
  /\ newRequest 14 (wrq_datagram "foo.txt" ++ [Byte.xff; Byte.x00])
     = Ok {| req_numRead := 14; req_body := [Byte.xff; Byte.x00];
             req_opcode := opWRQ; req_number := 0;
             req_filename := "foo.txt"; req_mode := "octet";
             req_errorMessage := "" |}.
Proof.
  assert (~ In Byte.x00 (list_byte_of_string "foo.txt")) as H
    by (simpl; intuition discriminate).
  split; [exact H|].
  exact (newRequest_decodes_open_requests 14 "foo.txt"
           [Byte.xff; Byte.x00] H).
Defined.

(** X4: an RRQ or WRQ whose mode is not exactly [octet] (the comparison
    is case sensitive) is refused with error code 0 and a message that
    quotes the mode. *)
Theorem newRequest_refuses_other_modes numRead op name mode rest :
  Byte.eqb op opRRQ || Byte.eqb op opWRQ = true ->
  ~ In Byte.x00 (list_byte_of_string name) ->
  ~ In Byte.x00 (list_byte_of_string mode) ->
  mode <> "octet"%string ->
  newRequest numRead (open_datagram op name mode ++ rest)
  = Err (errTFTP ecNDEF
           ("Incorrect mode '" ++ mode
            ++ "'. This server supports only 'octet' mode.")%string).
Proof.
  intros Hop Hn Hm Hne.
  rewrite newRequest_open_strings by assumption.
  destruct (String.eqb_spec mode "octet") as [E|E]; [contradiction|].
  cbn [negb]. unfold as_error, newTFTPError.
  change (ecNOUS <? ecNDEF) with false. cbv iota.
  change (ecNDEF =? ecNDEF) with true. cbv iota zeta.
  cbn [code message String.concat]. reflexivity.
Qed.

Lemma newRequest_refuses_other_modes_witness :
  newRequest 17 (open_datagram opRRQ "foo.txt" "netascii")
  = Err (errTFTP 0
      "Incorrect mode 'netascii'. This server supports only 'octet' mode.")
  /\ newRequest 14 (open_datagram opWRQ "foo.txt" "OCTET")
     = Err (errTFTP 0
         "Incorrect mode 'OCTET'. This server supports only 'octet' mode.").
Proof.
  split.
  - rewrite <- (app_nil_r (open_datagram opRRQ "foo.txt" "netascii")).
    apply (newRequest_refuses_other_modes 17 opRRQ "foo.txt" "netascii" []);
      [reflexivity | simpl; intuition discriminate
       | simpl; intuition discriminate | discriminate].
  - rewrite <- (app_nil_r (open_datagram opWRQ "foo.txt" "OCTET")).
    apply (newRequest_refuses_other_modes 14 opWRQ "foo.txt" "OCTET" []);
      [reflexivity | simpl; intuition discriminate
       | simpl; intuition discriminate | discriminate].
Defined.

Lemma newRequest_data n payload rest :
  newRequest (len (data_datagram n payload)) (data_datagram n payload ++ rest)
  = Ok {| req_numRead := len (data_datagram n payload);
          req_body := payload; req_opcode := opDATA;
          req_number := wrap16 n; req_filename := ""; req_mode := "";
          req_errorMessage := "" |}.
Proof.
  unfold data_datagram at 2, PutUint16. cbn [app].
  unfold newRequest. rewrite index_1, slice_from_2. cbn [bind].
  change (Byte.eqb opDATA opRRQ || Byte.eqb opDATA opWRQ) with false.
  change (Byte.eqb opDATA opDATA || Byte.eqb opDATA opACK) with true.
  cbv iota. rewrite slice_to_2, slice_from_2. cbn [bind].
  change [byte_of_Z (Z.shiftr n 8); byte_of_Z n] with (PutUint16 n ++ []).
  rewrite Uint16_PutUint16. cbn [bind].
  assert (len (data_datagram n payload) - hdrsize = len payload) as ->.
  { unfold data_datagram, PutUint16, hdrsize, len. cbn [app length]. lia. }
  rewrite slice_to_ok by (unfold len; rewrite length_app; lia).
  cbn [bind].
  replace (firstn (Z.to_nat (len payload)) (payload ++ rest)) with payload;
    [reflexivity|].
  unfold len. rewrite Nat2Z.id, firstn_app, Nat.sub_diag, firstn_all.
  simpl firstn. rewrite app_nil_r. reflexivity.
Qed.

(** X5: a DATA datagram that [ReadFrom] puts at the front of the
    receive buffer is decoded to its block number modulo 65536 and to its
    own payload: the bytes an earlier datagram left behind it in the
    buffer never reach the payload. *)
Theorem newRequest_data_drops_stale_bytes n payload buf :
  (length (data_datagram n payload) <= length buf)%nat ->
  newRequest (fst (ReadFrom (data_datagram n payload) buf))
    (snd (ReadFrom (data_datagram n payload) buf))
  = Ok {| req_numRead := hdrsize + len payload;
          req_body := payload; req_opcode := opDATA;
          req_number := wrap16 n; req_filename := ""; req_mode := "";
          req_errorMessage := "" |}.
Proof.
  intros Hfit. rewrite ReadFrom_fits by exact Hfit. cbn [fst snd].
  rewrite newRequest_data. f_equal. f_equal.
  unfold data_datagram, PutUint16, hdrsize, len. cbn [app length]. lia.
Qed.

Lemma newRequest_data_drops_stale_bytes_witness :
  (length (data_datagram 7 [Byte.x68; Byte.x69])
   <= length (error_datagram 1 "File not found."))%nat
  /\ newRequest
       (fst (ReadFrom (data_datagram 7 [Byte.x68; Byte.x69])
               (error_datagram 1 "File not found.")))
       (snd (ReadFrom (data_datagram 7 [Byte.x68; Byte.x69])
               (error_datagram 1 "File not found.")))
     = Ok {| req_numRead := hdrsize + len [Byte.x68; Byte.x69];
             req_body := [Byte.x68; Byte.x69]; req_opcode := opDATA;
             req_number := wrap16 7; req_filename := ""; req_mode := "";
             req_errorMessage := "" |}.
Proof.
  assert (length (data_datagram 7 [Byte.x68; Byte.x69])
          <= length (error_datagram 1 "File not found."))%nat as H
    by (simpl; lia).
  split; [exact H|].
  exact (newRequest_data_drops_stale_bytes 7 [Byte.x68; Byte.x69]
           (error_datagram 1 "File not found.") H).
Defined.

Lemma newRequest_error_datagram numRead c msg rest :
  ~ In Byte.x00 (list_byte_of_string msg) ->
  newRequest numRead (error_datagram c msg ++ rest)
  = Ok {| req_numRead := numRead; req_body := rest; req_opcode := opERROR;
          req_number := wrap16 c; req_filename := ""; req_mode := "";
          req_errorMessage := msg |}.
Proof.
  intros Hn. unfold error_datagram, PutUint16, toCString. cbn [app].
  rewrite <- !app_assoc. cbn [app].
  unfold newRequest. rewrite index_1, slice_from_2. cbn [bind].
  change (Byte.eqb opERROR opRRQ || Byte.eqb opERROR opWRQ) with false.
  change (Byte.eqb opERROR opDATA || Byte.eqb opERROR opACK) with false.
  change (Byte.eqb opERROR opERROR) with true.
  cbv iota. rewrite slice_to_2, slice_from_2. cbn [bind].
  change [byte_of_Z (Z.shiftr c 8); byte_of_Z c] with (PutUint16 c ++ []).
  rewrite Uint16_PutUint16. cbn [bind].
  rewrite readCString_app by exact Hn. cbn [bind].
  rewrite string_of_list_byte_of_string.
  replace (len (list_byte_of_string msg) + 1)
    with (len (list_byte_of_string msg ++ [Byte.x00]))
    by (unfold len; rewrite length_app; simpl; lia).
  change (list_byte_of_string msg ++ Byte.x00 :: rest)
    with (list_byte_of_string msg ++ [Byte.x00] ++ rest).
  rewrite app_assoc, slice_from_app. reflexivity.
Qed.

(** X6: an ERROR datagram whose message holds no zero byte, read into
    the receive buffer, is decoded to its code modulo 65536 and its
    message, whatever the buffer held before. *)
Theorem newRequest_decodes_peer_error c msg buf :
  ~ In Byte.x00 (list_byte_of_string msg) ->
  (length (error_datagram c msg) <= length buf)%nat ->
  newRequest (fst (ReadFrom (error_datagram c msg) buf))
    (snd (ReadFrom (error_datagram c msg) buf))
  = Ok {| req_numRead := len (error_datagram c msg);
          req_body := skipn (length (error_datagram c msg)) buf;
          req_opcode := opERROR;
          req_number := wrap16 c; req_filename := ""; req_mode := "";
          req_errorMessage := msg |}.
Proof.
  intros Hn Hfit. rewrite ReadFrom_fits by exact Hfit. cbn [fst snd].
  apply newRequest_error_datagram. exact Hn.
Qed.

Lemma newRequest_decodes_peer_error_witness :
  (~ In Byte.x00 (list_byte_of_string "stop")
   /\ (length (error_datagram 0 "stop")
       <= length (data_datagram 1 (repeat Byte.x41 512)))%nat)
  /\ newRequest
       (fst (ReadFrom (error_datagram 0 "stop")
               (data_datagram 1 (repeat Byte.x41 512))))
       (snd (ReadFrom (error_datagram 0 "stop")
               (data_datagram 1 (repeat Byte.x41 512))))
     = Ok {| req_numRead := len (error_datagram 0 "stop");
             req_body := skipn (length (error_datagram 0 "stop"))
                           (data_datagram 1 (repeat Byte.x41 512));
             req_opcode := opERROR; req_number := wrap16 0;
             req_filename := ""; req_mode := "";
             req_errorMessage := "stop" |}.
Proof.
  assert (~ In Byte.x00 (list_byte_of_string "stop")) as H
    by (simpl; intuition discriminate).
  assert (length (error_datagram 0 "stop")
          <= length (data_datagram 1 (repeat Byte.x41 512)))%nat as H2
    by (apply Nat.leb_le; vm_compute; reflexivity).
  split; [split; assumption|].
  exact (newRequest_decodes_peer_error 0 "stop"
           (data_datagram 1 (repeat Byte.x41 512)) H H2).
Defined.

(** X7: an RRQ or WRQ is a decoding error, not a crash, when no zero
    byte follows the opcode anywhere in the buffer. *)
Theorem newRequest_unterminated_string numRead b0 op rest :
  ~ In Byte.x00 rest ->
  Byte.eqb op opRRQ || Byte.eqb op opWRQ = true ->
  newRequest numRead (b0 :: op :: rest) = Err errCString.
Proof.
  intros Hn Hop. unfold newRequest. rewrite index_1, slice_from_2.
  cbn [bind]. rewrite Hop. cbv iota.
  rewrite (proj2 (readCString_error_iff rest) Hn). reflexivity.
Qed.

Lemma newRequest_unterminated_string_witness :
  (~ In Byte.x00 [Byte.x66; Byte.x6f; Byte.x6f]
   /\ Byte.eqb opRRQ opRRQ || Byte.eqb opRRQ opWRQ = true)
  /\ newRequest 5 [Byte.x00; opRRQ; Byte.x66; Byte.x6f; Byte.x6f]
     = Err errCString.
Proof.
  assert (~ In Byte.x00 [Byte.x66; Byte.x6f; Byte.x6f]) as H1
    by (simpl; intuition discriminate).
  split; [split; [exact H1 | reflexivity]|].
  exact (newRequest_unterminated_string 5 Byte.x00 opRRQ
           [Byte.x66; Byte.x6f; Byte.x6f] H1 eq_refl).
Defined.

(** X8: on a buffer of four bytes or more, [newRequest] panics exactly
    when the opcode byte is DATA or ACK and the length reported for the
    datagram is under the four header bytes or beyond the buffer; no other
    opcode makes it panic, whatever the length. *)
Theorem newRequest_panics_on_short_blocks numRead b0 b1 b2 b3 rest :
  newRequest numRead (b0 :: b1 :: b2 :: b3 :: rest) = Panic
  <-> (Byte.eqb b1 opDATA || Byte.eqb b1 opACK = true)
      /\ ~ (hdrsize <= numRead <= len (b0 :: b1 :: b2 :: b3 :: rest)).
Proof.
  unfold newRequest. rewrite index_1, slice_from_2. cbn [bind].
  destruct (Byte.eqb b1 opRRQ || Byte.eqb b1 opWRQ) eqn:E1.
  { assert (Byte.eqb b1 opDATA || Byte.eqb b1 opACK = false) as ->.
    { apply orb_true_iff in E1 as [E|E]; apply Byte.byte_dec_bl in E;
        subst b1; reflexivity. }
    split; [|intros [? _]; discriminate]. intros H. exfalso.
    destruct (readCString (b2 :: b3 :: rest)) as [[n f]| |] eqn:R1;
      cbn [bind] in H; try discriminate.
    - pose proof (readCString_bound _ _ _ R1) as Hb.
      rewrite slice_from_ok in H by exact Hb. cbn [bind] in H.
      destruct (readCString (skipn (Z.to_nat n) (b2 :: b3 :: rest)))
        as [[n2 m]| |] eqn:R2; cbn [bind] in H; try discriminate.
      + pose proof (readCString_bound _ _ _ R2) as Hb2.
        destruct (negb (String.eqb m "octet")); cbv iota in H;
          [discriminate|].
        rewrite slice_from_ok in H by exact Hb2. discriminate.
      + exact (readCString_no_panic _ R2).
    - exact (readCString_no_panic _ R1). }
  destruct (Byte.eqb b1 opDATA || Byte.eqb b1 opACK) eqn:E2.
  { rewrite slice_to_2, slice_from_2. cbn [bind Uint16].
    unfold slice_to, hdrsize, len. cbn [length].
    destruct (Z.leb_spec 0 (numRead - 4)),
      (Z.leb_spec (numRead - 4) (Z.of_nat (length rest)));
      cbn [andb bind]; split; try discriminate; try (intros _; split);
      try reflexivity; try lia; intros [_ H']; exfalso; apply H'; lia. }
  split; [|intros [? _]; discriminate]. intros H. exfalso.
  destruct (Byte.eqb b1 opERROR); [|discriminate].
  rewrite slice_to_2, slice_from_2 in H. cbn [bind Uint16] in H.
  destruct (readCString rest) as [[n f]| |] eqn:R1; cbn [bind] in H;
    try discriminate.
  - pose proof (readCString_bound _ _ _ R1) as Hb.
    rewrite slice_from_ok in H by exact Hb. discriminate.
  - exact (readCString_no_panic _ R1).
Qed.

(** ** One datagram and the rest of the server *)

Lemma commit_other cli s a :
  a <> tid cli -> connections (commit cli s) !! a = connections s !! a.
Proof.
  intros Ha. unfold commit. case_match; [|reflexivity].
  cbn [connections]. apply lookup_insert_ne. congruence.
Qed.

Lemma handleConnection_no_panic addr numRead body s s' :
  handleConnection addr numRead body s = Ok s' ->
  newRequest numRead body <> Panic.
Proof.
  intros HC Hp. unfold handleConnection in HC.
  destruct (attach addr s) as [c0 s0].
  rewrite (pipeline_panic _ _ _ _ Hp) in HC. discriminate.
Qed.

(** X12: serving a datagram changes no table entry but the one of the
    address it came from, and sends at most one packet, to that address. *)
Theorem datagram_touches_only_its_sender addr numRead body s s' :
  wf_server s ->
  handleConnection addr numRead body s = Ok s' ->
  (forall a, a <> addr -> connections s' !! a = connections s !! a)
  /\ (w_sent (listener s') = w_sent (listener s)
      \/ exists pkt,
           w_sent (listener s') = w_sent (listener s) ++ [(addr, pkt)]).
Proof.
  intros Hwf HC.
  pose proof (handleConnection_no_panic _ _ _ _ _ HC) as Hnp.
  destruct (attach addr s) as [cli0 s0] eqn:Hat.
  destruct (attach_spec _ _ _ _ Hwf Hat) as (_ & _ & _ & _ & _ & Hoth).
  destruct (handleConnection_outcome _ _ _ _ _ _ Hwf Hnp Hat)
    as (err & cli1 & s1 & _ & Ht1 & _ & Hcase).
  assert (forall c st,
            tid c = addr ->
            connections st = connections s0
            \/ connections st = delete addr (connections s0) ->
            forall a, a <> addr ->
                      connections (commit c st) !! a = connections s !! a)
    as Hkeep.
  { intros c st Hc Hst a Ha. rewrite commit_other by congruence.
    rewrite <- (Hoth a Ha).
    destruct Hst as [-> | ->]; [reflexivity|].
    apply lookup_delete_ne. congruence. }
  destruct err as [e|].
  - destruct Hcase as (Hsent & Hcase).
    destruct (is_endOfSession e).
    + destruct Hcase as (HC' & Hc). rewrite HC' in HC. injection HC as <-.
      split; [apply Hkeep; assumption|].
      left. rewrite commit_listener. exact Hsent.
    + destruct Hcase as (Hc1 & Hcase).
      destruct (send_ok (listener s1)).
      * destruct Hcase as (s2 & HC' & Hc2 & Hs2 & _). rewrite HC' in HC.
        injection HC as <-. split.
        -- apply Hkeep; [exact Ht1 | left; congruence].
        -- right. eexists. rewrite commit_listener. exact Hs2.
      * destruct Hcase as (HC' & _). congruence.
  - destruct Hcase as (HC' & Hc & pkt & Hsent). rewrite HC' in HC.
    injection HC as <-. split.
    + apply Hkeep; [exact Ht1 | left; exact Hc].
    + right. exists pkt. rewrite commit_listener. exact Hsent.
Qed.

Lemma datagram_touches_only_its_sender_witness :
  exists s',
    (wf_server server_reading
     /\ handleConnection peer 4 (ack_datagram 1) server_reading = Ok s')
    /\ (forall a, a <> peer ->
          connections s' !! a = connections server_reading !! a)
    /\ (w_sent (listener s') = w_sent (listener server_reading)
        \/ exists pkt,
             w_sent (listener s')
             = w_sent (listener server_reading) ++ [(peer, pkt)]).
Proof.
  pose (s' := match handleConnection peer 4 (ack_datagram 1) server_reading
              with Ok s => s | _ => server_reading end).
  assert (handleConnection peer 4 (ack_datagram 1) server_reading = Ok s')
    as HC by (vm_compute; reflexivity).
  exists s'. split; [split; [exact server_reading_wf | exact HC]|].
  exact (datagram_touches_only_its_sender peer 4 (ack_datagram 1)
           server_reading s' server_reading_wf HC).
Defined.

(** ** No session stays half initialised *)

Lemma io_Copy_error f b w e w' :
  io_Copy f b w = (Some e, w') -> e <> endOfSession.
Proof.
  unfold_os. intros H. repeat case_match; simplify_eq; discriminate.
Qed.

Lemma handleRequest_session cli req s err cli' s' :
  handleRequest cli req s = (err, cli', s') ->
  match err with
  | None => inited cli' = true
  | Some e =>
      e = endOfSession -> connections s' = delete (tid cli) (connections s)
  end.
Proof.
  unfold handleRequest. intros H.
  destruct ((byte_val (req_opcode req) <? byte_val opRRQ)
            || (byte_val opERROR <? byte_val (req_opcode req)));
    [injection H as <- <- <-; discriminate|].
  destruct (Byte.eqb (req_opcode req) opACK && inited cli && lastPkt cli);
    [injection H as <- <- <-; reflexivity|].
  destruct (negb (inited cli) && negb (Byte.eqb (req_opcode req) opRRQ)
            && negb (Byte.eqb (req_opcode req) opWRQ));
    [injection H as <- <- <-; discriminate|].
  destruct (inited cli) eqn:Hi; cbn [negb] in H.
  - destruct (Byte.eqb (req_opcode req) opERROR);
      [injection H as <- <- <-; exact Hi|].
    destruct (Byte.eqb (req_opcode req) opDATA);
      [|injection H as <- <- <-; exact Hi].
    destruct (io_Copy (file cli) (req_body req) (listener s)) as [e w] eqn:HC.
    destruct e as [e|]; [|injection H as <- <- <-; exact Hi].
    pose proof (io_Copy_error _ _ _ _ _ HC) as Hne.
    destruct e as [| | |[]| |]; injection H as <- <- <-;
      solve [discriminate | intros; contradiction].
  - destruct (prepareFromRequest cli req _) as [[e c] w] eqn:HP.
    destruct e as [e|].
    + apply prepareFromRequest_frame in HP. destruct HP as (_ & _ & _ & Hne).
      injection H as <- <- <-. intros ->. contradiction.
    + assert (inited c = true) as Hc.
      { revert HP. unfold prepareFromRequest.
        repeat case_match; intros; simplify_eq; reflexivity. }
      destruct (Byte.eqb (req_opcode req) opERROR);
        [injection H as <- <- <-; exact Hc|].
      destruct (Byte.eqb (req_opcode req) opDATA);
        [|injection H as <- <- <-; exact Hc].
      destruct (io_Copy (file c) (req_body req) w) as [e w2] eqn:HC.
      destruct e as [e|]; [|injection H as <- <- <-; exact Hc].
      pose proof (io_Copy_error _ _ _ _ _ HC) as Hne.
      destruct e as [| | |[]| |]; injection H as <- <- <-;
        solve [discriminate | intros; contradiction].
Qed.

Lemma handleResponse_inited cli resp s err cli' resp' s' :
  handleResponse cli resp s = (err, cli', resp', s') ->
  inited cli' = inited cli.
Proof.
  unfold handleResponse. intros H.
  repeat case_match; simplify_eq; reflexivity.
Qed.

Lemma newRequest_error numRead body e :
  newRequest numRead body = Err e -> e <> endOfSession.
Proof.
  unfold newRequest, readCString, index, slice_from, slice_to, Uint16, bind.
  intros H. repeat case_match; simplify_eq; discriminate.
Qed.

Lemma pipeline_session cli numRead body s err cli' s' :
  pipeline cli numRead body s = Ok (err, cli', s') ->
  match err with
  | None => inited cli' = true
  | Some e =>
      e = endOfSession -> connections s' = delete (tid cli) (connections s)
  end.
Proof.
  unfold pipeline.
  destruct (newRequest numRead body) as [req|e|] eqn:HN; [| |discriminate].
  2:{ intros [= <- <- <-] ->. exfalso.
      exact (newRequest_error _ _ _ HN eq_refl). }
  destruct (handleRequest cli req s) as [[err1 cli1] s1] eqn:HQ.
  apply handleRequest_session in HQ.
  destruct err1 as [e1|]; [intros [= <- <- <-]; exact HQ|].
  destruct (newResponse cli1 req) as [resp| |]; cbn [bind]; try discriminate.
  destruct (handleResponse cli1 resp s1) as [[[err2 cli2] resp2] s2] eqn:HR.
  pose proof (handleResponse_inited _ _ _ _ _ _ _ HR) as Hi2.
  apply handleResponse_frame in HR. destruct HR as (_ & _ & _ & _ & _ & Hne).
  destruct err2 as [e2|].
  { intros [= <- <- <-] ->. contradiction. }
  rewrite sendResponse_spec. cbv zeta.
  destruct (send_ok (listener s2)); intros [= <- <- <-];
    [congruence | discriminate].
Qed.

Lemma handleConnection_settled addr numRead body s s' :
  wf_server s -> settled s ->
  handleConnection addr numRead body s = Ok s' -> settled s'.
Proof.
  intros Hwf Hset HC.
  pose proof (handleConnection_no_panic _ _ _ _ _ HC) as Hnp.
  destruct (attach addr s) as [cli0 s0] eqn:Hat.
  destruct (attach_spec _ _ _ _ Hwf Hat) as (Ht0 & _ & _ & _ & _ & Hoth).
  destruct (handleConnection_outcome _ _ _ _ _ _ Hwf Hnp Hat)
    as (err & cli1 & s1 & Hp & Ht1 & _ & Hcase).
  pose proof (pipeline_session _ _ _ _ _ _ _ Hp) as Hses.
  (* away from [addr] the table is the one of [s] *)
  assert (forall c st,
            tid c = addr ->
            (connections st = connections s0 /\ inited c = true)
            \/ connections st = delete addr (connections s0) ->
            settled (commit c st)) as Hkeep.
  { intros c st Hc Hst a x Hx.
    destruct (decide (a = addr)) as [->|Ha].
    - unfold commit in Hx. rewrite Hc in Hx.
      destruct Hst as [[E Hi]| E].
      + destruct (connections st !! addr) eqn:El.
        * cbn [connections] in Hx. rewrite lookup_insert_eq in Hx.
          congruence.
        * congruence.
      + rewrite E, lookup_delete_eq in Hx. rewrite E, lookup_delete_eq in Hx.
        discriminate.
    - rewrite commit_other in Hx by congruence.
      assert (connections st !! a = connections s !! a) as E.
      { rewrite <- (Hoth a Ha).
        destruct Hst as [[-> _]| ->]; [reflexivity|].
        apply lookup_delete_ne. congruence. }
      rewrite E in Hx. exact (Hset _ _ Hx). }
  destruct err as [e|].
  - destruct Hcase as (_ & Hcase).
    destruct (is_endOfSession e) eqn:He.
    + apply is_endOfSession_true in He.
      destruct Hcase as (HC' & _). rewrite HC' in HC. injection HC as <-.
      apply Hkeep; [exact Ht1|]. right. rewrite (Hses He). congruence.
    + destruct Hcase as (Hc1 & Hcase).
      destruct (send_ok (listener s1)).
      * destruct Hcase as (s2 & HC' & Hc2 & _). rewrite HC' in HC.
        injection HC as <-.
        apply Hkeep; [exact Ht1|]. left. split; [congruence | reflexivity].
      * destruct Hcase as (HC' & _). congruence.
  - destruct Hcase as (HC' & Hc & _). rewrite HC' in HC. injection HC as <-.
    apply Hkeep; [exact Ht1|]. left. auto.
Qed.

(** X13: between two datagrams every entry of the table is flagged
    inited, sits under its own transfer id, and the receive buffer has
    its 2048 bytes: the fresh entry [handleConnection] makes for an
    unknown address is initialised, flagged by [handleError] or removed
    before the datagram is done with. *)
Theorem sessions_in_the_table_are_initialised p inbox p' :
  steady p -> settled (server p) ->
  ListenAndServe p inbox = Ok p' ->
  steady p' /\ settled (server p').
Proof.
  revert p. induction inbox as [|[addr dgram] inbox IH]; intros p Hst Hset.
  - intros [= <-]. auto.
  - cbn [ListenAndServe].
    destruct (serve_one p addr dgram) as [p1| |] eqn:H1; cbn [bind];
      try discriminate.
    intros HL. apply (IH p1); [| |exact HL].
    + exact (serve_one_steady _ _ _ _ Hst H1).
    + unfold serve_one in H1.
      destruct (ReadFrom dgram (buffer p)) as [numRead body].
      destruct (handleConnection addr numRead body (server p)) as [s1| |]
        eqn:HC; cbn [bind] in H1; try discriminate.
      injection H1 as <-. cbn [server].
      exact (handleConnection_settled _ _ _ _ _ (proj2 Hst) Hset HC).
Qed.

Lemma sessions_in_the_table_are_initialised_witness :
  exists p',
    (steady (NewTFTPServer world_foo)
     /\ settled (server (NewTFTPServer world_foo))
     /\ ListenAndServe (NewTFTPServer world_foo)
          [(peer, rrq_datagram "foo.txt"); (bystander, ack_datagram 1)]
        = Ok p')
    /\ steady p' /\ settled (server p').
Proof.
  pose (p' := match ListenAndServe (NewTFTPServer world_foo)
                      [(peer, rrq_datagram "foo.txt");
                       (bystander, ack_datagram 1)]
              with Ok p => p | _ => NewTFTPServer world_foo end).
  assert (ListenAndServe (NewTFTPServer world_foo)
            [(peer, rrq_datagram "foo.txt"); (bystander, ack_datagram 1)]
          = Ok p') as HL by (vm_compute; reflexivity).
  assert (settled (server (NewTFTPServer world_foo))) as Hs
    by apply map_Forall_empty.
  exists p'. split; [split_and!; auto using NewTFTPServer_steady|].
  exact (sessions_in_the_table_are_initialised (NewTFTPServer world_foo) _ p'
           (NewTFTPServer_steady world_foo) Hs HL).
Defined.

(** ** Which requests reach the file store *)

Lemma prepareFromRequest_rrq_store cli req w err cli' w' :
  Byte.eqb (req_opcode req) opRRQ = true ->
  prepareFromRequest cli req w = (err, cli', w') ->
  store w' = store w.
Proof.
  intros Hop. unfold prepareFromRequest. rewrite Hop.
  unfold os_Open, file_Stat. intros H.
  repeat case_match; simplify_eq; reflexivity.
Qed.

Lemma handleRequest_store cli req s err cli' s' :
  req_opcode req <> opWRQ -> req_opcode req <> opDATA ->
  handleRequest cli req s = (err, cli', s') ->
  store (listener s') = store (listener s).
Proof.
  intros Hw Hd. unfold handleRequest.
  assert (Byte.eqb (req_opcode req) opWRQ = false) as Ew.
  { destruct (Byte.eqb (req_opcode req) opWRQ) eqn:E; [|reflexivity].
    apply Byte.byte_dec_bl in E. contradiction. }
  assert (Byte.eqb (req_opcode req) opDATA = false) as Ed.
  { destruct (Byte.eqb (req_opcode req) opDATA) eqn:E; [|reflexivity].
    apply Byte.byte_dec_bl in E. contradiction. }
  rewrite Ew, Ed.
  destruct ((byte_val (req_opcode req) <? byte_val opRRQ)
            || (byte_val opERROR <? byte_val (req_opcode req)));
    [intros [= <- <- <-]; reflexivity|].
  destruct (Byte.eqb (req_opcode req) opACK && inited cli && lastPkt cli);
    [intros [= <- <- <-]; reflexivity|].
  destruct (inited cli); cbn [negb andb].
  - destruct (Byte.eqb (req_opcode req) opERROR);
      intros [= <- <- <-]; reflexivity.
  - destruct (Byte.eqb (req_opcode req) opRRQ) eqn:Er; cbn [negb];
      [|intros [= <- <- <-]; reflexivity].
    destruct (prepareFromRequest cli req _) as [[e c] w] eqn:HP.
    apply (prepareFromRequest_rrq_store _ _ _ _ _ _ Er) in HP.
    destruct e as [e|]; [intros [= <- <- <-]; exact HP|].
    destruct (Byte.eqb (req_opcode req) opERROR);
      intros [= <- <- <-]; exact HP.
Qed.

Lemma newRequest_index numRead body req :
  newRequest numRead body = Ok req -> index body 1 = Ok (req_opcode req).
Proof.
  destruct body as [|b0 [|b1 rest]];
    try (rewrite newRequest_short by (simpl; lia); discriminate).
  intros H. rewrite (newRequest_opcode _ _ _ _ _ H). apply index_1.
Qed.

Lemma pipeline_store cli numRead body s err cli' s' :
  index body 1 <> Ok opWRQ -> index body 1 <> Ok opDATA ->
  pipeline cli numRead body s = Ok (err, cli', s') ->
  store (listener s') = store (listener s).
Proof.
  intros Hw Hd. unfold pipeline.
  destruct (newRequest numRead body) as [req|e|] eqn:HN; [| |discriminate].
  2:{ intros [= <- <- <-]. reflexivity. }
  apply newRequest_index in HN.
  destruct (handleRequest cli req s) as [[err1 cli1] s1] eqn:HQ.
  apply handleRequest_store in HQ; [|congruence..].
  destruct err1 as [e1|]; [intros [= <- <- <-]; exact HQ|].
  destruct (newResponse cli1 req) as [resp| |]; cbn [bind]; try discriminate.
  destruct (handleResponse cli1 resp s1) as [[[err2 cli2] resp2] s2] eqn:HR.
  apply handleResponse_frame in HR. destruct HR as (_ & Hst2 & _).
  destruct err2 as [e2|]; [intros [= <- <- <-]; congruence|].
  rewrite sendResponse_spec. cbv zeta.
  destruct (send_ok (listener s2)); intros [= <- <- <-];
    unfold store in *; cbn; congruence.
Qed.

(** X14: a datagram whose opcode byte is neither WRQ nor DATA leaves
    every file and the free space as they were, whatever it holds and
    whatever the state of the sender's session. *)
Theorem only_wrq_and_data_reach_the_files addr numRead body s s' :
  index body 1 <> Ok opWRQ -> index body 1 <> Ok opDATA ->
  handleConnection addr numRead body s = Ok s' ->
  w_files (listener s') = w_files (listener s)
  /\ w_free (listener s') = w_free (listener s).
Proof.
  intros Hw Hd HC.
  assert (store (listener s') = store (listener s)) as Hst;
    [|unfold store in Hst; injection Hst; auto].
  assert (listener (snd (attach addr s)) = listener s) as Hl0
    by (unfold attach; destruct (connections s !! addr); reflexivity).
  unfold handleConnection in HC.
  destruct (attach addr s) as [cli0 s0]. cbn [snd] in Hl0.
  destruct (pipeline cli0 numRead body s0) as [[[err cli1] s1]| |] eqn:Hp;
    cbn [bind] in HC; try discriminate.
  apply (pipeline_store _ _ _ _ _ _ _ Hw Hd) in Hp. rewrite Hl0 in Hp.
  destruct err as [e|].
  - destruct (is_endOfSession e).
    + injection HC as <-. rewrite commit_listener. exact Hp.
    + destruct (send_ok (listener s1)) eqn:Hok.
      * destruct (handleError_ok cli1 e s1 Hok) as (s2 & HE & _ & _ & Hst2 & _).
        rewrite HE in HC. cbn [bind] in HC. injection HC as <-.
        rewrite commit_listener. congruence.
      * rewrite (handleError_panic cli1 e s1 Hok) in HC. discriminate.
  - injection HC as <-. rewrite commit_listener. exact Hp.
Qed.

Lemma only_wrq_and_data_reach_the_files_witness :
  exists s',
    (index (ack_datagram 1) 1 <> Ok opWRQ
     /\ index (ack_datagram 1) 1 <> Ok opDATA
     /\ handleConnection peer 4 (ack_datagram 1) server_reading = Ok s')
    /\ w_files (listener s') = w_files (listener server_reading)
    /\ w_free (listener s') = w_free (listener server_reading).
Proof.
  pose (s' := match handleConnection peer 4 (ack_datagram 1) server_reading
              with Ok s => s | _ => server_reading end).
  assert (handleConnection peer 4 (ack_datagram 1) server_reading = Ok s')
    as HC by (vm_compute; reflexivity).
  assert (index (ack_datagram 1) 1 <> Ok opWRQ) as H1
    by (vm_compute; discriminate).
  assert (index (ack_datagram 1) 1 <> Ok opDATA) as H2
    by (vm_compute; discriminate).
  exists s'. split; [split_and!; assumption|].
  exact (only_wrq_and_data_reach_the_files peer 4 (ack_datagram 1)
           server_reading s' H1 H2 HC).
Defined.

(** ** Opcodes outside 1..5 *)

Lemma illegal_not_op op :
  illegal op = true ->
  Byte.eqb op opRRQ = false /\ Byte.eqb op opWRQ = false
  /\ Byte.eqb op opDATA = false /\ Byte.eqb op opACK = false
  /\ Byte.eqb op opERROR = false.
Proof.
  intros H.
  assert (forall o, illegal o = false -> Byte.eqb op o = false) as Hne.
  { intros o Ho. destruct (Byte.eqb op o) eqn:E; [|reflexivity].
    apply Byte.byte_dec_bl in E. congruence. }
  split_and!; apply Hne; reflexivity.
Qed.

Lemma newRequest_illegal numRead b0 op rest :
  illegal op = true ->
  newRequest numRead (b0 :: op :: rest)
  = Ok {| req_numRead := numRead; req_body := rest; req_opcode := op;
          req_number := 0; req_filename := ""; req_mode := "";
          req_errorMessage := "" |}.
Proof.
  intros H. destruct (illegal_not_op op H) as (E1 & E2 & E3 & E4 & E5).
  unfold newRequest. rewrite index_1, slice_from_2. cbn [bind].
  rewrite E1, E2, E3, E4, E5. reflexivity.
Qed.

(** X15: a datagram whose opcode byte is outside 1..5 is answered with
    one ILLEGAL_OPERATION error whatever its length and the state of the
    sender's session, which is flagged inited and lastPkt; no file and no
    stream is touched. *)
Theorem illegal_opcode_is_refused_in_any_session addr numRead b0 op rest s :
  wf_server s ->
  illegal op = true ->
  send_ok (listener s) = true ->
  exists s',
    handleConnection addr numRead (b0 :: op :: rest) s = Ok s'
    /\ w_sent (listener s')
       = w_sent (listener s)
         ++ [(addr, error_datagram ecILL "Illegal TFTP operation.")]
    /\ connections s'
       = <[addr := terminated (fst (attach addr s))]> (connections s)
    /\ w_files (listener s') = w_files (listener s)
    /\ w_free (listener s') = w_free (listener s)
    /\ w_open (listener s') = w_open (listener s).
Proof.
  intros Hwf Hill Hok.
  destruct (attach addr s) as [cli0 s0] eqn:Hat.
  destruct (attach_spec _ _ _ _ Hwf Hat) as (Ht0 & _ & Hl0 & _ & Hw0 & _).
  assert (connections s0 = <[addr := cli0]> (connections s)) as Hc0.
  { revert Hat. unfold attach.
    destruct (connections s !! addr) as [c|] eqn:E; intros [= <- <-].
    - symmetry. apply insert_id. exact E.
    - reflexivity. }
  unfold handleConnection. rewrite Hat. unfold pipeline.
  rewrite newRequest_illegal by exact Hill.
  unfold handleRequest. cbn [req_opcode].
  unfold illegal in Hill. rewrite Hill. cbn [bind is_endOfSession as_error].
  destruct (handleError_ok cli0 (as_error (newTFTPError ecILL [])) s0)
    as (s2 & HE & Hc2 & Hs2 & Hst2 & Ho2); [congruence|].
  rewrite HE. cbn [bind].
  eexists. split; [reflexivity|]. rewrite commit_listener.
  unfold store in Hst2. injection Hst2 as Hf2 Hfr2.
  split_and!; try congruence.
  - rewrite Hs2, Hw0, Ht0. reflexivity.
  - unfold commit. cbn [tid terminated fst]. rewrite Ht0, Hc2, Hl0.
    cbn [connections]. rewrite Hc0. apply insert_insert_eq.
Qed.

Lemma illegal_opcode_is_refused_in_any_session_witness :
  (wf_server server_reading
   /\ illegal Byte.x09 = true
   /\ send_ok (listener server_reading) = true)
  /\ exists s',
       handleConnection peer 4 [Byte.x00; Byte.x09; Byte.x00; Byte.x00]
         server_reading = Ok s'
       /\ w_sent (listener s')
          = w_sent (listener server_reading)
            ++ [(peer, error_datagram ecILL "Illegal TFTP operation.")]
       /\ connections s'
          = <[peer := terminated (fst (attach peer server_reading))]>
              (connections server_reading)
       /\ w_files (listener s') = w_files (listener server_reading)
       /\ w_free (listener s') = w_free (listener server_reading)
       /\ w_open (listener s') = w_open (listener server_reading).
Proof.
  split; [split_and!; [exact server_reading_wf | reflexivity..]|].
  exact (illegal_opcode_is_refused_in_any_session peer 4 Byte.x00 Byte.x09
           [Byte.x00; Byte.x00] server_reading server_reading_wf
           eq_refl eq_refl).
Defined.

(** ** Opening a session that cannot be opened *)








(** ** The steps of a WRITE session *)





Lemma write_at_end (data payload : list byte) :
  write_at data (length data) payload = data ++ payload.
Proof.
  unfold write_at. rewrite Nat.sub_diag. cbn [repeat].
  rewrite app_nil_r, firstn_all, skipn_all2 by lia.
  rewrite app_nil_r. reflexivity.
Qed.

(** What [io.Copy] does at the end of a writable stream: the bytes that
    fit are appended. *)
Lemma io_Copy_append fd st i payload w :
  w_open w !! fd = Some st -> st_closed st = false ->
  st_writable st = true ->
  w_files w !! st_name st = Some i ->
  st_pos st = length (i_data i) ->
  let part := firstn (w_free w) payload in
  exists w',
    io_Copy (Some fd) payload w
    = ((if (length payload <=? w_free w)%nat then None
        else Some (errOS ENOSPC)), w')
    /\ w_open w' = <[fd := advance st (length part) false]> (w_open w)
    /\ w_files w'
       = <[st_name st := {| i_data := i_data i ++ part; i_read := i_read i;
                            i_write := i_write i |}]> (w_files w)
    /\ w_free w' = (w_free w - length part)%nat
    /\ socket w' = socket w.
Proof.
  intros Hst Hcl Hwr Hf Hpos part.
  destruct payload as [|b payload].
  - exists w. cbn [io_Copy length Nat.leb]. split; [reflexivity|].
    subst part. rewrite firstn_nil. cbn [length].
    split_and!.
    + symmetry. apply list_insert_id. rewrite Hst. f_equal.
      destruct st. unfold advance. cbn in *. rewrite Nat.add_0_r. congruence.
    + symmetry. apply insert_id. rewrite Hf, app_nil_r. f_equal.
      destruct i; reflexivity.
    + lia.
    + reflexivity.
  - unfold io_Copy, file_Write.
    rewrite (live_stream_open _ _ _ Hst Hcl), Hwr, Hf. cbv zeta.
    rewrite Hpos, Nat.sub_diag. cbn [Nat.add]. fold part.
    rewrite write_at_end.
    assert (length (i_data i ++ part) - length (i_data i) = length part)%nat
      as El by (rewrite length_app; lia).
    rewrite El.
    destruct (length (b :: payload) <=? w_free w)%nat;
      (eexists; split; [reflexivity|]);
      unfold update_stream, advance; cbn; rewrite Hwr, ?Hpos;
      split_and!; reflexivity.
Qed.

Lemma handleRequest_data cli req s :
  req_opcode req = opDATA -> inited cli = true ->
  handleRequest cli req s
  = match io_Copy (file cli) (req_body req) (listener s) with
    | (Some (errOS ENOSPC), w) =>
        (Some (as_error (newTFTPError ecDSK [])), cli, set_world w s)
    | (err, w) => (err, cli, set_world w s)
    end.
Proof.
  intros Hop Hi. unfold handleRequest. rewrite Hop, Hi. reflexivity.
Qed.

(** A DATA block that fits, at the end of the file of a WRITE session. *)
Lemma data_appends s addr n payload rest cli fd st i :
  connections s !! addr = Some cli ->
  tid cli = addr -> inited cli = true -> file cli = Some fd ->
  w_open (listener s) !! fd = Some st -> st_closed st = false ->
  st_writable st = true ->
  w_files (listener s) !! st_name st = Some i ->
  st_pos st = length (i_data i) ->
  (length payload <= w_free (listener s))%nat ->
  w_net (listener s) = [] ->
  exists s',
    handleConnection addr (len (data_datagram n payload))
      (data_datagram n payload ++ rest) s = Ok s'
    /\ connections s' = connections s
    /\ w_open (listener s')
       = <[fd := advance st (length payload) false]> (w_open (listener s))
    /\ w_files (listener s')
       = <[st_name st := {| i_data := i_data i ++ payload;
                            i_read := i_read i; i_write := i_write i |}]>
           (w_files (listener s))
    /\ w_free (listener s') = (w_free (listener s) - length payload)%nat
    /\ w_net (listener s') = []
    /\ w_sent (listener s')
       = w_sent (listener s) ++ [(addr, ack_datagram (wrap16 n))].
Proof.
  intros Hc Ht Hi Hfile Hst Hcl Hwr Hf Hpos Hfree Hnet.
  unfold handleConnection, attach. rewrite Hc.
  unfold pipeline. rewrite newRequest_data.
  rewrite handleRequest_data by (reflexivity || assumption).
  cbn [req_body]. rewrite Hfile.
  destruct (io_Copy_append fd st i payload (listener s) Hst Hcl Hwr Hf Hpos)
    as (w' & HC & Ho & Hfi & Hfr & Hso).
  rewrite HC.
  assert ((length payload <=? w_free (listener s))%nat = true) as ->
    by (apply Nat.leb_le; exact Hfree).
  rewrite firstn_all2 in Ho, Hfi, Hfr by exact Hfree.
  unfold socket in Hso. injection Hso as Hn' Hs'.
  unfold newResponse. cbn [req_opcode req_number bind].
  change (Byte.eqb opDATA opRRQ || Byte.eqb opDATA opACK) with false.
  change (Byte.eqb opDATA opWRQ || Byte.eqb opDATA opDATA) with true.
  cbv iota. cbn [bind].
  unfold handleResponse. cbn [resp_opcode].
  change (Byte.eqb opACK opDATA) with false. cbv iota.
  rewrite sendResponse_spec. cbv zeta.
  rewrite send_ok_quiet by (cbn; congruence).
  cbn [is_endOfSession]. eexists. split; [reflexivity|].
  rewrite commit_listener. unfold commit. cbn [connections set_world].
  rewrite Ht, Hc.
  cbn [connections listener set_world set_socket w_open w_files w_free w_net
       w_sent resp_opcode resp_number resp_body].
  rewrite Hn', Hnet, Hs'.
  split_and!; try reflexivity; try assumption.
  apply insert_id. exact Hc.
Qed.

(** X19: one turn of the serving loop on a DATA block for a WRITE
    session whose payload fits the free space: the payload is written at
    the end of the file and acknowledged with its own block number modulo
    65536; the session entry is left as it was, whatever the length of
    the payload. *)
Theorem data_block_is_appended p addr n payload cli fd st i :
  (length (data_datagram n payload) <= length (buffer p))%nat ->
  connections (server p) !! addr = Some cli ->
  tid cli = addr -> inited cli = true -> file cli = Some fd ->
  w_open (listener (server p)) !! fd = Some st -> st_closed st = false ->
  st_writable st = true ->
  w_files (listener (server p)) !! st_name st = Some i ->
  st_pos st = length (i_data i) ->
  (length payload <= w_free (listener (server p)))%nat ->
  w_net (listener (server p)) = [] ->
  exists p',
    serve_one p addr (data_datagram n payload) = Ok p'
    /\ length (buffer p') = length (buffer p)
    /\ connections (server p') = connections (server p)
    /\ w_open (listener (server p'))
       = <[fd := advance st (length payload) false]>
           (w_open (listener (server p)))
    /\ w_files (listener (server p'))
       = <[st_name st := {| i_data := i_data i ++ payload;
                            i_read := i_read i; i_write := i_write i |}]>
           (w_files (listener (server p)))
    /\ w_free (listener (server p'))
       = (w_free (listener (server p)) - length payload)%nat
    /\ w_sent (listener (server p'))
       = w_sent (listener (server p)) ++ [(addr, ack_datagram (wrap16 n))].
Proof.
  intros Hfit Hc Ht Hi Hfile Hst Hcl Hwr Hf Hpos Hfree Hnet.
  rewrite serve_one_fits by exact Hfit.
  destruct (data_appends (server p) addr n payload
              (skipn (length (data_datagram n payload)) (buffer p))
              cli fd st i Hc Ht Hi Hfile Hst Hcl Hwr Hf Hpos Hfree Hnet)
    as (s' & -> & Hc' & Ho' & Hf' & Hfr' & _ & Hs').
  cbn [bind]. eexists. split; [reflexivity|]. cbn [server buffer].
  split_and!; try assumption. apply length_refill. exact Hfit.
Qed.

Lemma data_block_is_appended_witness :
  ((length (data_datagram 65537 [Byte.x68; Byte.x69])
    <= length (buffer (process_writing 2)))%nat
   /\ connections (server (process_writing 2)) !! peer
      = Some (writing_client peer 0)
   /\ w_open (listener (server (process_writing 2))) !! 0%nat
      = Some (new_stream "new.txt" true)
   /\ w_files (listener (server (process_writing 2))) !! "new.txt"%string
      = Some (file_of [])
   /\ (length [Byte.x68; Byte.x69]
       <= w_free (listener (server (process_writing 2))))%nat
   /\ w_net (listener (server (process_writing 2))) = [])
  /\ exists p',
       serve_one (process_writing 2) peer
         (data_datagram 65537 [Byte.x68; Byte.x69]) = Ok p'
       /\ length (buffer p') = length (buffer (process_writing 2))
       /\ connections (server p') = connections (server (process_writing 2))
       /\ w_open (listener (server p'))
          = [ {| st_name := "new.txt"; st_pos := 2; st_writable := true;
                 st_closed := false |} ]
       /\ w_files (listener (server p'))
          = <["new.txt"%string := file_of [Byte.x68; Byte.x69]]>
              (w_files (listener (server (process_writing 2))))
       /\ w_free (listener (server p')) = 0%nat
       /\ w_sent (listener (server p'))
          = [ (peer, ack_datagram 0); (peer, ack_datagram 1) ].
Proof.
  assert (length (data_datagram 65537 [Byte.x68; Byte.x69])
          <= length (buffer (process_writing 2)))%nat as H0
    by (apply Nat.leb_le; vm_compute; reflexivity).
  assert (connections (server (process_writing 2)) !! peer
          = Some (writing_client peer 0)) as H1 by (vm_compute; reflexivity).
  assert (w_files (listener (server (process_writing 2))) !! "new.txt"%string
          = Some (file_of [])) as H2 by (vm_compute; reflexivity).
  assert (length [Byte.x68; Byte.x69]
          <= w_free (listener (server (process_writing 2))))%nat as H3
    by (simpl; lia).
  split; [split_and!; solve [reflexivity | assumption]|].
  exact (data_block_is_appended (process_writing 2) peer 65537
           [Byte.x68; Byte.x69] (writing_client peer 0) 0%nat
           (new_stream "new.txt" true) (file_of [])
           H0 H1 eq_refl eq_refl eq_refl eq_refl eq_refl eq_refl H2 eq_refl
           H3 eq_refl).
Defined.

(** ** A DATA block the store cannot take *)

Lemma data_overflows s addr n payload rest cli fd st i :
  connections s !! addr = Some cli ->
  tid cli = addr -> inited cli = true -> file cli = Some fd ->
  w_open (listener s) !! fd = Some st -> st_closed st = false ->
  st_writable st = true ->
  w_files (listener s) !! st_name st = Some i ->
  st_pos st = length (i_data i) ->
  (w_free (listener s) < length payload)%nat ->
  send_ok (listener s) = true ->
  exists s',
    handleConnection addr (len (data_datagram n payload))
      (data_datagram n payload ++ rest) s = Ok s'
    /\ w_sent (listener s')
       = w_sent (listener s)
         ++ [(addr, error_datagram ecDSK "Disk full or allocation exceeded.")]
    /\ connections s' = <[addr := terminated cli]> (connections s)
    /\ w_files (listener s')
       = <[st_name st :=
             {| i_data := i_data i ++ firstn (w_free (listener s)) payload;
                i_read := i_read i; i_write := i_write i |}]>
           (w_files (listener s))
    /\ w_free (listener s') = 0%nat
    /\ w_open (listener s')
       = <[fd := advance st (w_free (listener s)) false]> (w_open (listener s)).
Proof.
  intros Hc Ht Hi Hfile Hst Hcl Hwr Hf Hpos Hfree Hok.
  unfold handleConnection, attach. rewrite Hc.
  unfold pipeline. rewrite newRequest_data.
  rewrite handleRequest_data by (reflexivity || assumption).
  cbn [req_body]. rewrite Hfile.
  destruct (io_Copy_append fd st i payload (listener s) Hst Hcl Hwr Hf Hpos)
    as (w' & HC & Ho & Hfi & Hfr & Hso).
  rewrite HC.
  assert ((length payload <=? w_free (listener s))%nat = false) as ->
    by (apply Nat.leb_gt; exact Hfree).
  rewrite length_firstn, Nat.min_l in Ho, Hfr by lia.
  unfold socket in Hso. injection Hso as Hn' Hs'.
  cbn [bind is_endOfSession as_error].
  destruct (handleError_ok cli (as_error (newTFTPError ecDSK []))
              (set_world w' s))
    as (s2 & HE & Hc2 & Hs2 & Hst2 & Ho2).
  { unfold send_ok in *. cbn. rewrite Hn'. exact Hok. }
  rewrite HE. cbn [bind]. eexists. split; [reflexivity|].
  rewrite commit_listener. unfold store in Hst2. injection Hst2 as Hf2 Hfr2.
  cbn in Hc2, Hs2, Hf2, Hfr2, Ho2.
  split_and!.
  - rewrite Hs2, Hs', Ht. reflexivity.
  - unfold commit. cbn [tid terminated]. rewrite Ht, Hc2, Hc.
    cbn [connections]. reflexivity.
  - congruence.
  - rewrite Hfr2, Hfr. lia.
  - congruence.
Qed.

(** X20: one turn of the serving loop on a DATA block that does not fit
    the free space: the answer is DISK_FULL, the bytes that fit have been
    written, and the session is flagged inited and lastPkt. *)
Theorem data_beyond_free_space p addr n payload cli fd st i :
  (length (data_datagram n payload) <= length (buffer p))%nat ->
  connections (server p) !! addr = Some cli ->
  tid cli = addr -> inited cli = true -> file cli = Some fd ->
  w_open (listener (server p)) !! fd = Some st -> st_closed st = false ->
  st_writable st = true ->
  w_files (listener (server p)) !! st_name st = Some i ->
  st_pos st = length (i_data i) ->
  (w_free (listener (server p)) < length payload)%nat ->
  send_ok (listener (server p)) = true ->
  exists p',
    serve_one p addr (data_datagram n payload) = Ok p'
    /\ length (buffer p') = length (buffer p)
    /\ w_sent (listener (server p'))
       = w_sent (listener (server p))
         ++ [(addr, error_datagram ecDSK "Disk full or allocation exceeded.")]
    /\ connections (server p')
       = <[addr := terminated cli]> (connections (server p))
    /\ w_files (listener (server p'))
       = <[st_name st :=
             {| i_data := i_data i
                          ++ firstn (w_free (listener (server p))) payload;
                i_read := i_read i; i_write := i_write i |}]>
           (w_files (listener (server p)))
    /\ w_free (listener (server p')) = 0%nat
    /\ w_open (listener (server p'))
       = <[fd := advance st (w_free (listener (server p))) false]>
           (w_open (listener (server p))).
Proof.
  intros Hfit Hc Ht Hi Hfile Hst Hcl Hwr Hf Hpos Hfree Hok.
  rewrite serve_one_fits by exact Hfit.
  destruct (data_overflows (server p) addr n payload
              (skipn (length (data_datagram n payload)) (buffer p))
              cli fd st i Hc Ht Hi Hfile Hst Hcl Hwr Hf Hpos Hfree Hok)
    as (s' & -> & Hs' & Hc' & Hf' & Hfr' & Ho').
  cbn [bind]. eexists. split; [reflexivity|]. cbn [server buffer].
  split_and!; try assumption. apply length_refill. exact Hfit.
Qed.

Lemma data_beyond_free_space_witness :
  ((length (data_datagram 1 [Byte.x68; Byte.x69; Byte.x21])
    <= length (buffer (process_writing 2)))%nat
   /\ connections (server (process_writing 2)) !! peer
      = Some (writing_client peer 0)
   /\ w_open (listener (server (process_writing 2))) !! 0%nat
      = Some (new_stream "new.txt" true)
   /\ w_files (listener (server (process_writing 2))) !! "new.txt"%string
      = Some (file_of [])
   /\ (w_free (listener (server (process_writing 2)))
       < length [Byte.x68; Byte.x69; Byte.x21])%nat
   /\ send_ok (listener (server (process_writing 2))) = true)
  /\ exists p',
       serve_one (process_writing 2) peer
         (data_datagram 1 [Byte.x68; Byte.x69; Byte.x21]) = Ok p'
       /\ length (buffer p') = length (buffer (process_writing 2))
       /\ w_sent (listener (server p'))
          = [ (peer, ack_datagram 0);
              (peer, error_datagram ecDSK "Disk full or allocation exceeded.") ]
       /\ connections (server p')
          = <[peer := terminated (writing_client peer 0)]>
              (connections (server (process_writing 2)))
       /\ w_files (listener (server p'))
          = <["new.txt"%string := file_of [Byte.x68; Byte.x69]]>
              (w_files (listener (server (process_writing 2))))
       /\ w_free (listener (server p')) = 0%nat
       /\ w_open (listener (server p'))
          = [ {| st_name := "new.txt"; st_pos := 2; st_writable := true;
                 st_closed := false |} ].
Proof.
  assert (length (data_datagram 1 [Byte.x68; Byte.x69; Byte.x21])
          <= length (buffer (process_writing 2)))%nat as H0
    by (apply Nat.leb_le; vm_compute; reflexivity).
  assert (connections (server (process_writing 2)) !! peer
          = Some (writing_client peer 0)) as H1 by (vm_compute; reflexivity).
  assert (w_files (listener (server (process_writing 2))) !! "new.txt"%string
          = Some (file_of [])) as H2 by (vm_compute; reflexivity).
  assert (w_free (listener (server (process_writing 2)))
          < length [Byte.x68; Byte.x69; Byte.x21])%nat as H3
    by (simpl; lia).
  split; [split_and!; solve [reflexivity | assumption]|].
  exact (data_beyond_free_space (process_writing 2) peer 1
           [Byte.x68; Byte.x69; Byte.x21] (writing_client peer 0) 0%nat
           (new_stream "new.txt" true) (file_of [])
           H0 H1 eq_refl eq_refl eq_refl eq_refl eq_refl eq_refl H2 eq_refl
           H3 eq_refl).
Defined.

(** ** A DATA block for a stream that was opened for reading *)

Lemma data_refused s addr n b payload rest cli fd st :
  connections s !! addr = Some cli ->
  tid cli = addr -> inited cli = true -> file cli = Some fd ->
  w_open (listener s) !! fd = Some st ->
  st_writable st = false ->
  send_ok (listener s) = true ->
  exists s',
    handleConnection addr (len (data_datagram n (b :: payload)))
      (data_datagram n (b :: payload) ++ rest) s = Ok s'
    /\ w_sent (listener s')
       = w_sent (listener s)
         ++ [(addr, error_datagram ecNDEF "Unexpected error.")]
    /\ connections s' = <[addr := terminated cli]> (connections s)
    /\ w_files (listener s') = w_files (listener s)
    /\ w_free (listener s') = w_free (listener s)
    /\ w_open (listener s') = w_open (listener s).
Proof.
  intros Hc Ht Hi Hfile Hst Hwr Hok.
  unfold handleConnection, attach. rewrite Hc.
  unfold pipeline. rewrite newRequest_data.
  rewrite handleRequest_data by (reflexivity || assumption).
  cbn [req_body]. rewrite Hfile.
  assert (exists e, io_Copy (Some fd) (b :: payload) (listener s)
                    = (Some (errOS e), listener s)
                    /\ e <> ENOSPC) as (e & -> & Hne).
  { unfold io_Copy, file_Write, live_stream. rewrite Hst.
    destruct (st_closed st); [|rewrite Hwr]; eexists; split;
      try reflexivity; discriminate. }
  rewrite set_world_id.
  assert (is_endOfSession (errOS e) = false) as Hend by reflexivity.
  destruct (handleError_ok cli (errOS e) s Hok)
    as (s2 & HE & Hc2 & Hs2 & Hst2 & Ho2).
  unfold store in Hst2. injection Hst2 as Hf2 Hfr2.
  destruct e; try contradiction; cbn [bind is_endOfSession];
    rewrite HE; cbn [bind]; (eexists; split; [reflexivity|]);
    rewrite commit_listener; split_and!; try assumption;
    try (rewrite Hs2, Ht; reflexivity);
    unfold commit; cbn [tid terminated]; rewrite Ht, Hc2, Hc;
    cbn [connections]; reflexivity.
Qed.

(** X21: one turn of the serving loop on a DATA block with a payload,
    sent into a session whose stream was opened for reading: nothing is
    written and the answer is the generic error, code 0 and
    [Unexpected error.]; the operating system's own error never reaches
    the wire. *)
Theorem data_for_a_read_only_stream p addr n b payload cli fd st :
  (length (data_datagram n (b :: payload)) <= length (buffer p))%nat ->
  connections (server p) !! addr = Some cli ->
  tid cli = addr -> inited cli = true -> file cli = Some fd ->
  w_open (listener (server p)) !! fd = Some st ->
  st_writable st = false ->
  send_ok (listener (server p)) = true ->
  exists p',
    serve_one p addr (data_datagram n (b :: payload)) = Ok p'
    /\ length (buffer p') = length (buffer p)
    /\ w_sent (listener (server p'))
       = w_sent (listener (server p))
         ++ [(addr, error_datagram ecNDEF "Unexpected error.")]
    /\ connections (server p')
       = <[addr := terminated cli]> (connections (server p))
    /\ w_files (listener (server p')) = w_files (listener (server p))
    /\ w_free (listener (server p')) = w_free (listener (server p))
    /\ w_open (listener (server p')) = w_open (listener (server p)).
Proof.
  intros Hfit Hc Ht Hi Hfile Hst Hwr Hok.
  rewrite serve_one_fits by exact Hfit.
  destruct (data_refused (server p) addr n b payload
              (skipn (length (data_datagram n (b :: payload))) (buffer p))
              cli fd st Hc Ht Hi Hfile Hst Hwr Hok)
    as (s' & -> & Hs' & Hc' & Hf' & Hfr' & Ho').
  cbn [bind]. eexists. split; [reflexivity|]. cbn [server buffer].
  split_and!; try assumption. apply length_refill. exact Hfit.
Qed.

Lemma data_for_a_read_only_stream_witness :
  ((length (data_datagram 1 [Byte.x21]) <= length (buffer process_reading))%nat
   /\ connections (server process_reading) !! peer
      = Some {| tid := peer; file := Some 0%nat; inited := true;
                lastPkt := false; blockSize := 512; bytesLeft := 488 |}
   /\ w_open (listener (server process_reading)) !! 0%nat
      = Some {| st_name := "foo.txt"; st_pos := 512; st_writable := false;
                st_closed := false |}
   /\ send_ok (listener (server process_reading)) = true)
  /\ exists p',
       serve_one process_reading peer (data_datagram 1 [Byte.x21]) = Ok p'
       /\ length (buffer p') = length (buffer process_reading)
       /\ w_sent (listener (server p'))
          = w_sent (listener (server process_reading))
            ++ [(peer, error_datagram ecNDEF "Unexpected error.")]
       /\ connections (server p')
          = <[peer := terminated
                        {| tid := peer; file := Some 0%nat; inited := true;
                           lastPkt := false; blockSize := 512;
                           bytesLeft := 488 |}]>
              (connections (server process_reading))
       /\ w_files (listener (server p'))
          = w_files (listener (server process_reading))
       /\ w_free (listener (server p'))
          = w_free (listener (server process_reading))
       /\ w_open (listener (server p'))
          = w_open (listener (server process_reading)).
Proof.
  assert (length (data_datagram 1 [Byte.x21])
          <= length (buffer process_reading))%nat as H0
    by (apply Nat.leb_le; vm_compute; reflexivity).
  assert (connections (server process_reading) !! peer
          = Some {| tid := peer; file := Some 0%nat; inited := true;
                    lastPkt := false; blockSize := 512; bytesLeft := 488 |})
    as H1 by (vm_compute; reflexivity).
  split; [split_and!; solve [reflexivity | assumption]|].
  exact (data_for_a_read_only_stream process_reading peer 1 Byte.x21 []
           _ 0%nat _ H0 H1 eq_refl eq_refl eq_refl eq_refl eq_refl eq_refl).
Defined.

(** ** A whole WRITE session *)



Lemma length_data_datagram n payload :
  length (data_datagram n payload) = (4 + length payload)%nat.
Proof. reflexivity. Qed.

Section WriteSession.
Variables (p0 : process) (addr name : string).
Hypothesis Hbuf : length (buffer p0) = bodyMaxSize.
Hypothesis Hfits : (length (wrq_datagram name) <= bodyMaxSize)%nat.
Hypothesis Hfresh : connections (server p0) !! addr = None.
Hypothesis Hname : ~ In Byte.x00 (list_byte_of_string name).
Hypothesis Hnonempty : name <> ""%string.
Hypothesis Hnew : w_files (listener (server p0)) !! name = None.
Hypothesis Hdir : w_dir_writable (listener (server p0)) = true.
Hypothesis Hnet : w_net (listener (server p0)) = [].


End WriteSession.



(** ** What the server sends, read back *)

(** X9: the datagram [sendResponse] hands to the socket for a DATA
    response is four header bytes and the body, and [newRequest] decodes
    it back to DATA, the block number modulo 65536 and the same body. *)
Theorem sent_block_is_decoded_back cli resp s rest :
  resp_opcode resp = opDATA ->
  send_ok (listener s) = true ->
  exists pkt,
    sendResponse cli resp s
    = (None,
       set_world
         (set_socket (tl (w_net (listener s)))
            (w_sent (listener s) ++ [(tid cli, pkt)]) (listener s)) s)
    /\ len pkt = hdrsize + len (resp_body resp)
    /\ newRequest (len pkt) (pkt ++ rest)
       = Ok {| req_numRead := len pkt; req_body := resp_body resp;
               req_opcode := opDATA; req_number := wrap16 (resp_number resp);
               req_filename := ""; req_mode := ""; req_errorMessage := "" |}.
Proof.
  intros Hop Hok. rewrite sendResponse_spec. cbv zeta. rewrite Hok, Hop.
  eexists. split; [reflexivity|].
  fold (data_datagram (resp_number resp) (resp_body resp)).
  split; [|apply newRequest_data].
  unfold data_datagram, PutUint16, hdrsize, len. cbn [app length]. lia.
Qed.

Lemma sent_block_is_decoded_back_witness :
  send_ok world_foo = true
  /\ exists pkt,
       sendResponse (newClient peer)
         {| resp_opcode := opDATA; resp_number := 65536;
            resp_body := [Byte.x68; Byte.x69] |}
         {| connections := ∅; listener := world_foo |}
       = (None,
          set_world
            (set_socket (tl (w_net world_foo))
               (w_sent world_foo ++ [(peer, pkt)]) world_foo)
            {| connections := ∅; listener := world_foo |})
       /\ len pkt = hdrsize + 2
       /\ newRequest (len pkt) (pkt ++ [Byte.xff])
          = Ok {| req_numRead := len pkt;
                  req_body := [Byte.x68; Byte.x69];
                  req_opcode := opDATA; req_number := 0;
                  req_filename := ""; req_mode := "";
                  req_errorMessage := "" |}.
Proof.
  split; [reflexivity|].
  exact (sent_block_is_decoded_back (newClient peer)
           {| resp_opcode := opDATA; resp_number := 65536;
              resp_body := [Byte.x68; Byte.x69] |}
           {| connections := ∅; listener := world_foo |} [Byte.xff]
           eq_refl eq_refl).
Defined.

(** X10: the datagram [sendError] hands to the socket is decoded by
    [newRequest] to an ERROR request with the error's code modulo 65536
    and its message, as long as the message holds no zero byte. *)
Theorem sent_error_is_decoded_back cli err s rest :
  ~ In Byte.x00 (list_byte_of_string (message err)) ->
  send_ok (listener s) = true ->
  exists pkt,
    w_sent (listener (snd (sendError cli err s)))
    = w_sent (listener s) ++ [(tid cli, pkt)]
    /\ fst (sendError cli err s) = None
    /\ newRequest (len pkt) (pkt ++ rest)
       = Ok {| req_numRead := len pkt; req_body := rest;
               req_opcode := opERROR; req_number := wrap16 (code err);
               req_filename := ""; req_mode := "";
               req_errorMessage := message err |}.
Proof.
  intros Hn Hok. unfold sendError. rewrite sendResponse_spec. cbv zeta.
  cbn [listener set_world w_net w_sent log_Print resp_opcode resp_number
       resp_body].
  unfold send_ok in *. cbn [w_net log_Print]. rewrite Hok.
  eexists. cbn [snd fst listener set_world set_socket w_sent].
  split; [reflexivity|]. split; [reflexivity|].
  fold (error_datagram (wrap16 (code err)) (message err)).
  rewrite newRequest_error_datagram by exact Hn.
  unfold wrap16. rewrite Z.mod_mod by lia. reflexivity.
Qed.

Lemma sent_error_is_decoded_back_witness :
  (~ In Byte.x00 (list_byte_of_string (message (newTFTPError ecUTID [])))
   /\ send_ok world_foo = true)
  /\ exists pkt,
       w_sent (listener
                 (snd (sendError (newClient peer) (newTFTPError ecUTID [])
                         {| connections := ∅; listener := world_foo |})))
       = w_sent world_foo ++ [(peer, pkt)]
       /\ fst (sendError (newClient peer) (newTFTPError ecUTID [])
                 {| connections := ∅; listener := world_foo |}) = None
       /\ newRequest (len pkt) (pkt ++ [])
          = Ok {| req_numRead := len pkt; req_body := [];
                  req_opcode := opERROR; req_number := 5;
                  req_filename := ""; req_mode := "";
                  req_errorMessage := "Unknown transfer ID." |}.
Proof.
  assert (~ In Byte.x00
            (list_byte_of_string (message (newTFTPError ecUTID [])))) as H1
    by (simpl; intuition discriminate).
  split; [split; [exact H1 | reflexivity]|].
  exact (sent_error_is_decoded_back (newClient peer) (newTFTPError ecUTID [])
           {| connections := ∅; listener := world_foo |} [] H1 eq_refl).
Defined.

(** ** The table of error messages *)

(** X11: the code of an error built by [newTFTPError] is one of the
    eight of the table, so the table is never indexed out of range: a code
    up to 7 is kept and any other becomes 0; an error with a code other
    than 0 carries the table's message, which is not empty, and one with
    code 0 carries the caller's words joined by spaces. *)
Theorem newTFTPError_stays_in_the_table (c : Z) (clientMessage : list string) :
  0 <= c ->
  let e := newTFTPError c clientMessage in
  0 <= code e <= ecNOUS
  /\ (Z.to_nat (code e) < length tftpErrors)%nat
  /\ (c <= ecNOUS -> code e = c)
  /\ (ecNOUS < c -> code e = ecNDEF)
  /\ (code e <> ecNDEF ->
      message e = nth (Z.to_nat c) tftpErrors ""%string
      /\ message e <> ""%string)
  /\ (code e = ecNDEF -> message e = String.concat " " clientMessage).
Proof.
  intros Hc e. subst e. unfold newTFTPError, ecNOUS, ecNDEF.
  cbn [code message].
  destruct (Z.ltb_spec 7 c) as [H|H].
  - cbn. split_and!; try lia; reflexivity.
  - assert (c = 0 \/ c = 1 \/ c = 2 \/ c = 3 \/ c = 4 \/ c = 5 \/ c = 6
            \/ c = 7) as Hcases by lia.
    destruct Hcases as [->|[->|[->|[->|[->|[->|[->| ->]]]]]]]; cbn;
      split_and!; try lia; try reflexivity; intros; try lia;
      split; try reflexivity; discriminate.
Qed.

Lemma newTFTPError_stays_in_the_table_witness :
  0 <= 300
  /\ 0 <= code (newTFTPError 300 ["no"; "such"; "code"]%string) <= ecNOUS
  /\ (Z.to_nat (code (newTFTPError 300 ["no"; "such"; "code"]%string))
      < length tftpErrors)%nat
  /\ (300 <= ecNOUS ->
      code (newTFTPError 300 ["no"; "such"; "code"]%string) = 300)
  /\ (ecNOUS < 300 ->
      code (newTFTPError 300 ["no"; "such"; "code"]%string) = ecNDEF)
  /\ (code (newTFTPError 300 ["no"; "such"; "code"]%string) <> ecNDEF ->
      message (newTFTPError 300 ["no"; "such"; "code"]%string)
      = nth (Z.to_nat 300) tftpErrors ""%string
      /\ message (newTFTPError 300 ["no"; "such"; "code"]%string)
         <> ""%string)
  /\ (code (newTFTPError 300 ["no"; "such"; "code"]%string) = ecNDEF ->
      message (newTFTPError 300 ["no"; "such"; "code"]%string)
      = String.concat " " ["no"; "such"; "code"]%string).
Proof.
  assert (0 <= 300) as H by lia.
  split; [exact H|].
  exact (newTFTPError_stays_in_the_table 300 ["no"; "such"; "code"]%string H).
Defined.

(** ** Block numbers of ACKs are not compared *)

(** X24: an ACK on a READ session that is not flagged lastPkt is
    answered with the next 512 bytes from the position of the stream,
    numbered one more than the number the ACK carries, modulo 65536; that
    number is not compared with the block sent last. *)
Theorem ack_number_is_not_checked s addr n rest cli fd st i :
  connections s !! addr = Some cli ->
  tid cli = addr -> inited cli = true -> lastPkt cli = false ->
  file cli = Some fd -> blockSize cli = defaultBlockSize ->
  w_open (listener s) !! fd = Some st -> st_closed st = false ->
  w_files (listener s) !! st_name st = Some i ->
  w_net (listener s) = [] ->
  let chunk := firstn 512 (skipn (st_pos st) (i_data i)) in
  exists s',
    handleConnection addr 4 (ack_datagram n ++ rest) s = Ok s'
    /\ w_sent (listener s')
       = w_sent (listener s) ++ [(addr, data_datagram (wrap16 (n + 1)) chunk)]
    /\ w_open (listener s')
       = <[fd := advance st (length chunk) (bytesLeft cli <=? 0)]>
           (w_open (listener s))
    /\ w_files (listener s') = w_files (listener s).
Proof.
  intros Hc Ht Hi Hl Hf Hbs Hst Hcl Hfile Hnet chunk.
  destruct (ack_builds_next_block s addr n rest cli fd st i
              Hc Ht Hi Hl Hf Hbs Hst Hcl Hfile Hnet)
    as (s' & HC & _ & Ho & Hfi & _ & Hs).
  exists s'. auto.
Qed.

Lemma ack_number_is_not_checked_witness :
  (connections server_reading !! peer
   = Some {| tid := peer; file := Some 0%nat; inited := true;
             lastPkt := false; blockSize := 512; bytesLeft := 488 |}
   /\ w_open (listener server_reading) !! 0%nat
      = Some {| st_name := "foo.txt"; st_pos := 512; st_writable := false;
                st_closed := false |}
   /\ w_files (listener server_reading) !! "foo.txt"%string
      = Some (file_of (repeat Byte.x41 1000))
   /\ w_net (listener server_reading) = [])
  /\ exists s',
       handleConnection peer 4 (ack_datagram 65535 ++ []) server_reading
       = Ok s'
       /\ w_sent (listener s')
          = w_sent (listener server_reading)
            ++ [(peer, data_datagram 0 (repeat Byte.x41 488))]
       /\ w_open (listener s')
          = [ {| st_name := "foo.txt"; st_pos := 1000; st_writable := false;
                 st_closed := false |} ]
       /\ w_files (listener s') = w_files (listener server_reading).
Proof.
  assert (connections server_reading !! peer
          = Some {| tid := peer; file := Some 0%nat; inited := true;
                    lastPkt := false; blockSize := 512; bytesLeft := 488 |})
    as H1 by (vm_compute; reflexivity).
  assert (w_files (listener server_reading) !! "foo.txt"%string
          = Some (file_of (repeat Byte.x41 1000))) as H2
    by (vm_compute; reflexivity).
  split; [split_and!; solve [reflexivity | assumption]|].
  exact (ack_number_is_not_checked server_reading peer 65535 [] _ 0%nat
           {| st_name := "foo.txt"; st_pos := 512; st_writable := false;
              st_closed := false |}
           (file_of (repeat Byte.x41 1000))
           H1 eq_refl eq_refl eq_refl eq_refl eq_refl eq_refl eq_refl H2
           eq_refl).
Defined.

(** ** A DATA block longer than the receive buffer *)

Lemma ReadFrom_cut n payload buf :
  length buf = bodyMaxSize ->
  (bodyMaxSize - 4 <= length payload)%nat ->
  ReadFrom (data_datagram n payload) buf
  = (len (data_datagram n (firstn (bodyMaxSize - 4) payload)),
     data_datagram n (firstn (bodyMaxSize - 4) payload) ++ []).
Proof.
  intros Hb Hp. unfold ReadFrom.
  rewrite length_data_datagram, Hb, Nat.min_r
    by (unfold bodyMaxSize in *; lia).
  rewrite skipn_all2 by lia.
  assert (firstn bodyMaxSize (data_datagram n payload)
          = data_datagram n (firstn (bodyMaxSize - 4) payload)) as ->.
  { unfold data_datagram.
    change ([Byte.x00; opDATA] ++ PutUint16 n ++ payload)
      with (([Byte.x00; opDATA] ++ PutUint16 n) ++ payload).
    change bodyMaxSize
      with (length ([Byte.x00; opDATA] ++ PutUint16 n) + (bodyMaxSize - 4))%nat
      at 1.
    rewrite firstn_app_2, <- app_assoc. reflexivity. }
  assert (len (data_datagram n (firstn (bodyMaxSize - 4) payload))
          = Z.of_nat bodyMaxSize) as ->; [|reflexivity].
  unfold len. rewrite length_data_datagram, length_firstn.
  unfold bodyMaxSize in *. lia.
Qed.

(** X22: of a DATA datagram longer than the 2048 bytes of the receive
    buffer only the first 2044 payload bytes are written; the block is
    acknowledged as usual. *)
Theorem oversized_data_block_is_cut p addr n payload cli fd st i :
  length (buffer p) = bodyMaxSize ->
  (bodyMaxSize - 4 <= length payload)%nat ->
  connections (server p) !! addr = Some cli ->
  tid cli = addr -> inited cli = true -> file cli = Some fd ->
  w_open (listener (server p)) !! fd = Some st -> st_closed st = false ->
  st_writable st = true ->
  w_files (listener (server p)) !! st_name st = Some i ->
  st_pos st = length (i_data i) ->
  (bodyMaxSize - 4 <= w_free (listener (server p)))%nat ->
  w_net (listener (server p)) = [] ->
  exists p',
    serve_one p addr (data_datagram n payload) = Ok p'
    /\ w_files (listener (server p'))
       = <[st_name st :=
             {| i_data := i_data i ++ firstn (bodyMaxSize - 4) payload;
                i_read := i_read i; i_write := i_write i |}]>
           (w_files (listener (server p)))
    /\ w_sent (listener (server p'))
       = w_sent (listener (server p)) ++ [(addr, ack_datagram (wrap16 n))]
    /\ connections (server p') = connections (server p).
Proof.
  intros Hb Hp Hc Ht Hi Hfile Hst Hcl Hwr Hf Hpos Hfree Hnet.
  unfold serve_one. rewrite (ReadFrom_cut n payload _ Hb Hp).
  assert (length (firstn (bodyMaxSize - 4) payload) = (bodyMaxSize - 4)%nat)
    as Hl by (rewrite length_firstn; lia).
  destruct (data_appends (server p) addr n (firstn (bodyMaxSize - 4) payload)
              [] cli fd st i Hc Ht Hi Hfile Hst Hcl Hwr Hf Hpos
              ltac:(rewrite Hl; exact Hfree) Hnet)
    as (s' & -> & Hc' & _ & Hf' & _ & _ & Hs').
  cbn [bind]. eexists. split; [reflexivity|]. cbn [server]. auto.
Qed.

Lemma oversized_data_block_is_cut_witness :
  (length (buffer (process_writing 4096)) = bodyMaxSize
   /\ (bodyMaxSize - 4 <= length (repeat Byte.x41 3000))%nat
   /\ connections (server (process_writing 4096)) !! peer
      = Some (writing_client peer 0)
   /\ w_open (listener (server (process_writing 4096))) !! 0%nat
      = Some (new_stream "new.txt" true)
   /\ w_files (listener (server (process_writing 4096))) !! "new.txt"%string
      = Some (file_of [])
   /\ (bodyMaxSize - 4 <= w_free (listener (server (process_writing 4096))))%nat
   /\ w_net (listener (server (process_writing 4096))) = [])
  /\ exists p',
       serve_one (process_writing 4096) peer
         (data_datagram 1 (repeat Byte.x41 3000)) = Ok p'
       /\ w_files (listener (server p'))
          = <["new.txt"%string :=
                file_of (firstn (bodyMaxSize - 4) (repeat Byte.x41 3000))]>
              (w_files (listener (server (process_writing 4096))))
       /\ w_sent (listener (server p'))
          = w_sent (listener (server (process_writing 4096)))
            ++ [(peer, ack_datagram 1)]
       /\ connections (server p') = connections (server (process_writing 4096)).
Proof.
  assert (length (buffer (process_writing 4096)) = bodyMaxSize) as H1
    by (vm_compute; reflexivity).
  assert (bodyMaxSize - 4 <= length (repeat Byte.x41 3000))%nat as H2
    by (apply Nat.leb_le; vm_compute; reflexivity).
  assert (connections (server (process_writing 4096)) !! peer
          = Some (writing_client peer 0)) as H3 by (vm_compute; reflexivity).
  assert (w_files (listener (server (process_writing 4096))) !! "new.txt"%string
          = Some (file_of [])) as H4 by (vm_compute; reflexivity).
  assert (bodyMaxSize - 4 <= w_free (listener (server (process_writing 4096))))%nat
    as H5 by (apply Nat.leb_le; vm_compute; reflexivity).
  split; [split_and!; solve [reflexivity | assumption]|].
  exact (oversized_data_block_is_cut (process_writing 4096) peer 1
           (repeat Byte.x41 3000) (writing_client peer 0) 0%nat
           (new_stream "new.txt" true) (file_of [])
           H1 H2 H3 eq_refl eq_refl eq_refl eq_refl eq_refl eq_refl H4
           eq_refl H5 eq_refl).
Defined.

(** ** The length of the datagram and the strings it holds *)

(** X25: for every opcode but DATA and ACK the request [newRequest]
    decodes does not depend on the length of the datagram, apart from the
    field that records it: file name, mode and message are read up to the
    zero bytes of the buffer, be they beyond the datagram's end. *)
Theorem strings_are_read_past_the_datagram n m b0 op rest :
  Byte.eqb op opDATA || Byte.eqb op opACK = false ->
  newRequest n (b0 :: op :: rest)
  = match newRequest m (b0 :: op :: rest) with
    | Ok req => Ok (with_numRead n req)
    | Err e => Err e
    | Panic => Panic
    end.
Proof.
  intros Hop. unfold newRequest. rewrite index_1, slice_from_2.
  cbn [bind]. rewrite Hop.
  destruct (Byte.eqb op opRRQ || Byte.eqb op opWRQ).
  - destruct (readCString rest) as [[k f]| |]; cbn [bind]; try reflexivity.
    destruct (slice_from rest k) as [r1| |]; cbn [bind]; try reflexivity.
    destruct (readCString r1) as [[k2 md]| |]; cbn [bind]; try reflexivity.
    destruct (negb (String.eqb md "octet")); [reflexivity|].
    destruct (slice_from r1 k2); reflexivity.
  - destruct (Byte.eqb op opERROR); [|reflexivity].
    destruct (slice_to rest 2) as [fld| |]; cbn [bind]; try reflexivity.
    destruct (Uint16 fld) as [num| |]; cbn [bind]; try reflexivity.
    destruct (slice_from rest 2) as [r1| |]; cbn [bind]; try reflexivity.
    destruct (readCString r1) as [[k f]| |]; cbn [bind]; try reflexivity.
    destruct (slice_from r1 k); reflexivity.
Qed.

Lemma strings_are_read_past_the_datagram_witness :
  Byte.eqb opRRQ opDATA || Byte.eqb opRRQ opACK = false
  /\ newRequest 5
       (Byte.x00 :: opRRQ
        :: list_byte_of_string "foo" ++ toCString "" ++ toCString "octet")
     = match newRequest 12
               (Byte.x00 :: opRRQ
                :: list_byte_of_string "foo" ++ toCString ""
                   ++ toCString "octet") with
       | Ok req => Ok (with_numRead 5 req)
       | Err e => Err e
       | Panic => Panic
       end.
Proof.
  split; [reflexivity|].
  exact (strings_are_read_past_the_datagram 5 12 Byte.x00 opRRQ
           (list_byte_of_string "foo" ++ toCString "" ++ toCString "octet")
           eq_refl).
Defined.

(** ** An RRQ on a session that is already open *)

Lemma handleRequest_rrq_open cli req s :
  req_opcode req = opRRQ -> inited cli = true ->
  handleRequest cli req s = (None, cli, set_world (listener s) s).
Proof.
  intros Hop Hi. unfold handleRequest. rewrite Hop, Hi. reflexivity.
Qed.

(** X26: an RRQ from an address whose session is open does not open
    the file it names: it is answered with DATA numbered 1 holding the
    next 512 bytes from the position of the session's stream, and no
    stream is added. *)
Theorem rrq_on_open_session_reads_on s addr numRead name rest cli fd st i :
  connections s !! addr = Some cli ->
  tid cli = addr -> inited cli = true ->
  file cli = Some fd -> blockSize cli = defaultBlockSize ->
  w_open (listener s) !! fd = Some st -> st_closed st = false ->
  w_files (listener s) !! st_name st = Some i ->
  ~ In Byte.x00 (list_byte_of_string name) ->
  w_net (listener s) = [] ->
  let chunk := firstn 512 (skipn (st_pos st) (i_data i)) in
  exists s',
    handleConnection addr numRead (rrq_datagram name ++ rest) s = Ok s'
    /\ w_sent (listener s')
       = w_sent (listener s) ++ [(addr, data_datagram 1 chunk)]
    /\ w_open (listener s')
       = <[fd := advance st (length chunk) (bytesLeft cli <=? 0)]>
           (w_open (listener s))
    /\ w_files (listener s') = w_files (listener s).
Proof.
  intros Hc Ht Hi Hf Hbs Hst Hcl Hfile Hn Hnet chunk.
  unfold handleConnection, attach. rewrite Hc.
  unfold pipeline. rewrite newRequest_rrq by exact Hn.
  rewrite handleRequest_rrq_open by (reflexivity || assumption).
  rewrite set_world_id.
  unfold newResponse, make_bytes. cbn [req_opcode req_number].
  change (Byte.eqb opRRQ opRRQ || Byte.eqb opRRQ opACK) with true. cbv iota.
  rewrite Hbs. change (defaultBlockSize <? 0) with false. cbv iota.
  cbn [bind]. change (wrap16 (0 + 1)) with 1.
  set (resp := {| resp_opcode := opDATA; resp_number := 1;
                  resp_body := repeat Byte.x00 (Z.to_nat defaultBlockSize) |}).
  assert (length (resp_body resp) = 512%nat) as Hlen
    by (unfold resp; cbn [resp_body]; rewrite repeat_length; reflexivity).
  destruct (handleResponse_data cli resp s fd st i eq_refl
              ltac:(rewrite Hlen; lia) Hf Hst Hcl Hfile)
    as (s1 & HR & Ho1).
  rewrite Hlen in HR, Ho1. fold chunk in HR, Ho1.
  rewrite HR.
  apply handleResponse_frame in HR.
  destruct HR as (Hso & Hsto & _ & _ & Hc1 & _).
  unfold socket in Hso. injection Hso as Hn1 Hs1.
  unfold store in Hsto. injection Hsto as Hfi1 _.
  rewrite sendResponse_spec. cbv zeta.
  rewrite send_ok_quiet by congruence.
  cbn [bind is_endOfSession]. eexists. split; [reflexivity|].
  rewrite commit_listener.
  cbn [listener set_world set_socket w_open w_files w_sent tid
       resp_opcode resp_number resp_body].
  rewrite Hs1, Ht. split_and!; [reflexivity | exact Ho1 | exact Hfi1].
Qed.

Lemma rrq_on_open_session_reads_on_witness :
  (connections server_reading !! peer
   = Some {| tid := peer; file := Some 0%nat; inited := true;
             lastPkt := false; blockSize := 512; bytesLeft := 488 |}
   /\ w_open (listener server_reading) !! 0%nat
      = Some {| st_name := "foo.txt"; st_pos := 512; st_writable := false;
                st_closed := false |}
   /\ w_files (listener server_reading) !! "foo.txt"%string
      = Some (file_of (repeat Byte.x41 1000))
   /\ ~ In Byte.x00 (list_byte_of_string "bar.txt")
   /\ w_net (listener server_reading) = [])
  /\ exists s',
       handleConnection peer 16 (rrq_datagram "bar.txt" ++ []) server_reading
       = Ok s'
       /\ w_sent (listener s')
          = w_sent (listener server_reading)
            ++ [(peer, data_datagram 1 (repeat Byte.x41 488))]
       /\ w_open (listener s')
          = [ {| st_name := "foo.txt"; st_pos := 1000; st_writable := false;
                 st_closed := false |} ]
       /\ w_files (listener s') = w_files (listener server_reading).
Proof.
  assert (connections server_reading !! peer
          = Some {| tid := peer; file := Some 0%nat; inited := true;
                    lastPkt := false; blockSize := 512; bytesLeft := 488 |})
    as H1 by (vm_compute; reflexivity).
  assert (w_files (listener server_reading) !! "foo.txt"%string
          = Some (file_of (repeat Byte.x41 1000))) as H2
    by (vm_compute; reflexivity).
  assert (~ In Byte.x00 (list_byte_of_string "bar.txt")) as H3
    by (simpl; intuition discriminate).
  split; [split_and!; solve [reflexivity | assumption]|].
  exact (rrq_on_open_session_reads_on server_reading peer 16 "bar.txt" [] _
           0%nat
           {| st_name := "foo.txt"; st_pos := 512; st_writable := false;
              st_closed := false |}
           (file_of (repeat Byte.x41 1000))
           H1 eq_refl eq_refl eq_refl eq_refl eq_refl eq_refl H2 H3 eq_refl).
Defined.
